(** * Self-update mechanism of the UVPD analysis GUI

    A shallow embedding of the update code of
    [GUI/UVPD_GUI_Launcher.py] ([get_latest_commit_sha], [delete_dir],
    [GUI.check_for_update]) and [GUI/Python/Update.py]
    ([Update_GUI_files]), together with the properties of the update
    cycle stated about them.

    The Python code talks to the operating system, to [git] and to the
    user.  Values returned by the outside world (exit status and output
    of [git ls-remote], result of the clone, answer typed by the user,
    ...) are fields of a [host] record; the file system, the pending
    console input and the log of effects are threaded through a
    state-and-exception monad. *)

From Stdlib Require Import String Ascii List ZArith Lia Bool.
From stdpp Require Import base option list gmap strings sorting.

Open Scope string_scope.
Open Scope list_scope.

(** ** Python exceptions *)

Module Py.

(** The exception classes the update code can meet. *)
Inductive exn_class :=
  | BaseException | SystemExit | KeyboardInterrupt | Exception
  | TypeError | EOFError | SubprocessError | GitCommandError
  | OSError | PermissionError | FileNotFoundError | FileExistsError
  | IsADirectoryError | NotADirectoryError | ShutilError.

#[global] Instance exn_class_eq_dec : EqDecision exn_class.
Proof. solve_decision. Defined.

(** Direct base class ([shutil.Error] derives from [OSError]). *)
Definition base (c : exn_class) : option exn_class :=
  match c with
  | BaseException => None
  | SystemExit | KeyboardInterrupt | Exception => Some BaseException
  | TypeError | EOFError | SubprocessError | GitCommandError | OSError =>
      Some Exception
  | PermissionError | FileNotFoundError | FileExistsError
  | IsADirectoryError | NotADirectoryError | ShutilError => Some OSError
  end.

Fixpoint issubclass_fuel (n : nat) (c d : exn_class) : bool :=
  if decide (c = d) then true
  else match n, base c with
       | S n', Some b => issubclass_fuel n' b d
       | _, _ => false
       end.

(** The class hierarchy above has depth three. *)
Definition issubclass (c d : exn_class) : bool := issubclass_fuel 3 c d.

(** A raised exception: its class and [str(e)]. *)
Record exn := Exn { exn_cls : exn_class; exn_str : string }.

Definition isinstance (e : exn) (c : exn_class) : bool :=
  issubclass (exn_cls e) c.

(** Outcome of a call: a value, or an exception on its way up. *)
Inductive result (A : Type) :=
  | Ok (a : A)
  | Raise (e : exn).
Arguments Ok {A} a.
Arguments Raise {A} e.

End Py.
Import Py.

(** ** Python strings *)

Module Str.

Definition chr (n : nat) : string := String (ascii_of_nat n) EmptyString.

Definition LF : string := chr 10.
Definition CR : string := chr 13.
Definition TAB : string := chr 9.
Definition DQUOTE : string := chr 34.

(** [c in s] for a one-character [c]. *)
Fixpoint contains (c : ascii) (s : string) : bool :=
  match s with
  | EmptyString => false
  | String a s' => if decide (a = c) then true else contains c s'
  end.

(** [str.isspace] on code points below 256: U+0009..U+000D,
    U+001C..U+0020, U+0085 and U+00A0. *)
Definition isspace (a : ascii) : bool :=
  let n := nat_of_ascii a in
  (((9 <=? n)%nat && (n <=? 13)%nat) || ((28 <=? n)%nat && (n <=? 32)%nat)
   || (n =? 133)%nat || (n =? 160)%nat)%bool.

Fixpoint lstrip (s : string) : string :=
  match s with
  | EmptyString => EmptyString
  | String a s' => if isspace a then lstrip s' else s
  end.

Fixpoint rstrip (s : string) : string :=
  match s with
  | EmptyString => EmptyString
  | String a s' =>
      match rstrip s' with
      | EmptyString => if isspace a then EmptyString else String a EmptyString
      | r => String a r
      end
  end.

(** [s.strip()] *)
Definition strip (s : string) : string := rstrip (lstrip s).

(** [s.split()] with no separator: the maximal runs of non-blank
    characters, in order.  [cur] is the run being read, if any. *)
Fixpoint split_from (cur : option string) (s : string) : list string :=
  match s with
  | EmptyString => match cur with Some t => [t] | None => [] end
  | String a s' =>
      if isspace a then
        match cur with
        | Some t => t :: split_from None s'
        | None => split_from None s'
        end
      else split_from (Some (default EmptyString cur +:+ String a EmptyString)) s'
  end.

Definition split (s : string) : list string := split_from None s.

End Str.


(** ** The outside world: files, processes, the user *)

Module OS.

(** The file system is a finite map from paths to entries.  An entry
    carries the reason, if any, for which it resists deletion or
    overwriting:
    - [ReadOnly]: refused with [PermissionError] until
      [os.chmod(path, stat.S_IWRITE)] lifts it;
    - [Locked]: refused with [PermissionError] whatever the mode bits
      (an entry held by a cloud-sync client);
    - [Faulty]: every operation on the entry fails with a plain
      [OSError] (a device error). *)
Inductive attr := Normal | ReadOnly | Locked | Faulty.

#[global] Instance attr_eq_dec : EqDecision attr.
Proof. solve_decision. Defined.

Inductive node :=
  | File (content : string) (a : attr)
  | Dir (a : attr).

#[global] Instance node_eq_dec : EqDecision node.
Proof. solve_decision. Defined.

(** A path is the list of its components: [os.path.join] appends,
    [os.path.dirname] drops the last component, [os.path.basename] is
    the last one. *)
Abbreviation path := (list string).

Definition dirname (p : path) : path := removelast p.
Definition basename (p : path) : string := List.last p EmptyString.

Inductive platform := Windows | Posix.

(** The releases of the standard library whose [shutil.rmtree] takes
    [onexc]: Python 3.12, and Python 3.13 and later, in which the walk
    was rewritten. *)
Inductive library := Py312 | Py313.

(** Effects, in the order the program performs them.  An event is
    logged when the call is made, whether or not it then raises. *)
Inductive event :=
  | EvLsRemote (url branch : string)
  | EvQuestion (title prompt : string)
  | EvRmtree (d : path)
  | EvChmod (p : path)
  | EvUnlink (p : path)
  | EvRmdir (p : path)
  | EvClone (url : string) (dst : path) (branch : string)
  | EvPrint (text : string)
  | EvInput (prompt : string)
  | EvOpenW (p : path)
  | EvWrite (p : path) (data : string)
  | EvFlush (p : path)
  | EvFsync (p : path)
  | EvSleep (secs : nat)
  | EvPopen (argv : list string)
  | EvMove (src dst : path)
  | EvExit (code : string).

#[global] Instance event_eq_dec : EqDecision event.
Proof. solve_decision. Defined.

(** [subprocess.CompletedProcess] *)
Record completed_process :=
  { returncode : Z; stdout : string; stderr : string }.

(** What the outside world answers during one run of the launcher. *)
Record host := {
  os_name : platform;
  os_sep : string;
  getcwd : path;
  APPDATA : option string;                  (* os.getenv('APPDATA') *)
  ls_remote : result completed_process;     (* subprocess.run(['git', 'ls-remote', ...]) *)
  clone : result (list (path * node));      (* the tree git would check out, relative *)
  popen : result unit;                      (* subprocess.Popen([...], shell=True) *)
  question : bool                           (* QMessageBox.question(...) == Yes *)
}.

Record state := {
  fs : gmap path node;
  stdin : list string;
  trace : list event
}.

(** Calls run in a state-and-exception monad. *)
Definition M (A : Type) : Type := state → state * result A.

Definition ret {A} (a : A) : M A := λ s, (s, Ok a).

Definition raise {A} (c : exn_class) (msg : string) : M A :=
  λ s, (s, Raise (Exn c msg)).

Definition bind {A B} (m : M A) (k : A → M B) : M B :=
  λ s, match m s with
       | (s', Ok a) => k a s'
       | (s', Raise e) => (s', Raise e)
       end.

(** [try: body except ...]: [handler e] is the body of the first
    [except] clause matching [e], if any. *)
Definition try_except {A} (body : M A) (handler : exn → option (M A)) : M A :=
  λ s, match body s with
       | (s', Ok a) => (s', Ok a)
       | (s', Raise e) =>
           match handler e with
           | Some k => k s'
           | None => (s', Raise e)
           end
       end.

Declare Scope py_scope.
Delimit Scope py_scope with py.
Notation "x <- m ;; k" := (bind m (λ x, k))
  (at level 100, m at next level, right associativity) : py_scope.
Notation "m ;; k" := (bind m (λ _, k))
  (at level 100, right associativity) : py_scope.
Open Scope py_scope.

Fixpoint for_each {A} (l : list A) (body : A → M unit) : M unit :=
  match l with
  | [] => ret tt
  | x :: l' => body x ;; for_each l' body
  end.

Definition log (evs : list event) (s : state) : state :=
  {| fs := fs s; stdin := stdin s; trace := trace s ++ evs |}.

Definition with_fs (m : gmap path node) (s : state) : state :=
  {| fs := m; stdin := stdin s; trace := trace s |}.

(** One logged call acting on the file system. *)
Definition effect {A} (ev : event)
    (f : gmap path node → gmap path node * result A) : M A :=
  λ s, let '(m, r) := f (fs s) in
       ({| fs := m; stdin := stdin s; trace := trace s ++ [ev] |}, r).

Definition emit (ev : event) : M unit := effect ev (λ m, (m, Ok tt)).

(** A query that leaves everything as it is. *)
Definition query {A} (f : gmap path node → A) : M A := λ s, (s, Ok (f (fs s))).

Definition str_path (sep : string) (p : path) : string := String.concat sep p.

Definition ENOENT := Exn FileNotFoundError "[Errno 2] No such file or directory".
Definition EACCES := Exn PermissionError "[Errno 13] Permission denied".
Definition EIO := Exn OSError "[Errno 5] Input/output error".
Definition ENOTEMPTY := Exn OSError "[Errno 39] Directory not empty".
Definition ENOTDIR := Exn NotADirectoryError "[Errno 20] Not a directory".
Definition EISDIR := Exn IsADirectoryError "[Errno 21] Is a directory".
Definition EEXIST := Exn FileExistsError "[Errno 17] File exists".

(** The error of treating a directory as a file ([unlink], [open]),
    when the call is not refused for lack of permission. *)
Definition dir_as_file (os : platform) : exn :=
  match os with Windows => EACCES | Posix => EISDIR end.

Definition isdir (p : path) (m : gmap path node) : bool :=
  match m !! p with Some (Dir _) => true | _ => false end.

Definition isfile (p : path) (m : gmap path node) : bool :=
  match m !! p with Some (File _ _) => true | _ => false end.

(** The entries at or below [d]. *)
Definition under (d : path) (m : gmap path node) : list path :=
  filter (λ p, d `prefix_of` p) (map_to_list m).*1.

(** The entries of a tree, the deepest first, so that an entry comes
    before the directories that contain it.  The order in which
    [shutil.rmtree] meets the entries depends on that of [os.scandir];
    [bottom_up] below holds of every such order, and of this one. *)
Definition deeper_first (p q : path) : Prop := (length q ≤ length p)%nat.

#[global] Instance deeper_first_dec : RelDecision deeper_first.
Proof. intros p q. unfold deeper_first. apply _. Defined.

Definition walk_order (d : path) (m : gmap path node) : list path :=
  merge_sort deeper_first (under d m).

(** The lists of the entries of the tree at [d] in an order in which
    [shutil.rmtree] may meet them, whatever the order in which
    [os.scandir] lists a directory: every entry at or below [d] once,
    none before an entry that it contains. *)
Definition bottom_up (d : path) (m : gmap path node) (listing : list path)
    : Prop :=
  listing ≡ₚ under d m
  ∧ StronglySorted (λ p q, ¬ p `prefix_of` q) listing.

#[global] Instance bottom_up_dec (d : path) (m : gmap path node)
    (listing : list path) : Decision (bottom_up d m listing).
Proof. unfold bottom_up. apply _. Defined.

(** [os.chmod(p, stat.S_IWRITE)] *)
Definition chmod_write (p : path) (m : gmap path node)
    : gmap path node * result unit :=
  match m !! p with
  | None => (m, Raise ENOENT)
  | Some (File _ Faulty) | Some (Dir Faulty) => (m, Raise EIO)
  | Some (File c ReadOnly) => (<[p := File c Normal]> m, Ok tt)
  | Some (Dir ReadOnly) => (<[p := Dir Normal]> m, Ok tt)
  | Some _ => (m, Ok tt)
  end.

(** [os.unlink(p)], also known as [os.remove(p)].  It removes no
    directory; on one that may not be removed it is the permission
    that is refused, on every platform. *)
Definition unlink (os : platform) (p : path) (m : gmap path node)
    : gmap path node * result unit :=
  match m !! p with
  | None => (m, Raise ENOENT)
  | Some (File _ Normal) => (delete p m, Ok tt)
  | Some (File _ Faulty) | Some (Dir Faulty) => (m, Raise EIO)
  | Some (Dir Normal) => (m, Raise (dir_as_file os))
  | Some _ => (m, Raise EACCES)
  end.

(** [os.rmdir(p)] *)
Definition rmdir (p : path) (m : gmap path node)
    : gmap path node * result unit :=
  match m !! p with
  | None => (m, Raise ENOENT)
  | Some (File _ _) => (m, Raise ENOTDIR)
  | Some (Dir Faulty) => (m, Raise EIO)
  | Some (Dir Normal) =>
      if bool_decide (Exists (λ q, q ≠ p) (under p m))
      then (m, Raise ENOTEMPTY)
      else (delete p m, Ok tt)
  | Some (Dir _) => (m, Raise EACCES)
  end.

(** [os.rename(src, dst)]: the whole subtree moves. *)
Definition rename (src dst : path) (m : gmap path node) : gmap path node :=
  let moved := under src m in
  foldr (λ q acc, match m !! q with
                  | Some n => <[dst ++ drop (length src) q := n]> acc
                  | None => acc
                  end)
        (foldr delete m moved) moved.

(** [shutil.move(src, dst)]: into [dst] when it is a directory (refusing
    to overwrite), else onto [dst]. *)
Definition move (os : platform) (src dst : path) (m : gmap path node)
    : gmap path node * result unit :=
  let real_dst := if isdir dst m then dst ++ [basename src] else dst in
  if (isdir dst m && bool_decide (is_Some (m !! real_dst)))%bool then
    (m, Raise (Exn ShutilError "Destination path already exists"))
  else
    match m !! src with
    | None => (m, Raise ENOENT)
    | Some (File _ Faulty) | Some (Dir Faulty) => (m, Raise EIO)
    | Some n =>
        if negb (isdir (dirname real_dst) m) then (m, Raise ENOENT)
        else match m !! real_dst, n, os with
             | None, _, _ | Some (File _ _), File _ _, Posix =>
                 (rename src real_dst m, Ok tt)
             | Some (File _ _), Dir _, Posix => (m, Raise ENOTDIR)
             | Some _, _, _ => (m, Raise EEXIST)
             end
    end.

(** [open(p, 'w')]: creates or truncates. *)
Definition open_w (os : platform) (p : path) (m : gmap path node)
    : gmap path node * result unit :=
  if negb (isdir (dirname p) m) then (m, Raise ENOENT)
  else match m !! p with
       | None | Some (File _ Normal) => (<[p := File EmptyString Normal]> m, Ok tt)
       | Some (Dir _) => (m, Raise (dir_as_file os))
       | Some (File _ Faulty) => (m, Raise EIO)
       | Some (File _ _) => (m, Raise EACCES)
       end.

(** [opf.write(data)] on the file opened at [p]. *)
Definition append (p : path) (data : string) (m : gmap path node)
    : gmap path node * result unit :=
  match m !! p with
  | Some (File c a) => (<[p := File (c +:+ data) a]> m, Ok tt)
  | _ => (m, Raise EIO)
  end.

(** [open(p, 'r').read()]; the content of a file is the text that
    [read] returns. *)
Definition read (os : platform) (p : path) (m : gmap path node)
    : gmap path node * result string :=
  match m !! p with
  | None => (m, Raise ENOENT)
  | Some (Dir _) => (m, Raise (dir_as_file os))
  | Some (File _ Faulty) => (m, Raise EIO)
  | Some (File c _) => (m, Ok c)
  end.

(** [git clone] into [dst]: refused when [dst] is a file or a directory
    that is not empty; else [dst] receives the checked-out tree. *)
Definition checkout (dst : path) (tree : list (path * node))
    (m : gmap path node) : gmap path node * result unit :=
  if (bool_decide (Exists (λ q, q ≠ dst) (under dst m)) || isfile dst m)%bool then
    (m, Raise (Exn GitCommandError "destination path already exists and is not an empty directory"))
  else
    (foldr (λ e acc, <[dst ++ e.1 := e.2]> acc) (<[dst := Dir Normal]> m) tree,
     Ok tt).

End OS.
Import OS.

(** ** The launcher and the updater *)

Section Launcher.

Variable h : host.

(** *** Library calls

    The calls of the standard library, of [git] and of [PyQt6] that the
    two files make, each with the event it logs. *)

Definition os_path_isdir (p : path) : M bool := query (isdir p).
Definition os_path_isfile (p : path) : M bool := query (isfile p).
Definition os_chmod (p : path) : M unit := effect (EvChmod p) (chmod_write p).
Definition os_unlink (p : path) : M unit :=
  effect (EvUnlink p) (unlink (os_name h) p).
Definition os_remove (p : path) : M unit := os_unlink p.
Definition os_rmdir (p : path) : M unit := effect (EvRmdir p) (rmdir p).
Definition shutil_move (src dst : path) : M unit :=
  effect (EvMove src dst) (move (os_name h) src dst).
Definition print (text : string) : M unit := emit (EvPrint text).
Definition time_sleep (secs : nat) : M unit := emit (EvSleep secs).
Definition sys_exit (code : string) : M unit :=
  emit (EvExit code) ;; raise SystemExit code.

Definition input (prompt : string) : M string :=
  λ s, let s' := {| fs := fs s; stdin := tail (stdin s);
                    trace := trace s ++ [EvInput prompt] |} in
       match stdin s with
       | [] => (s', Raise (Exn EOFError "EOF when reading a line"))
       | line :: _ => (s', Ok line)
       end.

Definition open_write (p : path) : M unit :=
  effect (EvOpenW p) (open_w (os_name h) p).
Definition opf_write (p : path) (data : string) : M unit :=
  effect (EvWrite p data) (append p data).
(** [opf.write(obj)] where [obj] may be [None] *)
Definition opf_write_obj (p : path) (obj : option string) : M unit :=
  match obj with
  | Some data => opf_write p data
  | None => raise TypeError "write() argument must be str, not None"
  end.
Definition opf_flush (p : path) : M unit := emit (EvFlush p).
Definition os_fsync (p : path) : M unit := emit (EvFsync p).
Definition open_read (p : path) : M string := λ s, (s, (read (os_name h) p (fs s)).2).

Definition subprocess_run_git_ls_remote (url branch : string)
    : M completed_process :=
  effect (EvLsRemote url branch) (λ m, (m, ls_remote h)).

Definition subprocess_Popen (argv : list string) : M unit :=
  effect (EvPopen argv) (λ m, (m, popen h)).

Definition git_Repo_clone_from (url : string) (dst : path) (branch : string)
    : M unit :=
  effect (EvClone url dst branch)
    (λ m, match clone h with
          | Raise e => (m, Raise e)
          | Ok tree => checkout dst tree m
          end).

Definition QMessageBox_question (title prompt : string) : M bool :=
  effect (EvQuestion title prompt) (λ m, (m, Ok (question h))).

(** [except C as e: k e] *)
Definition except (c : exn_class) {A} (k : exn → M A) (e : exn) : option (M A) :=
  if isinstance e c then Some (k e) else None.

(** Two [except] clauses in a row. *)
Definition orelse {A} (h1 h2 : exn → option (M A)) (e : exn) : option (M A) :=
  match h1 e with Some k => Some k | None => h2 e end.

(** One entry of the walk of [shutil.rmtree]: [os.rmdir] for a
    directory, [os.unlink] for anything else; a failure is handed to
    [onexc] with the name of the failing function, the path and the
    error. *)
Definition rmtree_entry (onexc : string → path → exn → M unit) (p : path)
    : M unit :=
  is_d <- os_path_isdir p ;;
  if is_d
  then try_except (os_rmdir p) (except OSError (onexc "os.rmdir" p))
  else try_except (os_unlink p) (except OSError (onexc "os.unlink" p)).

(** [shutil.rmtree(d, onexc=...)] as in Python 3.12, the entries taken
    deepest first.  Entries are removed children first, and the walk
    goes on when [onexc] returns; what [onexc] raises leaves [rmtree].
    On a path that does not exist the [lstat] fails and is handed to
    [onexc]; on a file it is the [scandir], then the [rmdir].
    [shutil_rmtree_in] below is the walk of either release, in any
    order. *)
Definition shutil_rmtree (d : path) (onexc : string → path → exn → M unit)
    : M unit :=
  emit (EvRmtree d) ;;
  top <- query (λ m, m !! d) ;;
  match top with
  | None => onexc "os.lstat" d ENOENT
  | Some (File _ _) =>
      onexc "os.scandir" d ENOTDIR ;;
      try_except (os_rmdir d) (except OSError (onexc "os.rmdir" d))
  | Some (Dir _) =>
      entries <- query (walk_order d) ;;
      for_each entries (rmtree_entry onexc)
  end.

(** The same walk in either release of the library and in any order.

    What [rmtree] does with the error of an [os.unlink]: in 3.12, and
    in 3.13 on Windows, it goes to [onexc], and what [onexc] raises
    leaves [rmtree].  In 3.13 elsewhere the files of a directory are
    unlinked inside the [try] block of the step that scans this
    directory: an [OSError] that [onexc] raises there is caught by the
    block, which calls [onexc] once more, now on the directory and
    with [os.scandir] as the function; a [FileNotFoundError] is
    reported so for the top directory only.  What this second call
    raises leaves [rmtree]; were it to return, the step would end and
    leave the other files of that directory (the handler of
    [delete_dir] never returns on a directory).  3.13 passes over an
    entry that has vanished. *)
Definition unlink_failed (lib : library) (d : path)
    (onexc : string → path → exn → M unit) (p : path)
    : exn → option (M unit) :=
  match lib, os_name h with
  | Py312, _ => except OSError (onexc "os.unlink" p)
  | Py313, Windows =>
      orelse (except FileNotFoundError (λ _, ret tt))
             (except OSError (onexc "os.unlink" p))
  | Py313, Posix =>
      orelse (except FileNotFoundError (λ _, ret tt))
             (except OSError (λ e,
                try_except (onexc "os.unlink" p e)
                  (orelse
                     (except FileNotFoundError (λ e',
                        if decide (dirname p = d)
                        then onexc "os.scandir" (dirname p) e'
                        else ret tt))
                     (except OSError (onexc "os.scandir" (dirname p))))))
  end.

(** The error of an [os.rmdir] goes to [onexc]; 3.13 passes over a
    directory that has vanished, unless it is the top one outside
    Windows. *)
Definition rmdir_failed (lib : library) (d : path)
    (onexc : string → path → exn → M unit) (p : path)
    : exn → option (M unit) :=
  match lib with
  | Py312 => except OSError (onexc "os.rmdir" p)
  | Py313 =>
      orelse (except FileNotFoundError (λ e,
                match os_name h with
                | Posix => if decide (p = d) then onexc "os.rmdir" p e else ret tt
                | Windows => ret tt
                end))
             (except OSError (onexc "os.rmdir" p))
  end.

Definition rmtree_entry_in (lib : library) (d : path)
    (onexc : string → path → exn → M unit) (p : path) : M unit :=
  is_d <- os_path_isdir p ;;
  if is_d
  then try_except (os_rmdir p) (rmdir_failed lib d onexc p)
  else try_except (os_unlink p) (unlink_failed lib d onexc p).

(** [shutil.rmtree(d, onexc=...)] of the release [lib], meeting the
    entries of the tree in the order [listing]. *)
Definition shutil_rmtree_in (lib : library) (listing : list path) (d : path)
    (onexc : string → path → exn → M unit) : M unit :=
  emit (EvRmtree d) ;;
  top <- query (λ m, m !! d) ;;
  match top with
  | None =>
      onexc (match lib, os_name h with
             | Py312, Windows => "os.path.islink"
             | _, _ => "os.lstat"
             end) d ENOENT
  | Some (File _ _) =>
      onexc "os.scandir" d ENOTDIR ;;
      try_except (os_rmdir d) (rmdir_failed lib d onexc d)
  | Some (Dir _) => for_each listing (rmtree_entry_in lib d onexc)
  end.

(** *** [UVPD_GUI_Launcher.py] *)

(** [get_latest_commit_sha(repo_url, branch='HEAD')] *)
Definition get_latest_commit_sha (repo_url branch : string) : M (option string) :=
  try_except
    (result <- subprocess_run_git_ls_remote repo_url branch ;;
     if decide (returncode result ≠ 0%Z) then
       raise Exception ("Error: " +:+ stderr result)
     else
       let output := Str.split (stdout result) in
       ret (match output with t :: _ => Some t | [] => None end))
    (except Exception (λ e, raise Exception ("An error occurred: " +:+ exn_str e))).

(** The handler nested in [delete_dir]. *)
Definition handleRemoveReadonly (func : string) (p : path) (exc_info : exn)
    : M unit :=
  os_chmod p ;;
  os_unlink p.

Definition permission_warning (directory : path) : string :=
  "Encountered permission error when attempting to delete "
  +:+ str_path (os_sep h) directory
  +:+ ". This is probably caused by a OneDrive sync issue - you can manually delete the temp folder after the GUI loads. ".

(** [delete_dir(directory)] *)
Definition delete_dir (directory : path) : M unit :=
  try_except (shutil_rmtree directory handleRemoveReadonly)
    (orelse
       (except PermissionError (λ _, print (permission_warning directory)))
       (except Exception (λ e,
          raise Exception ("Error encountered trying to remove "
                           +:+ str_path (os_sep h) directory +:+ ": "
                           +:+ exn_str e)))).

(** [delete_dir(directory)] when [shutil.rmtree] is that of the release
    [lib] and meets the entries in the order [listing]. *)
Definition delete_dir_in (lib : library) (listing : list path)
    (directory : path) : M unit :=
  try_except (shutil_rmtree_in lib listing directory handleRemoveReadonly)
    (orelse
       (except PermissionError (λ _, print (permission_warning directory)))
       (except Exception (λ e,
          raise Exception ("Error encountered trying to remove "
                           +:+ str_path (os_sep h) directory +:+ ": "
                           +:+ exn_str e)))).

(** Both callers guard the removal of the scratch directory the same
    way: [if os.path.isdir(temp_dir): delete_dir(temp_dir)]
    (launcher, lines 618-619; [Update.py], lines 10-11). *)
Definition remove_if_isdir (delete_dir_function : path → M unit)
    (temp_dir : path) : M unit :=
  stale <- os_path_isdir temp_dir ;;
  if stale then delete_dir_function temp_dir else ret tt.

(** *** [Python/Update.py] *)

(** The dictionary [update_files]: local file, file of the clone. *)
Definition update_files (root temp_dir : path) : list (path * path) :=
  [ (root ++ ["UVPD_GUI_Launcher.py"], temp_dir ++ ["GUI"; "UVPD_GUI_Launcher.py"]);
    (root ++ ["Python"; "main.py"], temp_dir ++ ["GUI"; "Python"; "main.py"]);
    (root ++ ["Python"; "Update.py"], temp_dir ++ ["GUI"; "Python"; "Update.py"]);
    (root ++ ["Python"; "workflows.py"], temp_dir ++ ["GUI"; "Python"; "workflows.py"]) ].

Definition raw (p : path) : string :=
  "r" +:+ Str.DQUOTE +:+ str_path (os_sep h) p +:+ Str.DQUOTE.

(** The two lines written to the update script for one entry. *)
Definition remove_line (local_path : path) : string :=
  "if os.path.isfile(" +:+ raw local_path +:+ "): os.remove("
  +:+ raw local_path +:+ ")" +:+ Str.LF.

Definition move_line (local_path github_path : path) : string :=
  "shutil.move(" +:+ raw github_path +:+ ", " +:+ raw (dirname local_path)
  +:+ ")" +:+ Str.LF.

(** Lines 7-23: clear the scratch directory and clone into it.  The
    result is [false] when the user chose to go on without updating
    (the [return] of line 21). *)
Definition stage (repo_url : string) (temp_dir : path)
    (delete_dir_function : path → M unit) : M bool :=
  remove_if_isdir delete_dir_function temp_dir ;;
  try_except
    (git_Repo_clone_from repo_url temp_dir "master" ;; ret true)
    (except Exception (λ e,
       print ("Exception: " +:+ exn_str e) ;;
       print "Unable to access github to check for updates, likely due to lack of an internet connection..." ;;
       answer <- input "Do you wish to proceed using the current version (y/n)?" ;;
       if decide (answer = "y") then ret false
       else raise KeyboardInterrupt "User has opted not to open the GUI without checking for updates. The GUI launcher will now be closed.")).

(** Lines 35-71: the branch taken when [APPDATA] is set. *)
Definition apply_deferred (temp_dir ID_file : path) (repo_SHA : option string)
    (files : list (path * path)) : M unit :=
  let update_script_path := temp_dir ++ ["update.py"] in
  open_write update_script_path ;;
  opf_write update_script_path ("import os, sys" +:+ Str.LF) ;;
  opf_write update_script_path ("import shutil" +:+ Str.LF) ;;
  for_each files (λ entry,
    let '(local_path, github_path) := entry in
    opf_write update_script_path (remove_line local_path) ;;
    opf_write update_script_path (move_line local_path github_path)) ;;
  opf_write update_script_path "sys.exit(0)" ;;
  opf_flush update_script_path ;;
  os_fsync update_script_path ;;
  time_sleep 5 ;;
  try_except
    (subprocess_Popen ["python"; str_path (os_sep h) update_script_path])
    (orelse
       (except SubprocessError (λ e,
          print ("An subprocess error occurred while executing "
                 +:+ str_path (os_sep h) update_script_path +:+ ": " +:+ exn_str e)))
       (except Exception (λ e,
          print ("An unexpected error occurred when trying execute "
                 +:+ str_path (os_sep h) update_script_path +:+ ": " +:+ exn_str e)))) ;;
  open_write ID_file ;;
  opf_write_obj ID_file repo_SHA.

(** Lines 77-79: the body of the loop over [update_files.items()]. *)
Definition replace_file (entry : path * path) : M unit :=
  let '(local_path, github_path) := entry in
  (present <- os_path_isfile local_path ;;
   if present then os_remove local_path else ret tt) ;;
  shutil_move github_path (dirname local_path).

(** Lines 74-85: the branch taken otherwise. *)
Definition apply_in_process (ID_file : path) (repo_SHA : option string)
    (files : list (path * path)) : M unit :=
  for_each files replace_file ;;
  open_write ID_file ;;
  opf_write_obj ID_file repo_SHA.

(** [Update_GUI_files(repo_url, root, ID_file, repo_SHA,
    delete_dir_function)]; [repo_SHA] is [None] when the remote listed
    no reference. *)
Definition Update_GUI_files (repo_url : string) (root ID_file : path)
    (repo_SHA : option string) (delete_dir_function : path → M unit) : M unit :=
  let temp_dir := root ++ ["temp"] in
  cloned <- stage repo_url temp_dir delete_dir_function ;;
  if negb cloned then ret tt
  else
    let files := update_files root temp_dir in
    match APPDATA h with
    | Some _ => apply_deferred temp_dir ID_file repo_SHA files
    | None => apply_in_process ID_file repo_SHA files
    end.

(** *** [GUI.check_for_update] *)

Definition repo_url : string :=
  "https://github.com/HopkinsLaboratory/UVPD_Analysis_GUI".

Definition bad_format (ID_file : path) : string :=
  str_path (os_sep h) ID_file
  +:+ " is not in the correct format. Please re-download this file from the GitHub repo and re-run the GUI launcher.".

Definition not_found (ID_file : path) : string :=
  str_path (os_sep h) ID_file
  +:+ " could not be found. Please re-download from the UVPD Analysis GUI GitHub repo and re-run the GUI launcher.".

(** Lines 602-613: read and check the stored identifier. *)
Definition read_local_SHA (ID_file : path) : M string :=
  try_except
    (file_content <- open_read ID_file ;;
     if (Str.contains "010" file_content || Str.contains "013" file_content
         || Str.contains " " file_content)%bool
     then raise Exception (bad_format ID_file)
     else ret (Str.strip file_content))
    (except FileNotFoundError (λ _, raise FileNotFoundError (not_found ID_file))).

(** The method takes [self] only to show the dialogue; the import of
    [Update_GUI_files] at line 630 is taken to succeed. *)
Definition check_for_update : M unit :=
  let root := getcwd h in
  repo_SHA <- get_latest_commit_sha repo_url "HEAD" ;;
  let ID_file := root ++ ["ID.txt"] in
  local_SHA <- read_local_SHA ID_file ;;
  if decide (repo_SHA = Some local_SHA) then
    let temp_dir := getcwd h ++ ["temp"] in
    remove_if_isdir delete_dir temp_dir
  else
    choice <- QMessageBox_question "Update available!"
                "An update to the UVPD Analysis is available. Would you like to update now?" ;;
    if choice then
      print "The UVPD Analysis GUI is being updated. Any errors encountered during the update process will be printed below." ;;
      Update_GUI_files repo_url root ID_file repo_SHA delete_dir ;;
      print "The UVPD Analysis GUI files have been succesfully updated to their current version. The GUI will now close. Please reload the GUI" ;;
      sys_exit "0"
    else
      print "The user has opted to use their local version of the UVPD Analysis GUI.".

End Launcher.

(** ** The launcher process and the detached update script *)

Module Proc.

(** Statements of the generated [update.py]. *)
Inductive stmt :=
  | SImport (modules : string)
  | SRemoveIfFile (p : path)      (* if os.path.isfile(p): os.remove(p) *)
  | SMove (src dst : path)        (* shutil.move(src, dst) *)
  | SExit.                        (* sys.exit(0) *)

#[global] Instance stmt_eq_dec : EqDecision stmt.
Proof. solve_decision. Defined.

(** The program that [apply_deferred] writes for [files]. *)
Definition script_of (files : list (path * path)) : list stmt :=
  [SImport "os, sys"; SImport "shutil"]
  ++ flat_map (λ entry, [SRemoveIfFile entry.1; SMove entry.2 (dirname entry.1)]) files
  ++ [SExit].

(** Its text, statement by statement. *)
Definition render (h : host) (st : stmt) : string :=
  match st with
  | SImport modules => "import " +:+ modules +:+ Str.LF
  | SRemoveIfFile p =>
      "if os.path.isfile(" +:+ raw h p +:+ "): os.remove(" +:+ raw h p +:+ ")" +:+ Str.LF
  | SMove src dst =>
      "shutil.move(" +:+ raw h src +:+ ", " +:+ raw h dst +:+ ")" +:+ Str.LF
  | SExit => "sys.exit(0)"
  end.


(** What an observer of both processes sees. *)
Inductive label :=
  | Host (ev : event)      (* an effect of the launcher *)
  | Script (st : stmt).    (* the detached interpreter runs a statement *)

#[global] Instance label_eq_dec : EqDecision label.
Proof. solve_decision. Defined.

Definition is_popen (ev : event) : bool :=
  match ev with EvPopen _ => true | _ => false end.


(** [a] occurs in [ls], and [b] occurs later. *)
Definition before (a b : label) (ls : list label) : Prop :=
  ∃ l1 l2 l3, ls = l1 ++ a :: l2 ++ b :: l3.

(** The effects logged between two states of one run. *)
Definition new_events (s s' : state) : list event :=
  drop (length (trace s)) (trace s').



End Proc.
Import Proc.

(** ** Vocabulary of the statements *)

(** A relation between the states before and after a call that every
    run of [m] establishes. *)
Definition preserves (R : state → state → Prop) {A} (m : M A) : Prop :=
  ∀ s s' r, m s = (s', r) → R s s'.

(** Every [except] clause of [handler] establishes [R] as well. *)
Definition handles (R : state → state → Prop) {A}
    (handler : exn → option (M A)) : Prop :=
  ∀ e k, handler e = Some k → preserves R k.

(** The run only adds events satisfying [P] to the log. *)
Definition extends (P : event → Prop) (s s' : state) : Prop :=
  ∃ evs, trace s' = trace s ++ evs ∧ Forall P evs.

(** The run leaves the entry at [q] as it was. *)
Definition keeps (q : path) (s s' : state) : Prop := fs s' !! q = fs s !! q.

(** The run creates no entry. *)
Definition shrinks (s s' : state) : Prop := dom (fs s') ⊆ dom (fs s).

(** Events of a removal of the scratch directory. *)
Definition cleanup_event (ev : event) : Prop :=
  match ev with
  | EvRmtree _ | EvChmod _ | EvUnlink _ | EvRmdir _ | EvPrint _ => True
  | _ => False
  end.

(** A token ends with the string or at a blank character: what may
    follow a token of [str.split]. *)
Definition ends_token (rest : string) : Prop :=
  match rest with
  | EmptyString => True
  | String a _ => Str.isspace a = true
  end.

(** The test of line 607 on the content of the identifier file. *)
Definition has_blank (content : string) : bool :=
  Str.contains "010" content || Str.contains "013" content
  || Str.contains " " content.

(** While [root] is a directory, the run keeps it one and leaves the
    entry at [q] as it was. *)
Definition anchored (root q : path) (s s' : state) : Prop :=
  isdir root (fs s) = true →
  isdir root (fs s') = true ∧ fs s' !! q = fs s !! q.

(** Events of staging: the removal of an old scratch directory, the
    clone, and the dialogue when the clone fails. *)
Definition stage_event (ev : event) : Prop :=
  match ev with
  | EvRmtree _ | EvChmod _ | EvUnlink _ | EvRmdir _ | EvPrint _
  | EvClone _ _ _ | EvInput _ => True
  | _ => False
  end.

(** Events of the branch that writes and starts the update script. *)
Definition deferred_event (ev : event) : Prop :=
  match ev with
  | EvOpenW _ | EvWrite _ _ | EvFlush _ | EvFsync _ | EvSleep _
  | EvPopen _ | EvPrint _ => True
  | _ => False
  end.

(** Events of the branch that replaces the files itself. *)
Definition in_process_event (ev : event) : Prop :=
  match ev with
  | EvUnlink _ | EvMove _ _ | EvOpenW _ | EvWrite _ _ => True
  | _ => False
  end.

(** Events of the loop over the manifest. *)
Definition replace_event (ev : event) : Prop :=
  match ev with EvUnlink _ | EvMove _ _ => True | _ => False end.

(** The text of the update script for [files]. *)
Definition script_lines (h : host) (files : list (path * path)) : list string :=
  map (render h) (script_of files).

Definition join (lines : list string) : string :=
  foldr String.append EmptyString lines.

(** The state in which [apply_deferred] starts the script: the script
    is on disk and the five seconds have passed. *)
Definition script_written (h : host) (temp_dir : path)
    (files : list (path * path)) (s : state) : state :=
  let p := temp_dir ++ ["update.py"] in
  with_fs (<[p := File (join (script_lines h files)) Normal]> (fs s))
          (log (EvOpenW p :: map (EvWrite p) (script_lines h files)
                ++ [EvFlush p; EvFsync p; EvSleep 5]) s).

(** The command line given to [subprocess.Popen]. *)
Definition popen_argv (h : host) (temp_dir : path) : list string :=
  ["python"; str_path (os_sep h) (temp_dir ++ ["update.py"])].

(** What the launch of the script leaves behind: the [Popen] event
    and, when the launch raised an [Exception], the message printed by
    the [except] clause that caught it. *)
Definition launch_events (h : host) (temp_dir : path) : list event :=
  EvPopen (popen_argv h temp_dir) ::
  match popen h with
  | Ok _ => []
  | Raise e =>
      if isinstance e SubprocessError then
        [EvPrint ("An subprocess error occurred while executing "
                  +:+ str_path (os_sep h) (temp_dir ++ ["update.py"])
                  +:+ ": " +:+ exn_str e)]
      else if isinstance e Exception then
        [EvPrint ("An unexpected error occurred when trying execute "
                  +:+ str_path (os_sep h) (temp_dir ++ ["update.py"])
                  +:+ ": " +:+ exn_str e)]
      else []
  end.



(** The two messages of the update path of [check_for_update]. *)
Definition updating_message : string :=
  "The UVPD Analysis GUI is being updated. Any errors encountered during the update process will be printed below.".

Definition updated_message : string :=
  "The UVPD Analysis GUI files have been succesfully updated to their current version. The GUI will now close. Please reload the GUI".

Definition question_events : list event :=
  [EvLsRemote repo_url "HEAD";
   EvQuestion "Update available!"
     "An update to the UVPD Analysis is available. Would you like to update now?"].

(** Events of [Update_GUI_files]. *)
Definition updater_event (ev : event) : Prop :=
  stage_event ev ∨ deferred_event ev ∨ in_process_event ev.




(** Whether [shutil.rmtree] calls [onexc] a second time, on the
    directory, when [onexc] has raised for a file of it: Python 3.13
    outside Windows. *)
Definition reports_again (lib : library) (os : platform) : bool :=
  match lib, os with
  | Py313, Posix => true
  | _, _ => false
  end.

(** An entry that [shutil.rmtree] with the handler of [delete_dir] gets
    rid of: a plain or read-only file, a plain directory. *)
Definition deletable (m : gmap path node) (q : path) : Prop :=
  match m !! q with
  | Some (File _ Normal) | Some (File _ ReadOnly) | Some (Dir Normal) => True
  | _ => False
  end.

#[global] Instance deletable_dec (m : gmap path node) (q : path) :
  Decision (deletable m q).
Proof. unfold deletable. destruct (m !! q) as [[? []|[]]|]; apply _. Defined.

(** ** Sample installations *)

Module Sample.

Definition root : path := ["home"; "app"].
Definition temp_dir : path := root ++ ["temp"].
Definition ID_file : path := root ++ ["ID.txt"].

(** The installed application, with [content] in the identifier file. *)
Definition installed (content : string) : gmap path node :=
  list_to_map
    [ (["home"], Dir Normal); (root, Dir Normal);
      (ID_file, File content Normal);
      (root ++ ["UVPD_GUI_Launcher.py"], File "launcher v1" Normal);
      (root ++ ["Python"], Dir Normal);
      (root ++ ["Python"; "main.py"], File "main v1" Normal);
      (root ++ ["Python"; "Update.py"], File "update v1" Normal);
      (root ++ ["Python"; "workflows.py"], File "workflows v1" Normal) ].

(** The tree of the remote repository; [git] leaves its pack files
    read-only. *)
Definition remote_tree : list (path * node) :=
  [ ([".git"], Dir Normal);
    ([".git"; "pack"], File "objects" ReadOnly);
    (["GUI"], Dir Normal);
    (["GUI"; "UVPD_GUI_Launcher.py"], File "launcher v2" Normal);
    (["GUI"; "Python"], Dir Normal);
    (["GUI"; "Python"; "main.py"], File "main v2" Normal);
    (["GUI"; "Python"; "Update.py"], File "update v2" Normal);
    (["GUI"; "Python"; "workflows.py"], File "workflows v2" Normal) ].

(** A remote tree whose layout has changed: [main.py] is gone. *)
Definition remote_tree_without_main : list (path * node) :=
  filter (λ e, e.1 ≠ ["GUI"; "Python"; "main.py"]) remote_tree.

(** The answer of [git ls-remote] when the head of the remote is [sha]. *)
Definition listing (sha : string) : completed_process :=
  {| returncode := 0;
     stdout := sha +:+ Str.TAB +:+ "HEAD" +:+ Str.LF;
     stderr := "" |}.

Definition empty_listing : completed_process :=
  {| returncode := 0; stdout := ""; stderr := "" |}.

Definition machine (os : platform) (appdata : option string)
    (answer : result completed_process) (tree : list (path * node))
    (launch : result unit) : host :=
  {| os_name := os; os_sep := "/"; getcwd := root; APPDATA := appdata;
     ls_remote := answer; clone := Ok tree; popen := launch;
     question := true |}.

(** A Windows machine on which everything works. *)
Definition windows : host :=
  machine Windows (Some "C:/Users/me/AppData/Roaming")
          (Ok (listing "def456")) remote_tree (Ok tt).

(** The same, where the script cannot be started. *)
Definition windows_no_python : host :=
  machine Windows (Some "C:/Users/me/AppData/Roaming")
          (Ok (listing "def456")) remote_tree
          (Raise (Exn FileNotFoundError "[WinError 2] The system cannot find the file specified")).

(** A Linux machine on which everything works. *)
Definition linux : host :=
  machine Posix None (Ok (listing "def456")) remote_tree (Ok tt).

(** A Linux machine that clones the changed remote tree. *)
Definition linux_changed_remote : host :=
  machine Posix None (Ok (listing "def456")) remote_tree_without_main (Ok tt).

(** A machine whose installation is that of the remote head. *)
Definition linux_current : host :=
  machine Posix None (Ok (listing "abc123")) remote_tree (Ok tt).

(** A machine to which the remote lists no reference. *)
Definition linux_no_reference : host :=
  machine Posix None (Ok empty_listing) remote_tree (Ok tt).

(** A user who answers No to the update dialogue. *)
Definition linux_declining : host :=
  {| os_name := Posix; os_sep := "/"; getcwd := root; APPDATA := None;
     ls_remote := Ok (listing "def456"); clone := Ok remote_tree;
     popen := Ok tt; question := false |}.

(** A machine without network for the clone. *)
Definition linux_offline : host :=
  {| os_name := Posix; os_sep := "/"; getcwd := root; APPDATA := None;
     ls_remote := Ok (listing "def456");
     clone := Raise (Exn GitCommandError "unable to access the remote");
     popen := Ok tt; question := true |}.

Definition start (content : string) : state :=
  {| fs := installed content; stdin := []; trace := [] |}.

(** The state after staging on [h]. *)
Definition staged (h : host) : state :=
  (stage h repo_url temp_dir (delete_dir h) (start "abc123")).1.

(** A scratch directory left behind, one of whose files has the
    attribute [a]. *)
Definition leftover (a : attr) : state :=
  {| fs := <[temp_dir ++ ["notes.txt"] := File "notes" a]>
             (fs (staged linux));
     stdin := []; trace := [] |}.

(** The order in which [shutil.rmtree] meets the entries of that
    directory when [os.scandir] lists the names in alphabetical order.
    Python 3.12 goes through a directory entry by entry, descending
    into each subdirectory as it comes. *)
Definition walk_312 : list path :=
  [ temp_dir ++ [".git"; "pack"];
    temp_dir ++ [".git"];
    temp_dir ++ ["GUI"; "Python"; "Update.py"];
    temp_dir ++ ["GUI"; "Python"; "main.py"];
    temp_dir ++ ["GUI"; "Python"; "workflows.py"];
    temp_dir ++ ["GUI"; "Python"];
    temp_dir ++ ["GUI"; "UVPD_GUI_Launcher.py"];
    temp_dir ++ ["GUI"];
    temp_dir ++ ["notes.txt"];
    temp_dir ].

(** Python 3.13 unlinks the files of a directory while it scans it and
    takes the subdirectories afterwards, the last one first. *)
Definition walk_313 : list path :=
  [ temp_dir ++ ["notes.txt"];
    temp_dir ++ ["GUI"; "UVPD_GUI_Launcher.py"];
    temp_dir ++ ["GUI"; "Python"; "Update.py"];
    temp_dir ++ ["GUI"; "Python"; "main.py"];
    temp_dir ++ ["GUI"; "Python"; "workflows.py"];
    temp_dir ++ ["GUI"; "Python"];
    temp_dir ++ ["GUI"];
    temp_dir ++ [".git"; "pack"];
    temp_dir ++ [".git"];
    temp_dir ].

(** A scratch directory left behind with a subdirectory of attribute
    [a] in it. *)
Definition leftover_dir (a : attr) : state :=
  {| fs := <[temp_dir ++ ["cache"] := Dir a]> (fs (leftover Normal));
     stdin := []; trace := [] |}.

(** The walk of Python 3.13 over it: the file of the top directory,
    then the subdirectories, [cache] first. *)
Definition walk_313_cache : list path :=
  (temp_dir ++ ["notes.txt"]) :: (temp_dir ++ ["cache"]) :: tail walk_313.

(** The walk of Python 3.12 over it. *)
Definition walk_312_cache : list path :=
  take 8 walk_312
  ++ [temp_dir ++ ["cache"]; temp_dir ++ ["notes.txt"]; temp_dir].


End Sample.

(** ** Further sample installations *)

Module Scenario.

Import Sample.

(** A machine on which [git] is not installed. *)
Definition without_git : host :=
  machine Posix None
    (Raise (Exn FileNotFoundError "[Errno 2] No such file or directory: 'git'"))
    remote_tree (Ok tt).

(** The installation, with [lines] waiting on the console. *)
Definition answering (lines : list string) : state :=
  {| fs := installed "abc123"; stdin := lines; trace := [] |}.

(** The installation without its identifier file. *)
Definition without_identifier : state :=
  with_fs (delete ID_file (installed "abc123")) (start "abc123").

End Scenario.

(** ** The checks made before the GUI is loaded

    [find_github_desktop], [find_git_executable], [add_to_path],
    [check_git], [check_python_packages], [offer_package_install] and
    [check_msconvert] of [UVPD_GUI_Launcher.py] run before the window
    exists.  They act on the environment variables of the process, on
    the console and on the set of importable modules, and they ask the
    registry, the file system and [pip]; they have a state and a class
    hierarchy of their own. *)

From Stdlib Require Import DecimalString.

Module Startup.

(** The exception classes these functions can meet. *)
Inductive exn_class :=
  | BaseException | SystemExit | Exception | EOFError
  | LookupError | KeyError | ImportError | ModuleNotFoundError
  | OSError | FileNotFoundError | PermissionError
  | SubprocessError | CalledProcessError.

#[global] Instance exn_class_eq_dec : EqDecision exn_class.
Proof. solve_decision. Defined.

Definition base (c : exn_class) : option exn_class :=
  match c with
  | BaseException => None
  | SystemExit | Exception => Some BaseException
  | EOFError | LookupError | ImportError | OSError | SubprocessError =>
      Some Exception
  | KeyError => Some LookupError
  | ModuleNotFoundError => Some ImportError
  | FileNotFoundError | PermissionError => Some OSError
  | CalledProcessError => Some SubprocessError
  end.

Fixpoint issubclass_fuel (n : nat) (c d : exn_class) : bool :=
  if decide (c = d) then true
  else match n, base c with
       | S n', Some b => issubclass_fuel n' b d
       | _, _ => false
       end.

(** The hierarchy has depth three. *)
Definition issubclass (c d : exn_class) : bool := issubclass_fuel 3 c d.

Record exn := Exn { exn_cls : exn_class; exn_str : string }.

Definition isinstance (e : exn) (c : exn_class) : bool :=
  issubclass (exn_cls e) c.

Inductive result (A : Type) :=
  | Ok (a : A)
  | Raise (e : exn).
Arguments Ok {A} a.
Arguments Raise {A} e.

(** The argument of [sys.exit]: an exit status, or a message (printed
    on the error stream, the status being 1). *)
Inductive exit_arg := Status (n : Z) | Message (text : string).

#[global] Instance exit_arg_eq_dec : EqDecision exit_arg.
Proof. solve_decision. Defined.

Inductive event :=
  | EvPrint (text : string)
  | EvInput
  | EvRun (argv : list string)
  | EvExit (arg : exit_arg).

#[global] Instance event_eq_dec : EqDecision event.
Proof. solve_decision. Defined.

Inductive hive := HKEY_LOCAL_MACHINE | HKEY_CURRENT_USER.

(** A [pathlib.Path]: [Path(anchor) / part / ...]. *)
Record pure_path := Path { anchor : string; parts : list string }.

#[global] Instance pure_path_eq_dec : EqDecision pure_path.
Proof. solve_decision. Defined.

(** [p / name] and [p.parent] *)
Definition joinpath (p : pure_path) (name : string) : pure_path :=
  Path (anchor p) (parts p ++ [name]).
Definition parent (p : pure_path) : pure_path :=
  Path (anchor p) (removelast (parts p)).

(** What the machine answers.  The queries on paths are taken not to
    raise. *)
Record world := {
  system : string;                              (* platform.system() *)
  reg_query : hive → string → string → result string;
                       (* winreg.OpenKey(hive, key), then QueryValueEx(key, name)[0] *)
  home : string;                                (* Path.home() *)
  path_str : pure_path → string;                (* str(p) *)
  path_exists : pure_path → bool;               (* p.exists() *)
  path_is_dir : pure_path → bool;               (* p.is_dir() *)
  path_is_file : pure_path → bool;              (* p.is_file() *)
  which : gmap string string → string → option string;
                       (* shutil.which(cmd), which reads the environment *)
  executable : string;                          (* sys.executable *)
  pip_provides : string → list string;
                       (* the modules that pip install <name> makes importable *)
  msconvert : result unit
                       (* subprocess.run(['msconvert'], ..., check=True): returns when
                          the exit status is 0, raises CalledProcessError when it is
                          not, and the OSError of the start when there was none *)
}.

Record state := {
  environ : gmap string string;   (* os.environ *)
  modules : gset string;          (* what importlib.import_module finds *)
  stdin : list string;
  trace : list event
}.

Definition M (A : Type) : Type := state → state * result A.

Definition ret {A} (a : A) : M A := λ s, (s, Ok a).

Definition raise {A} (c : exn_class) (msg : string) : M A :=
  λ s, (s, Raise (Exn c msg)).

Definition bind {A B} (m : M A) (k : A → M B) : M B :=
  λ s, match m s with
       | (s', Ok a) => k a s'
       | (s', Raise e) => (s', Raise e)
       end.

Definition try_except {A} (body : M A) (handler : exn → option (M A)) : M A :=
  λ s, match body s with
       | (s', Ok a) => (s', Ok a)
       | (s', Raise e) =>
           match handler e with
           | Some k => k s'
           | None => (s', Raise e)
           end
       end.

Definition except (c : exn_class) {A} (k : exn → M A) (e : exn) : option (M A) :=
  if isinstance e c then Some (k e) else None.

Definition orelse {A} (h1 h2 : exn → option (M A)) (e : exn) : option (M A) :=
  match h1 e with Some k => Some k | None => h2 e end.

Declare Scope startup_scope.
Delimit Scope startup_scope with startup.
Notation "x <- m ;; k" := (bind m (λ x, k))
  (at level 100, m at next level, right associativity) : startup_scope.
Notation "m ;; k" := (bind m (λ _, k))
  (at level 100, right associativity) : startup_scope.
Local Open Scope startup_scope.

Fixpoint for_each {A} (l : list A) (body : A → M unit) : M unit :=
  match l with
  | [] => ret tt
  | x :: l' => body x ;; for_each l' body
  end.

Definition log (evs : list event) (s : state) : state :=
  {| environ := environ s; modules := modules s; stdin := stdin s;
     trace := trace s ++ evs |}.

Definition emit (ev : event) : M unit := λ s, (log [ev] s, Ok tt).

Definition print (text : string) : M unit := emit (EvPrint text).

Definition sys_exit (arg : exit_arg) : M unit :=
  emit (EvExit arg) ;;
  raise SystemExit (match arg with
                    | Status n => NilZero.string_of_int (Z.to_int n)
                    | Message text => text
                    end).

(** [input()] *)
Definition input : M string :=
  λ s, let s' := {| environ := environ s; modules := modules s;
                    stdin := tail (stdin s); trace := trace s ++ [EvInput] |} in
       match stdin s with
       | [] => (s', Raise (Exn EOFError "EOF when reading a line"))
       | line :: _ => (s', Ok line)
       end.

(** *** Strings *)

(** [s.split(sep)] for a separator of one character: the pieces
    between the occurrences of [sep], empty pieces included. *)
Fixpoint split_on (sep : ascii) (s : string) : list string :=
  match s with
  | EmptyString => [EmptyString]
  | String a s' =>
      if decide (a = sep) then EmptyString :: split_on sep s'
      else match split_on sep s' with
           | piece :: pieces => String a piece :: pieces
           | [] => [String a EmptyString]
           end
  end.

(** [str.lower] on code points below 256: the letters [A] to [Z] and
    U+00C0 to U+00DE, U+00D7 excepted. *)
Definition lower_char (a : ascii) : ascii :=
  let n := nat_of_ascii a in
  if (((65 <=? n)%nat && (n <=? 90)%nat)
      || ((192 <=? n)%nat && (n <=? 222)%nat && negb (n =? 215)%nat))%bool
  then ascii_of_nat (n + 32) else a.

Fixpoint lower (s : string) : string :=
  match s with
  | EmptyString => EmptyString
  | String a s' => String (lower_char a) (lower s')
  end.

(** [if x:] for [x] a string or [None] *)
Definition truthy (x : option string) : bool :=
  match x with
  | Some s => bool_decide (s ≠ EmptyString)
  | None => false
  end.

(** *** The functions *)

Section Checks.

Variable w : world.

(** [os.environ[key]] *)
Definition environ_getitem (key : string) : M string :=
  λ s, match environ s !! key with
       | Some v => (s, Ok v)
       | None => (s, Raise (Exn KeyError ("'" +:+ key +:+ "'")))
       end.

(** [os.environ[key] = value] *)
Definition environ_setitem (key value : string) : M unit :=
  λ s, ({| environ := <[key := value]> (environ s); modules := modules s;
           stdin := stdin s; trace := trace s |}, Ok tt).

(** [os.environ.get(key, '')] *)
Definition environ_get (env : gmap string string) (key : string) : string :=
  default EmptyString (env !! key).

Definition winreg_query (hk : hive) (key name : string) : M string :=
  λ s, (s, reg_query w hk key name).

(** The first element of a list that passes a test: a [for] loop that
    returns at the first hit. *)
Fixpoint first_hit {A} (test : A → bool) (l : list A) : option A :=
  match l with
  | [] => None
  | x :: l' => if test x then Some x else first_hit test l'
  end.

(** [find_github_desktop()].  The result of the registry part is
    [Some] when the function returns from within it. *)
Definition find_github_desktop : M (option string) :=
  let os_type := system w in
  from_registry <-
    (if decide (os_type = "Windows") then
       try_except
         (path <- winreg_query HKEY_CURRENT_USER
                    "Software\Microsoft\Windows\CurrentVersion\Uninstall\GitHubDesktop"
                    "InstallLocation" ;;
          let git_exe := joinpath (Path path []) "git.exe" in
          if path_exists w git_exe
          then ret (Some (path_str w (parent git_exe)))
          else ret None)
         (orelse (except FileNotFoundError (λ _, ret None))
                 (except OSError (λ _, ret None)))
     else ret None) ;;
  match from_registry with
  | Some found => ret (Some found)
  | None =>
      λ s,
      let env := environ s in
      let paths_to_check :=
        if decide (os_type = "Windows") then
          [ Path (environ_get env "LOCALAPPDATA") ["GitHubDesktop"];
            Path (environ_get env "PROGRAMFILES") ["GitHub Desktop"];
            Path (environ_get env "PROGRAMFILES(X86)") ["GitHub Desktop"];
            Path (environ_get env "USERPROFILE") ["AppData"; "Local"; "GitHubDesktop"] ]
        else if decide (os_type = "Darwin") then
          [ Path "/Applications/GitHub Desktop.app" [];
            Path (home w) ["Applications"; "GitHub Desktop.app"] ]
        else if decide (os_type = "Linux") then
          [ Path "/usr/bin/github-desktop" [];
            Path "/usr/local/bin/github-desktop" [] ]
        else [] in
      (s, Ok (path_str w <$>
              first_hit (λ p,
                (bool_decide (os_type = "Windows") && path_is_dir w p)
                || (bool_decide (os_type ∈ ["Darwin"; "Linux"]) && path_exists w p))
                paths_to_check))
  end.

(** The loop over the two hives in [find_git_executable]. *)
Fixpoint git_from_registry (hives : list hive) : M (option string) :=
  match hives with
  | [] => ret None
  | hkey :: rest =>
      path <- winreg_query hkey "Software\GitForWindows" "InstallPath" ;;
      let git_exe := joinpath (joinpath (Path path []) "bin") "git.exe" in
      if path_exists w git_exe then ret (Some (path_str w git_exe))
      else git_from_registry rest
  end.

Definition unix_paths : list string :=
  ["/usr/local/bin/git"; "/opt/local/bin/git"; "/usr/bin/git"; "/bin/git"].

(** [find_git_executable()] *)
Definition find_git_executable : M (option string) :=
  let os_type := system w in
  from_registry <-
    (if decide (os_type = "Windows") then
       try_except
         (git_from_registry [HKEY_LOCAL_MACHINE; HKEY_CURRENT_USER])
         (orelse (except FileNotFoundError (λ _, ret None))
                 (except OSError (λ _, ret None)))
     else ret None) ;;
  match from_registry with
  | Some found => ret (Some found)
  | None =>
      λ s,
      match which w (environ s) "git" with
      | Some git_path => (s, Ok (Some git_path))
      | None =>
          (s, Ok (first_hit (λ p, path_is_file w (Path p [])) unix_paths))
      end
  end.

(** [add_to_path(new_path)] *)
Definition path_separator : ascii :=
  if decide (system w = "Windows") then ";"%char else ":"%char.

Definition add_to_path (new_path : string) : M unit :=
  current <- environ_getitem "PATH" ;;
  if bool_decide (new_path ∉ split_on path_separator current) then
    current' <- environ_getitem "PATH" ;;
    environ_setitem "PATH"
      (new_path +:+ String path_separator EmptyString +:+ current')
  else ret tt.

(** [check_git()] *)
Definition check_git : M unit :=
  git_desktop_path <- find_github_desktop ;;
  (if negb (truthy git_desktop_path) then
     print "GitHub Desktop is not installed. Please install from the following URL to the default directory:" ;;
     print "https://desktop.github.com/" ;;
     sys_exit (Status 0)
   else add_to_path (default EmptyString git_desktop_path)) ;;
  git_path <- find_git_executable ;;
  if negb (truthy git_path) then
    print "Git is not installed. Please install from the following URL to the default directory:" ;;
    print "https://git-scm.com/" ;;
    sys_exit (Status 0)
  else add_to_path (default EmptyString git_path).

(** [importlib.import_module(package)] *)
Definition import_module (package : string) : M unit :=
  λ s, if bool_decide (package ∈ modules s) then (s, Ok tt)
       else (s, Raise (Exn ModuleNotFoundError
                         ("No module named '" +:+ package +:+ "'"))).

(** [subprocess.run([sys.executable, '-m', 'pip', 'install', name])];
    the status of [pip] is not looked at. *)
Definition run_pip_install (name : string) : M unit :=
  λ s, ({| environ := environ s;
           modules := modules s ∪ list_to_set (pip_provides w name);
           stdin := stdin s;
           trace := trace s ++ [EvRun [executable w; "-m"; "pip"; "install"; name]] |},
        Ok tt).

(** [offer_package_install(package)] *)
Definition offer_package_install (package : string) : M unit :=
  print (package +:+ " cannot be found. Would you like to install it (y/n)?") ;;
  answer <- input ;;
  if decide (lower answer = "y") then
    print ("Installing " +:+ package +:+ "...") ;;
    let package_name := if decide (package = "git") then "gitpython" else package in
    run_pip_install package_name
  else sys_exit (Message "Exiting: Required package not installed.").

(** [check_python_packages(required_packages)] *)
Definition check_python_packages (required_packages : list string) : M unit :=
  for_each required_packages (λ package,
    try_except (import_module package)
      (except ModuleNotFoundError (λ _, offer_package_install package))).

(** [subprocess.run(['msconvert'], ..., check=True)] *)
Definition run_msconvert_checked : M unit :=
  λ s, (log [EvRun ["msconvert"]] s, msconvert w).

(** [check_msconvert()] *)
Definition check_msconvert : M bool :=
  try_except (run_msconvert_checked ;; ret true)
    (except CalledProcessError (λ _, ret false)).

End Checks.

(** *** Sample machines *)

Definition no_key : exn :=
  Exn FileNotFoundError "[WinError 2] The system cannot find the file specified".

(** A Linux machine with GitHub Desktop and [git], without
    [msconvert], on which [pip] installs nothing. *)
Definition linux_box : world :=
  {| system := "Linux";
     reg_query := λ _ _ _, Raise no_key;
     home := "/home/me";
     path_str := λ p, String.concat "/" (anchor p :: parts p);
     path_exists := λ p, bool_decide (p = Path "/usr/bin/github-desktop" []);
     path_is_dir := λ _, false;
     path_is_file := λ p, bool_decide (p = Path "/usr/bin/git" []);
     which := λ _ cmd, if decide (cmd = "git") then Some "/usr/bin/git" else None;
     executable := "/usr/bin/python3";
     pip_provides := λ _, [];
     msconvert := Raise (Exn FileNotFoundError
                           "[Errno 2] No such file or directory: 'msconvert'") |}.

(** A Windows machine on which Git for Windows is installed for the
    current user only. *)
Definition windows_box : world :=
  {| system := "Windows";
     reg_query := λ hkey key name,
       match hkey with
       | HKEY_LOCAL_MACHINE => Raise no_key
       | HKEY_CURRENT_USER =>
           if decide (key = "Software\GitForWindows") then Ok "C:\Git"
           else Raise no_key
       end;
     home := "C:\Users\me";
     path_str := λ p, String.concat "/" (anchor p :: parts p);
     path_exists := λ p, bool_decide (p = Path "C:\Git" ["bin"; "git.exe"]);
     path_is_dir := λ _, false;
     path_is_file := λ _, false;
     which := λ _ _, None;
     executable := "C:\Python312\python.exe";
     pip_provides := λ _, [];
     msconvert := Ok tt |}.

(** A machine of another kind. *)
Definition bsd_box : world :=
  {| system := "FreeBSD";
     reg_query := λ _ _ _, Raise no_key;
     home := "/home/me";
     path_str := λ p, String.concat "/" (anchor p :: parts p);
     path_exists := λ _, true;
     path_is_dir := λ _, true;
     path_is_file := λ _, true;
     which := λ _ _, Some "/usr/local/bin/git";
     executable := "/usr/local/bin/python3";
     pip_provides := λ _, [];
     msconvert := Ok tt |}.

Definition required_packages : list string :=
  ["PyQt6"; "pyteomics"; "numpy"; "lxml"; "pandas"].

(** A process whose [PATH] has two entries, in which the packages
    [installed] can be imported and whose console will read [lines]. *)
Definition console (installed lines : list string) : state :=
  {| environ := {[ "PATH" := "/usr/bin:/bin" ]};
     modules := list_to_set installed;
     stdin := lines;
     trace := [] |}.

End Startup.

(** * Properties *)

(** ** Reasoning about runs *)

Lemma bind_Ok {A B} (m : M A) (k : A → M B) s s1 a :
  m s = (s1, Ok a) → bind m k s = k a s1.
Proof. intros Hm. unfold bind. by rewrite Hm. Qed.

Lemma bind_Raise {A B} (m : M A) (k : A → M B) s s1 e :
  m s = (s1, Raise e) → bind m k s = (s1, Raise e).
Proof. intros Hm. unfold bind. by rewrite Hm. Qed.

Lemma bind_inv {A B} (m : M A) (k : A → M B) s s' r :
  bind m k s = (s', r) →
  (∃ s1 a, m s = (s1, Ok a) ∧ k a s1 = (s', r))
  ∨ (∃ e, m s = (s', Raise e) ∧ r = Raise e).
Proof.
  unfold bind. destruct (m s) as [s1 [a|e]]; intros Hk.
  - left. eauto.
  - right. inversion Hk; subst. eauto.
Qed.

Lemma try_except_inv {A} (body : M A) handler s s' r :
  try_except body handler s = (s', r) →
  (∃ a, body s = (s', Ok a) ∧ r = Ok a)
  ∨ (∃ s1 e k, body s = (s1, Raise e) ∧ handler e = Some k ∧ k s1 = (s', r))
  ∨ (∃ e, body s = (s', Raise e) ∧ handler e = None ∧ r = Raise e).
Proof.
  unfold try_except. destruct (body s) as [s1 [a|e]]; intros Hk.
  - left. inversion Hk; subst. eauto.
  - destruct (handler e) as [k|] eqn:Hh.
    + right; left. eauto 10.
    + right; right. inversion Hk; subst. eauto.
Qed.

Section Preserves.

Context (R : state → state → Prop) `{!PreOrder R}.

Lemma preserves_ret {A} (a : A) : preserves R (ret a).
Proof. intros s s' r [= <- _]. reflexivity. Qed.

Lemma preserves_raise {A} c msg : preserves R (@raise A c msg).
Proof. intros s s' r [= <- _]. reflexivity. Qed.

Lemma preserves_query {A} (f : gmap path node → A) : preserves R (query f).
Proof. intros s s' r [= <- _]. reflexivity. Qed.

Lemma preserves_bind {A B} (m : M A) (k : A → M B) :
  preserves R m → (∀ a, preserves R (k a)) → preserves R (bind m k).
Proof.
  intros Hm Hk s s' r Hrun.
  destruct (bind_inv _ _ _ _ _ Hrun) as [(s1 & a & H1 & H2)|(e & H1 & _)].
  - etrans; [eapply Hm, H1 | eapply Hk, H2].
  - eapply Hm, H1.
Qed.

Lemma preserves_try_except {A} (body : M A) handler :
  preserves R body → handles R handler →
  preserves R (try_except body handler).
Proof.
  intros Hb Hh s s' r Hrun.
  destruct (try_except_inv _ _ _ _ _ Hrun)
    as [(a & H1 & _)|[(s1 & e & k & H1 & H2 & H3)|(e & H1 & _)]].
  - eapply Hb, H1.
  - etrans; [eapply Hb, H1 | eapply Hh; eauto].
  - eapply Hb, H1.
Qed.

Lemma handles_except {A} c (k : exn → M A) :
  (∀ e, preserves R (k e)) → handles R (except c k).
Proof. unfold except. intros Hk e k'. case_match; intros [= <-]. apply Hk. Qed.

Lemma handles_orelse {A} (h1 h2 : exn → option (M A)) :
  handles R h1 → handles R h2 → handles R (orelse h1 h2).
Proof.
  unfold orelse. intros H1 H2 e k. destruct (h1 e) eqn:E.
  - intros [= <-]. eauto.
  - apply H2.
Qed.

Lemma preserves_for_each {A} (l : list A) (body : A → M unit) :
  (∀ x, x ∈ l → preserves R (body x)) → preserves R (for_each l body).
Proof.
  induction l as [|x l IH]; intros Hb; simpl.
  - apply preserves_ret.
  - apply preserves_bind.
    + apply Hb. left.
    + intros _. apply IH. intros y Hy. apply Hb. by right.
Qed.

End Preserves.

#[local] Instance extends_preorder P : PreOrder (extends P).
Proof.
  split.
  - intros s. exists []. by rewrite app_nil_r.
  - intros s1 s2 s3 (e1 & H1 & F1) (e2 & H2 & F2).
    exists (e1 ++ e2). rewrite H2, H1, app_assoc. split; [done|].
    by apply Forall_app.
Qed.

#[local] Instance keeps_preorder q : PreOrder (keeps q).
Proof.
  split.
  - by intros s.
  - intros s1 s2 s3 H1 H2. unfold keeps in *. congruence.
Qed.

Lemma extends_new_events P s s' :
  extends P s s' →
  trace s' = trace s ++ new_events s s' ∧ Forall P (new_events s s').
Proof.
  intros (evs & Ht & HP). unfold new_events.
  rewrite Ht, drop_app_length. done.
Qed.

Lemma effect_extends {A} (P : event → Prop) ev f :
  P ev → preserves (extends P) (@effect A ev f).
Proof.
  intros HP s s' r. unfold effect. destruct (f (fs s)) as [m r'].
  intros [= <- _]. exists [ev]. simpl. split; [done|]. by constructor.
Qed.

Lemma effect_keeps {A} q ev f :
  (∀ m, (f m).1 !! q = m !! q) → preserves (keeps q) (@effect A ev f).
Proof.
  intros Hf s s' r. unfold effect. specialize (Hf (fs s)).
  destruct (f (fs s)) as [m r']. intros [= <- _]. exact Hf.
Qed.

Lemma input_extends (P : event → Prop) prompt :
  P (EvInput prompt) → preserves (extends P) (input prompt).
Proof.
  intros HP s s' r. unfold input.
  destruct (stdin s); intros [= <- _]; exists [EvInput prompt]; simpl;
    (split; [done|by constructor]).
Qed.

Lemma input_keeps q prompt : preserves (keeps q) (input prompt).
Proof. intros s s' r. unfold input. by destruct (stdin s); intros [= <- _]. Qed.

Lemma open_read_preserves (R : state → state → Prop) `{!PreOrder R} h p : preserves R (open_read h p).
Proof. intros s s' r [= <- _]. reflexivity. Qed.
(** * Properties *)

(** ** Sanity checks of the helpers *)

Example issubclass_perm : issubclass PermissionError Exception = true.
Proof. reflexivity. Qed.

Example issubclass_exit : issubclass SystemExit Exception = false.
Proof. reflexivity. Qed.

Example strip_ex : Str.strip (" ab c" +:+ Str.TAB +:+ Str.LF) = "ab c".
Proof. reflexivity. Qed.

Example split_ex :
  Str.split ("abc123" +:+ Str.TAB +:+ "HEAD" +:+ Str.LF) = ["abc123"; "HEAD"].
Proof. reflexivity. Qed.

Example split_blank : Str.split (" " +:+ Str.LF) = [].
Proof. reflexivity. Qed.

(** ** The footprint of the file-system calls *)

Lemma under_spec d m p :
  p ∈ under d m ↔ d `prefix_of` p ∧ is_Some (m !! p).
Proof.
  unfold under. rewrite list_elem_of_filter, list_elem_of_fmap. split.
  - intros [Hp ([q n] & -> & Hin)]. split; [done|].
    apply elem_of_map_to_list in Hin. eauto.
  - intros [Hp [n Hn]]. split; [done|]. exists (p, n). split; [done|].
    by apply elem_of_map_to_list.
Qed.

Lemma chmod_write_frame p q m : q ≠ p → (chmod_write p m).1 !! q = m !! q.
Proof.
  intros Hq. unfold chmod_write.
  destruct (m !! p) as [[c []|[]]|]; simpl; by rewrite ?lookup_insert_ne.
Qed.

Lemma unlink_frame os p q m : q ≠ p → (unlink os p m).1 !! q = m !! q.
Proof.
  intros Hq. unfold unlink.
  destruct (m !! p) as [[c []|[]]|]; simpl; by rewrite ?lookup_delete_ne.
Qed.

Lemma rmdir_frame p q m : q ≠ p → (rmdir p m).1 !! q = m !! q.
Proof.
  intros Hq. unfold rmdir.
  destruct (m !! p) as [[c a|[]]|]; simpl; try done.
  case_bool_decide; simpl; by rewrite ?lookup_delete_ne.
Qed.

Lemma open_w_frame os p q m : q ≠ p → (open_w os p m).1 !! q = m !! q.
Proof.
  intros Hq. unfold open_w. destruct (negb _); [done|].
  destruct (m !! p) as [[c []|a]|]; simpl; by rewrite ?lookup_insert_ne.
Qed.

Lemma append_frame p data q m : q ≠ p → (append p data m).1 !! q = m !! q.
Proof.
  intros Hq. unfold append.
  destruct (m !! p) as [[c a|a]|]; simpl; by rewrite ?lookup_insert_ne.
Qed.

Lemma foldr_delete_frame (l : list path) (q : path) (m : gmap path node) :
  q ∉ l → foldr delete m l !! q = m !! q.
Proof.
  induction l as [|x l IH]; simpl; [done|].
  intros Hq. apply not_elem_of_cons in Hq as [Hx Hl].
  rewrite lookup_delete_ne by done. auto.
Qed.

Lemma rename_frame src dst q m :
  ¬ src `prefix_of` q → ¬ dst `prefix_of` q → rename src dst m !! q = m !! q.
Proof.
  intros Hs Hd. unfold rename.
  assert (Hins : ∀ (l : list path) (acc : gmap path node),
    foldr (λ x a, match m !! x with
                  | Some n => <[dst ++ drop (length src) x := n]> a
                  | None => a
                  end) acc l !! q = acc !! q).
  { induction l as [|x l IH]; intros acc; simpl; [done|].
    destruct (m !! x); [|done].
    rewrite lookup_insert_ne; [apply IH|].
    intros <-. apply Hd. by apply prefix_app_r. }
  rewrite Hins. apply foldr_delete_frame.
  rewrite under_spec. tauto.
Qed.

Lemma move_frame os src dst q m :
  ¬ src `prefix_of` q →
  ¬ (if isdir dst m then dst ++ [basename src] else dst) `prefix_of` q →
  (move os src dst m).1 !! q = m !! q.
Proof.
  intros Hs Hd. unfold move.
  set (real_dst := if isdir dst m then dst ++ [basename src] else dst) in *.
  destruct (_ && _); [done|].
  destruct (m !! src) as [n|]; [|done].
  assert (Hn : (if negb (isdir (dirname real_dst) m) then (m, Raise ENOENT)
           else match m !! real_dst, n, os with
             | None, _, _ | Some (File _ _), File _ _, Posix =>
                 (rename src real_dst m, Ok tt)
             | Some (File _ _), Dir _, Posix => (m, Raise ENOTDIR)
             | Some _, _, _ => (m, Raise EEXIST)
             end).1 !! q = m !! q).
  { destruct (negb _); [done|].
    destruct (m !! real_dst) as [[c a|a]|], n as [c' a'|a'], os; simpl;
      try done; by apply rename_frame. }
  destruct n as [c []|[]]; simpl; try done; apply Hn.
Qed.

Lemma checkout_frame dst tree q m :
  ¬ dst `prefix_of` q → (checkout dst tree m).1 !! q = m !! q.
Proof.
  intros Hd. unfold checkout. destruct (_ || _); [done|]. simpl.
  induction tree as [|[rel n] tree IH]; simpl.
  - rewrite lookup_insert_ne; [done|]. intros <-. by apply Hd.
  - rewrite lookup_insert_ne; [done|]. intros <-. apply Hd.
    by apply prefix_app_r.
Qed.

(** ** What each function logs, and what it leaves alone *)

Lemma extends_mono (P Q : event → Prop) s s' :
  (∀ ev, P ev → Q ev) → extends P s s' → extends Q s s'.
Proof.
  intros HPQ (evs & Ht & HP). exists evs. split; [done|].
  eapply Forall_impl; eauto.
Qed.

Lemma preserves_extends_mono (P Q : event → Prop) {A} (m : M A) :
  (∀ ev, P ev → Q ev) → preserves (extends P) m → preserves (extends Q) m.
Proof. intros HPQ Hm s s' r Hrun. eapply extends_mono; eauto. Qed.

Lemma preserves_bind_query (R : state → state → Prop) `{!PreOrder R} {A B : Type}
    (f : gmap path node → A) (k : A → M B) :
  (∀ m, preserves R (k (f m))) → preserves R (bind (query f) k).
Proof. intros Hk s s' r Hrun. unfold bind, query in Hrun. eapply Hk, Hrun. Qed.

#[local] Instance shrinks_preorder : PreOrder shrinks.
Proof.
  split.
  - intros s. unfold shrinks. reflexivity.
  - intros s1 s2 s3 H1 H2. unfold shrinks in *. by etrans.
Qed.

Lemma effect_shrinks {A} (ev : event)
    (f : gmap path node → gmap path node * result A) :
  (∀ m, dom (f m).1 ⊆ dom m) → preserves shrinks (effect ev f).
Proof.
  intros Hf s s' r. unfold effect. specialize (Hf (fs s)).
  destruct (f (fs s)) as [m r']. intros [= <- _]. exact Hf.
Qed.

Lemma chmod_write_dom (p : path) (m : gmap path node) : dom (chmod_write p m).1 ⊆ dom m.
Proof.
  unfold chmod_write.
  destruct (m !! p) as [[c []|[]]|] eqn:Hp; simpl; try reflexivity;
    rewrite dom_insert_L; apply elem_of_dom_2 in Hp;
    (apply union_least; [by apply singleton_subseteq_l|reflexivity]).
Qed.

Lemma unlink_dom (os : platform) (p : path) (m : gmap path node) : dom (unlink os p m).1 ⊆ dom m.
Proof.
  unfold unlink.
  destruct (m !! p) as [[c []|[]]|]; simpl; try reflexivity;
    rewrite dom_delete_L; apply subseteq_difference_l; reflexivity.
Qed.

Lemma rmdir_dom (p : path) (m : gmap path node) : dom (rmdir p m).1 ⊆ dom m.
Proof.
  unfold rmdir.
  destruct (m !! p) as [[c a|[]]|]; simpl; try reflexivity.
  case_bool_decide; simpl; [reflexivity|].
  rewrite dom_delete_L. apply subseteq_difference_l. reflexivity.
Qed.

(** Structural steps shared by the proofs below. *)
Ltac pres_step :=
  match goal with
  | |- PreOrder _ => apply _
  | |- preserves _ (ret _) => apply preserves_ret
  | |- preserves _ (raise _ _) => apply preserves_raise
  | |- preserves _ (query _) => apply preserves_query
  | |- preserves _ (open_read _ _) => apply open_read_preserves
  | |- preserves _ (bind _ _) => apply preserves_bind; [..|intros]
  | |- preserves _ (try_except _ _) => apply preserves_try_except
  | |- handles _ (except _ _) => apply handles_except; intros
  | |- handles _ (orelse _ _) => apply handles_orelse
  | |- preserves (extends _) (effect _ _) => apply effect_extends; exact I
  | |- preserves (extends _) (emit _) => apply effect_extends; exact I
  | |- preserves (extends _) (input _) => apply input_extends; exact I
  | |- preserves (keeps _) (input _) => apply input_keeps
  | |- preserves (keeps _) (emit _) => apply effect_keeps; done
  | |- preserves shrinks (emit _) => apply effect_shrinks; done
  | |- preserves _ (if ?b then _ else _) => destruct b
  | |- preserves _ (match ?x with _ => _ end) => destruct x
  end.

Ltac pres := repeat pres_step.

Lemma handleRemoveReadonly_logs h func p e :
  preserves (extends cleanup_event) (handleRemoveReadonly h func p e).
Proof. unfold handleRemoveReadonly, os_chmod, os_unlink. pres. Qed.

Lemma shutil_rmtree_logs h d onexc :
  (∀ func p e, preserves (extends cleanup_event) (onexc func p e)) →
  preserves (extends cleanup_event) (shutil_rmtree h d onexc).
Proof.
  intros Hon. unfold shutil_rmtree, os_rmdir. pres; try apply Hon.
  apply preserves_for_each; [apply _|]. intros p _.
  unfold rmtree_entry, os_path_isdir, os_rmdir, os_unlink. pres; apply Hon.
Qed.

Lemma delete_dir_logs h d : preserves (extends cleanup_event) (delete_dir h d).
Proof.
  unfold delete_dir, print. pres.
  apply shutil_rmtree_logs, handleRemoveReadonly_logs.
Qed.

Lemma handleRemoveReadonly_keeps h func p e q :
  q ≠ p → preserves (keeps q) (handleRemoveReadonly h func p e).
Proof.
  intros Hq. unfold handleRemoveReadonly, os_chmod, os_unlink. pres.
  - apply effect_keeps. intros m. by apply chmod_write_frame.
  - apply effect_keeps. intros m. by apply unlink_frame.
Qed.

Lemma prefix_neq (d q p : path) : ¬ d `prefix_of` q → d `prefix_of` p → q ≠ p.
Proof. intros Hq Hp ->. done. Qed.

Lemma shutil_rmtree_keeps h d onexc q :
  (∀ func p e, d `prefix_of` p → preserves (keeps q) (onexc func p e)) →
  ¬ d `prefix_of` q →
  preserves (keeps q) (shutil_rmtree h d onexc).
Proof.
  intros Hon Hq. unfold shutil_rmtree.
  assert (Hd : q ≠ d) by (by apply (prefix_neq d)).
  apply preserves_bind; [apply _|pres|intros _].
  apply preserves_bind_query; [apply _|]. intros m.
  destruct (m !! d) as [[c a|a]|] eqn:Htop.
  - unfold os_rmdir. pres; try by apply Hon.
    apply effect_keeps. intros m'. by apply rmdir_frame.
  - apply preserves_bind_query; [apply _|]. intros m'.
    apply preserves_for_each; [apply _|]. intros p Hp.
    unfold walk_order in Hp.
    rewrite merge_sort_Permutation in Hp. apply under_spec in Hp as [Hp _].
    assert (q ≠ p) by (by apply (prefix_neq d)).
    unfold rmtree_entry, os_path_isdir, os_rmdir, os_unlink. pres;
      try by apply Hon.
    + apply effect_keeps. intros m''. by apply rmdir_frame.
    + apply effect_keeps. intros m''. by apply unlink_frame.
  - by apply Hon.
Qed.

Lemma delete_dir_keeps h d q :
  ¬ d `prefix_of` q → preserves (keeps q) (delete_dir h d).
Proof.
  intros Hq. unfold delete_dir, print. pres.
  apply shutil_rmtree_keeps; [|done].
  intros func p e Hp. apply handleRemoveReadonly_keeps.
  by apply (prefix_neq d).
Qed.

Lemma delete_dir_shrinks h d : preserves shrinks (delete_dir h d).
Proof.
  assert (Hon : ∀ func p e, preserves shrinks (handleRemoveReadonly h func p e)).
  { intros. unfold handleRemoveReadonly, os_chmod, os_unlink. pres.
    - apply effect_shrinks, chmod_write_dom.
    - apply effect_shrinks, unlink_dom. }
  unfold delete_dir, print, shutil_rmtree, os_rmdir. pres; try apply Hon.
  - apply effect_shrinks, rmdir_dom.
  - apply preserves_for_each; [apply _|]. intros p _.
    unfold rmtree_entry, os_path_isdir, os_rmdir, os_unlink. pres;
      try apply Hon.
    + apply effect_shrinks, rmdir_dom.
    + apply effect_shrinks, unlink_dom.
Qed.

(** ** The remote identifier: [get_latest_commit_sha] *)

Lemma get_latest_commit_sha_run h url branch s :
  get_latest_commit_sha h url branch s =
  (log [EvLsRemote url branch] s,
   match ls_remote h with
   | Raise e =>
       if isinstance e Exception
       then Raise (Exn Exception ("An error occurred: " +:+ exn_str e))
       else Raise e
   | Ok cp =>
       if decide (returncode cp ≠ 0%Z)
       then Raise (Exn Exception ("An error occurred: Error: " +:+ stderr cp))
       else Ok (head (Str.split (stdout cp)))
   end).
Proof.
  unfold get_latest_commit_sha, try_except, bind,
    subprocess_run_git_ls_remote, effect, except, raise, ret, log.
  destruct (ls_remote h) as [cp|e]; simpl.
  - destruct (decide (returncode cp ≠ 0%Z)); simpl; [done|].
    by destruct (Str.split (stdout cp)).
  - unfold isinstance. by destruct (issubclass _ _).
Qed.

(** C4, as the code has it: a listing process that exits non-zero makes
    [get_latest_commit_sha] raise [Exception]; a listing that succeeds
    returns the first token of its output, and [None], without raising,
    when the output holds no token. *)
Theorem get_latest_commit_sha_outcome h url branch s cp :
  ls_remote h = Ok cp →
  (get_latest_commit_sha h url branch s).2 =
    if decide (returncode cp ≠ 0%Z)
    then Raise (Exn Exception ("An error occurred: Error: " +:+ stderr cp))
    else match Str.split (stdout cp) with
         | [] => Ok None
         | token :: _ => Ok (Some token)
         end.
Proof.
  intros Hcp. rewrite get_latest_commit_sha_run, Hcp. simpl.
  destruct (decide _); [done|]. by destruct (Str.split _).
Qed.

(** ** The stored identifier: lines 602-613 of [check_for_update] *)

Lemma read_local_SHA_run h ID_file s :
  read_local_SHA h ID_file s =
  (s, match fs s !! ID_file with
      | None => Raise (Exn FileNotFoundError (not_found h ID_file))
      | Some (Dir _) => Raise (dir_as_file (os_name h))
      | Some (File _ Faulty) => Raise EIO
      | Some (File content _) =>
          if has_blank content
          then Raise (Exn Exception (bad_format h ID_file))
          else Ok (Str.strip content)
      end).
Proof.
  unfold read_local_SHA, try_except, bind, open_read, read, has_blank.
  destruct (fs s !! ID_file) as [[c a|a]|]; simpl; try done.
  - destruct a; simpl; try done;
      by destruct (_ || _ || _).
  - by destruct (os_name h).
Qed.

(** C7, as the code has it: a stored identifier holding a space, a line
    feed or a carriage return is rejected with the format [Exception]
    (tabs are not looked for). *)
Theorem read_local_SHA_rejects_blank h ID_file s content a :
  fs s !! ID_file = Some (File content a) →
  a ≠ Faulty →
  has_blank content = true →
  read_local_SHA h ID_file s = (s, Raise (Exn Exception (bad_format h ID_file))).
Proof.
  intros Hf Ha Hb. rewrite read_local_SHA_run, Hf, Hb. by destruct a.
Qed.

(** ** Removing the scratch directory: [delete_dir] *)

Lemma log_log evs1 evs2 s : log evs2 (log evs1 s) = log (evs1 ++ evs2) s.
Proof. unfold log. simpl. by rewrite app_assoc. Qed.

Lemma effect_run {A} (ev : event) (f : gmap path node → gmap path node * result A)
    (s : state) :
  effect ev f s = (with_fs (f (fs s)).1 (log [ev] s), (f (fs s)).2).
Proof. unfold effect. by destruct (f (fs s)). Qed.

(** The handler, entry by entry: mode change, then one more [unlink]. *)
Lemma handleRemoveReadonly_run h func p e s :
  handleRemoveReadonly h func p e s =
  match fs s !! p with
  | None => (log [EvChmod p] s, Raise ENOENT)
  | Some (File _ Faulty) | Some (Dir Faulty) => (log [EvChmod p] s, Raise EIO)
  | Some (File _ Locked) => (log [EvChmod p; EvUnlink p] s, Raise EACCES)
  | Some (File _ _) =>
      (with_fs (delete p (fs s)) (log [EvChmod p; EvUnlink p] s), Ok tt)
  | Some (Dir ReadOnly) =>
      (with_fs (<[p := Dir Normal]> (fs s)) (log [EvChmod p; EvUnlink p] s),
       Raise (dir_as_file (os_name h)))
  | Some (Dir Locked) => (log [EvChmod p; EvUnlink p] s, Raise EACCES)
  | Some (Dir _) =>
      (log [EvChmod p; EvUnlink p] s, Raise (dir_as_file (os_name h)))
  end.
Proof.
  unfold handleRemoveReadonly, bind, os_chmod, os_unlink.
  rewrite effect_run. unfold chmod_write.
  destruct (fs s !! p) as [[c []|[]]|] eqn:Hp; simpl;
    rewrite ?effect_run; unfold unlink; simpl;
    rewrite ?lookup_insert_eq, ?Hp; simpl;
    unfold with_fs, log; simpl; rewrite <- ?app_assoc; simpl;
    rewrite ?delete_insert_eq; try done.
  all: destruct s; simpl in *; done.
Qed.

(** One entry of the walk, when it is a file: a plain file goes at the
    first [unlink]; any other is handed to the handler, once. *)
Lemma rmtree_entry_file h p s content a :
  fs s !! p = Some (File content a) →
  rmtree_entry h (handleRemoveReadonly h) p s =
  match a with
  | Normal => (with_fs (delete p (fs s)) (log [EvUnlink p] s), Ok tt)
  | ReadOnly =>
      (with_fs (delete p (fs s)) (log [EvUnlink p; EvChmod p; EvUnlink p] s),
       Ok tt)
  | Locked => (log [EvUnlink p; EvChmod p; EvUnlink p] s, Raise EACCES)
  | Faulty => (log [EvUnlink p; EvChmod p] s, Raise EIO)
  end.
Proof.
  intros Hp. unfold rmtree_entry, bind, os_path_isdir, query, isdir.
  rewrite Hp. unfold try_except, os_unlink. rewrite effect_run.
  unfold unlink. rewrite Hp.
  destruct a; simpl; try done;
    rewrite handleRemoveReadonly_run; simpl; rewrite Hp;
    unfold with_fs, log; simpl; rewrite <- ?app_assoc; simpl;
    destruct s; simpl in *; done.
Qed.

(** How [delete_dir] disposes of what leaves [shutil.rmtree]. *)
Lemma delete_dir_run h d s :
  delete_dir h d s =
  let '(s1, r1) := shutil_rmtree h d (handleRemoveReadonly h) s in
  match r1 with
  | Ok _ => (s1, Ok tt)
  | Raise e =>
      if isinstance e PermissionError then
        (log [EvPrint (permission_warning h d)] s1, Ok tt)
      else if isinstance e Exception then
        (s1, Raise (Exn Exception ("Error encountered trying to remove "
                                   +:+ str_path (os_sep h) d +:+ ": "
                                   +:+ exn_str e)))
      else (s1, Raise e)
  end.
Proof.
  unfold delete_dir, try_except.
  destruct (shutil_rmtree _ _ _ _) as [s1 [[]|e]]; [done|].
  unfold orelse, except.
  destruct (isinstance e PermissionError); [done|].
  by destruct (isinstance e Exception).
Qed.

Lemma shutil_rmtree_absent h d onexc s :
  fs s !! d = None →
  shutil_rmtree h d onexc s = onexc "os.lstat" d ENOENT (log [EvRmtree d] s).
Proof.
  intros Hd. unfold shutil_rmtree, bind at 1, emit. rewrite effect_run. simpl.
  unfold bind, query. simpl. by rewrite Hd.
Qed.

(** On a path that is absent [shutil.rmtree] hands the
    [FileNotFoundError] to the handler, whose [chmod] fails likewise;
    the guarded call of the two callers does nothing there. *)
Lemma delete_dir_absent h p s :
  fs s !! p = None →
  delete_dir h p s =
    (log [EvRmtree p; EvChmod p] s,
     Raise (Exn Exception ("Error encountered trying to remove "
                           +:+ str_path (os_sep h) p
                           +:+ ": [Errno 2] No such file or directory")))
  ∧ remove_if_isdir (delete_dir h) p s = (s, Ok tt).
Proof.
  intros Hp. split.
  - rewrite delete_dir_run, shutil_rmtree_absent, handleRemoveReadonly_run by done.
    simpl. rewrite Hp.
    change (isinstance ENOENT PermissionError) with false.
    change (isinstance ENOENT Exception) with true.
    cbv iota. rewrite log_log. reflexivity.
  - unfold remove_if_isdir, bind, os_path_isdir, query, isdir. by rewrite Hp.
Qed.

(** ** States and loops *)

Lemma state_eq (a b : state) :
  fs a = fs b → stdin a = stdin b → trace a = trace b → a = b.
Proof. destruct a, b. simpl. by intros -> -> ->. Qed.

Lemma for_each_app {A} (l1 l2 : list A) (body : A → M unit) s :
  for_each (l1 ++ l2) body s = (for_each l1 body ;; for_each l2 body) s.
Proof.
  revert s. induction l1 as [|x l1 IH]; intros s; simpl.
  - done.
  - unfold bind in *. destruct (body x s) as [s1 [[]|e]]; [apply IH|done].
Qed.


Lemma with_fs_log (evs : list event) (s : state) :
  with_fs (fs s) (log evs s) = log evs s.
Proof. by destruct s. Qed.

Lemma emit_run ev (s : state) : emit ev s = (log [ev] s, Ok tt).
Proof. unfold emit. rewrite effect_run. simpl. by destruct s. Qed.


(** A run is determined by its final state and its result. *)
Lemma run_eta {A : Type} (x : state * result A) (r : result A) :
  x.2 = r → x = (x.1, r).
Proof. destruct x as [s r']. simpl. by intros ->. Qed.

(** ** The walk of [shutil.rmtree] *)

#[local] Instance deeper_first_total : Total deeper_first.
Proof. intros p q. unfold deeper_first. lia. Qed.

#[local] Instance deeper_first_trans : Transitive deeper_first.
Proof. intros p q r. unfold deeper_first. lia. Qed.

Lemma walk_order_spec (d : path) (m : gmap path node) (q : path) :
  q ∈ walk_order d m ↔ d `prefix_of` q ∧ is_Some (m !! q).
Proof. unfold walk_order. by rewrite merge_sort_Permutation, under_spec. Qed.

Lemma walk_order_NoDup (d : path) (m : gmap path node) : NoDup (walk_order d m).
Proof.
  unfold walk_order. rewrite merge_sort_Permutation. unfold under.
  apply NoDup_filter, NoDup_fst_map_to_list.
Qed.

Lemma walk_order_sorted (d : path) (m : gmap path node) :
  StronglySorted deeper_first (walk_order d m).
Proof. apply StronglySorted_merge_sort; apply _. Qed.

Lemma strict_prefix_longer (p q : path) :
  p `prefix_of` q → q ≠ p → (length p < length q)%nat.
Proof.
  intros [k ->] Hne. rewrite length_app.
  destruct k; [by rewrite app_nil_r in Hne|]. simpl. lia.
Qed.

Lemma foldl_delete_lookup (l : list path) (m : gmap path node) (q : path) :
  foldl (λ acc x, delete x acc) m l !! q =
  if decide (q ∈ l) then None else m !! q.
Proof.
  revert m. induction l as [|x l IH]; intros m.
  - simpl. destruct (decide (q ∈ [])) as [Hin|]; [|done].
    by apply elem_of_nil in Hin.
  - simpl foldl. rewrite IH.
    destruct (decide (q ∈ l)) as [Hin|Hnin], (decide (q ∈ x :: l)) as [Hin'|Hnin'];
      try done.
    + exfalso. apply Hnin'. by right.
    + apply elem_of_cons in Hin' as [->|Hin']; [|done]. apply lookup_delete_eq.
    + rewrite lookup_delete_ne; [done|]. intros ->. apply Hnin'. left.
Qed.

(** A plain directory that is empty goes at [os.rmdir]. *)
Lemma rmtree_entry_dir (h : host) (onexc : string → path → exn → M unit) (p : path) (s : state) :
  fs s !! p = Some (Dir Normal) →
  (∀ q, q ∈ under p (fs s) → q = p) →
  rmtree_entry h onexc p s =
    (with_fs (delete p (fs s)) (log [EvRmdir p] s), Ok tt).
Proof.
  intros Hp Hempty. unfold rmtree_entry, bind, os_path_isdir, query, isdir.
  rewrite Hp. unfold try_except, os_rmdir. rewrite effect_run.
  unfold rmdir. rewrite Hp.
  rewrite bool_decide_eq_false_2; [done|].
  rewrite Exists_exists. intros (q & Hq & Hne). by apply Hne, Hempty.
Qed.

Lemma rmtree_entry_keeps h (p q : path) :
  q ≠ p → preserves (keeps q) (rmtree_entry h (handleRemoveReadonly h) p).
Proof.
  intros Hq. unfold rmtree_entry, os_path_isdir, os_rmdir, os_unlink. pres;
    try by apply handleRemoveReadonly_keeps.
  - apply effect_keeps. intros m. by apply rmdir_frame.
  - apply effect_keeps. intros m. by apply unlink_frame.
Qed.

(** The walk over entries that are all deletable removes them all. *)
Lemma walk_deletable h (d : path) (pre : list path) :
  ∀ (rest : list path) (s : state),
    NoDup (pre ++ rest) →
    StronglySorted deeper_first (pre ++ rest) →
    (∀ q, q ∈ pre ++ rest → d `prefix_of` q) →
    (∀ q, d `prefix_of` q → is_Some (fs s !! q) → q ∈ pre ++ rest) →
    Forall (deletable (fs s)) pre →
    ∃ evs,
      for_each pre (rmtree_entry h (handleRemoveReadonly h)) s =
        (with_fs (foldl (λ acc x, delete x acc) (fs s) pre) (log evs s), Ok tt).
Proof.
  induction pre as [|p pre IH]; intros rest s Hnd Hsort Hunder Hcover Hdel.
  - exists []. simpl. unfold ret. f_equal. apply state_eq; simpl; try done.
    by rewrite app_nil_r.
  - simpl in Hnd, Hsort. apply NoDup_cons in Hnd as [Hp Hnd].
    apply StronglySorted_inv in Hsort as [Hsort Hfirst].
    apply Forall_cons in Hdel as [Hdp Hdel].
    assert (Hstep : ∃ ev1,
      rmtree_entry h (handleRemoveReadonly h) p s =
        (with_fs (delete p (fs s)) (log ev1 s), Ok tt)).
    { unfold deletable in Hdp.
      destruct (fs s !! p) as [[c a|a]|] eqn:Hlook; try done.
      - rewrite (rmtree_entry_file _ _ _ _ _ Hlook).
        destruct a; try done; eauto.
      - destruct a; try done. eexists. apply rmtree_entry_dir; [done|].
        intros q Hq. apply under_spec in Hq as [Hpq Hsome].
        destruct (decide (q = p)) as [|Hne]; [done|]. exfalso.
        pose proof (strict_prefix_longer _ _ Hpq Hne) as Hlen.
        assert (Hin : q ∈ (p :: pre) ++ rest).
        { apply Hcover; [|done]. etrans; [|exact Hpq]. apply Hunder. left. }
        simpl in Hin. apply elem_of_cons in Hin as [->|Hin]; [done|].
        rewrite Forall_forall in Hfirst. specialize (Hfirst q Hin).
        unfold deeper_first in Hfirst. lia. }
    destruct Hstep as [ev1 Hstep].
    destruct (IH rest (with_fs (delete p (fs s)) (log ev1 s))) as [evs Hrest];
      try done.
    + intros q Hq. apply Hunder. by right.
    + intros q Hdq [n Hn]. simpl in Hn.
      apply lookup_delete_Some in Hn as [Hne Hn].
      assert (Hin : q ∈ (p :: pre) ++ rest) by (apply Hcover; eauto).
      simpl in Hin. by apply elem_of_cons in Hin as [->|Hin].
    + simpl. rewrite Forall_forall in Hdel |- *. intros q Hq.
      specialize (Hdel q Hq). unfold deletable in *.
      rewrite lookup_delete_ne; [done|]. intros ->. apply Hp.
      apply elem_of_app. by left.
    + exists (ev1 ++ evs). simpl. erewrite bind_Ok by exact Hstep.
      rewrite Hrest. f_equal. apply state_eq; simpl; try done.
      by rewrite app_assoc.
Qed.

Lemma shutil_rmtree_dir h (d : path) onexc (s : state) :
  isdir d (fs s) = true →
  shutil_rmtree h d onexc s =
    for_each (walk_order d (fs s)) (rmtree_entry h onexc) (log [EvRmtree d] s).
Proof.
  intros Hd. unfold shutil_rmtree, bind at 1. rewrite emit_run.
  unfold bind at 1, query. simpl. unfold isdir in Hd.
  destruct (fs s !! d) as [[c a|a]|]; try done.
Qed.

Lemma not_Exception_not_PermissionError e :
  isinstance e Exception = false → isinstance e PermissionError = false.
Proof. destruct e as [[] msg]; simpl; done. Qed.

Lemma delete_dir_no_PermissionError h (d : path) (s : state) :
  match (delete_dir h d s).2 with
  | Ok _ => True
  | Raise e => isinstance e PermissionError = false
  end.
Proof.
  rewrite delete_dir_run.
  destruct (shutil_rmtree _ _ _ _) as [s1 [[]|e]]; [done|].
  destruct (isinstance e PermissionError) eqn:Hperm; [done|].
  destruct (isinstance e Exception) eqn:Hexc; simpl; [done|].
  by apply not_Exception_not_PermissionError.
Qed.

(** A directory whose entries are all deletable is removed entirely. *)
Lemma delete_dir_deletable h (d : path) (s : state) :
  isdir d (fs s) = true →
  Forall (deletable (fs s)) (walk_order d (fs s)) →
  ∃ evs,
    delete_dir h d s =
      (with_fs (foldl (λ acc x, delete x acc) (fs s) (walk_order d (fs s)))
               (log evs s), Ok tt).
Proof.
  intros Hd Hall.
  destruct (walk_deletable h d (walk_order d (fs s)) [] (log [EvRmtree d] s))
    as [evs Hrun]; rewrite ?app_nil_r; try done.
  - apply walk_order_NoDup.
  - apply walk_order_sorted.
  - intros q Hq. by apply walk_order_spec in Hq as [? _].
  - intros q Hdq Hsome. by apply walk_order_spec.
  - exists (EvRmtree d :: evs).
    rewrite delete_dir_run, shutil_rmtree_dir, Hrun by done.
    f_equal. apply state_eq; simpl; try done. by rewrite <- app_assoc.
Qed.

(** Such a directory is gone afterwards, with all that was in it, and
    nothing else has changed. *)
Lemma delete_dir_clears h (d : path) (s : state) :
  isdir d (fs s) = true →
  Forall (deletable (fs s)) (under d (fs s)) →
  (delete_dir h d s).2 = Ok tt
  ∧ ∀ q, fs (delete_dir h d s).1 !! q =
         if decide (d `prefix_of` q) then None else fs s !! q.
Proof.
  intros Hd Hall.
  assert (Hwalk : Forall (deletable (fs s)) (walk_order d (fs s))).
  { unfold walk_order. rewrite merge_sort_Permutation. exact Hall. }
  destruct (delete_dir_deletable h d s Hd Hwalk) as (evs & Hrun).
  rewrite Hrun. cbn [fst snd fs with_fs]. split; [done|].
  intros q. rewrite foldl_delete_lookup.
  destruct (decide (q ∈ walk_order d (fs s))) as [Hin|Hout];
    destruct (decide (d `prefix_of` q)) as [Hp|Hp]; try done.
  - apply walk_order_spec in Hin as [? _]. done.
  - destruct (fs s !! q) eqn:Hq; [|done].
    exfalso. apply Hout, walk_order_spec. by split.
Qed.

(** C5, as the code has it: after a [delete_dir] that has removed the
    directory, a second [delete_dir] on the same path, now absent,
    raises: [shutil.rmtree] hands the [FileNotFoundError] to the
    handler, whose [chmod] fails likewise, and the error is raised again
    as an [Exception].  It is the guarded call used by both callers,
    [if os.path.isdir(p): delete_dir(p)], that does nothing and
    succeeds there. *)
Theorem delete_dir_twice h (p : path) (s : state) :
  isdir p (fs s) = true →
  Forall (deletable (fs s)) (walk_order p (fs s)) →
  let first := delete_dir h p s in
  first.2 = Ok tt
  ∧ fs first.1 !! p = None
  ∧ delete_dir h p first.1 =
      (log [EvRmtree p; EvChmod p] first.1,
       Raise (Exn Exception ("Error encountered trying to remove "
                             +:+ str_path (os_sep h) p
                             +:+ ": [Errno 2] No such file or directory")))
  ∧ remove_if_isdir (delete_dir h) p first.1 = (first.1, Ok tt).
Proof.
  intros Hd Hall first.
  destruct (delete_dir_deletable h p s Hd Hall) as [evs Hrun].
  unfold first. rewrite Hrun. simpl.
  assert (Hgone : foldl (λ acc x, delete x acc) (fs s) (walk_order p (fs s)) !! p
                  = None).
  { rewrite foldl_delete_lookup, decide_True; [done|].
    apply walk_order_spec. split; [done|].
    unfold isdir in Hd. by destruct (fs s !! p). }
  split; [done|]. split; [done|]. by apply delete_dir_absent.
Qed.
(** ** [delete_dir] in either release of the library, in any order *)

(** [delete_dir] above is the run on Python 3.12 in one of these
    orders. *)
Lemma rmtree_entry_312 h (d : path) onexc (p : path) :
  rmtree_entry h onexc p = rmtree_entry_in h Py312 d onexc p.
Proof. reflexivity. Qed.

Lemma for_each_ext {A} (l : list A) (f g : A → M unit) :
  (∀ x, f x = g x) → for_each l f = for_each l g.
Proof.
  intros Hfg. induction l as [|x l IH]; [done|]. simpl. by rewrite Hfg, IH.
Qed.

Lemma delete_dir_312 h (d : path) (s : state) :
  delete_dir h d s = delete_dir_in h Py312 (walk_order d (fs s)) d s.
Proof.
  unfold delete_dir, delete_dir_in, try_except.
  assert (Hwalk : shutil_rmtree h d (handleRemoveReadonly h) s =
    shutil_rmtree_in h Py312 (walk_order d (fs s)) d (handleRemoveReadonly h) s).
  { unfold shutil_rmtree, shutil_rmtree_in, bind, query.
    rewrite emit_run. cbn [fs log].
    destruct (fs s !! d) as [[c a|a]|]; [done|done|by destruct (os_name h)]. }
  by rewrite Hwalk.
Qed.

Lemma under_NoDup (d : path) (m : gmap path node) : NoDup (under d m).
Proof. unfold under. apply NoDup_filter, NoDup_fst_map_to_list. Qed.

Lemma bottom_up_NoDup (d : path) (m : gmap path node) (listing : list path) :
  bottom_up d m listing → NoDup listing.
Proof. intros [Hperm _]. rewrite Hperm. apply under_NoDup. Qed.

Lemma bottom_up_spec (d : path) (m : gmap path node) (listing : list path) q :
  bottom_up d m listing →
  q ∈ listing ↔ d `prefix_of` q ∧ is_Some (m !! q).
Proof. intros [Hperm _]. by rewrite Hperm, under_spec. Qed.

Lemma walk_order_bottom_up (d : path) (m : gmap path node) :
  bottom_up d m (walk_order d m).
Proof.
  split.
  - unfold walk_order. apply merge_sort_Permutation.
  - pose proof (walk_order_sorted d m) as Hsort.
    pose proof (walk_order_NoDup d m) as Hnd.
    induction Hsort as [|p l Hsort IH Hall]; [constructor|].
    apply NoDup_cons in Hnd as [Hp Hnd].
    constructor; [by apply IH|].
    rewrite Forall_forall in Hall |- *. intros q Hq Hpq.
    destruct (decide (q = p)) as [->|Hne]; [done|].
    pose proof (strict_prefix_longer _ _ Hpq Hne) as Hlen.
    specialize (Hall q Hq). unfold deeper_first in Hall. lia.
Qed.

(** How [delete_dir] disposes of what leaves [shutil.rmtree]. *)
Lemma delete_dir_in_run h lib listing d s :
  delete_dir_in h lib listing d s =
  let '(s1, r1) := shutil_rmtree_in h lib listing d (handleRemoveReadonly h) s in
  match r1 with
  | Ok _ => (s1, Ok tt)
  | Raise e =>
      if isinstance e PermissionError then
        (log [EvPrint (permission_warning h d)] s1, Ok tt)
      else if isinstance e Exception then
        (s1, Raise (Exn Exception ("Error encountered trying to remove "
                                   +:+ str_path (os_sep h) d +:+ ": "
                                   +:+ exn_str e)))
      else (s1, Raise e)
  end.
Proof.
  unfold delete_dir_in, try_except.
  destruct (shutil_rmtree_in _ _ _ _ _ _) as [s1 [[]|e]]; [done|].
  unfold orelse, except.
  destruct (isinstance e PermissionError); [done|].
  by destruct (isinstance e Exception).
Qed.

Lemma shutil_rmtree_in_dir h lib listing (d : path) onexc (s : state) :
  isdir d (fs s) = true →
  shutil_rmtree_in h lib listing d onexc s =
    for_each listing (rmtree_entry_in h lib d onexc) (log [EvRmtree d] s).
Proof.
  intros Hd. unfold shutil_rmtree_in, bind at 1. rewrite emit_run.
  unfold bind at 1, query. simpl. unfold isdir in Hd.
  destruct (fs s !! d) as [[c a|a]|]; try done.
Qed.

(** One entry of the walk, when it is a file.  A plain file goes at the
    first [unlink]; any other is handed to the handler, which changes
    the mode and tries [unlink] once more.  What the handler raises
    leaves [rmtree], except in 3.13 outside Windows, where the handler
    is called again, on the directory of the file. *)
Lemma rmtree_entry_in_file h lib (d p : path) s content a :
  fs s !! p = Some (File content a) →
  rmtree_entry_in h lib d (handleRemoveReadonly h) p s =
  match a with
  | Normal => (with_fs (delete p (fs s)) (log [EvUnlink p] s), Ok tt)
  | ReadOnly =>
      (with_fs (delete p (fs s)) (log [EvUnlink p; EvChmod p; EvUnlink p] s),
       Ok tt)
  | Locked =>
      if reports_again lib (os_name h)
      then handleRemoveReadonly h "os.scandir" (dirname p) EACCES
             (log [EvUnlink p; EvChmod p; EvUnlink p] s)
      else (log [EvUnlink p; EvChmod p; EvUnlink p] s, Raise EACCES)
  | Faulty =>
      if reports_again lib (os_name h)
      then handleRemoveReadonly h "os.scandir" (dirname p) EIO
             (log [EvUnlink p; EvChmod p] s)
      else (log [EvUnlink p; EvChmod p] s, Raise EIO)
  end.
Proof.
  intros Hp. unfold rmtree_entry_in, bind, os_path_isdir, query, isdir.
  rewrite Hp. unfold try_except at 1, os_unlink. rewrite effect_run.
  unfold unlink. rewrite Hp.
  destruct a, lib, (os_name h) eqn:Hos; simpl; try done;
    unfold unlink_failed; rewrite ?Hos; simpl;
    unfold try_except; rewrite handleRemoveReadonly_run; simpl; rewrite Hp;
    unfold with_fs, log; simpl; rewrite <- ?app_assoc; simpl;
    try (destruct s; simpl in *; done).
Qed.

(** One entry of the walk, when it is a directory.  A plain directory
    that is empty goes at [os.rmdir]; any other is handed to the
    handler, whose [unlink] removes no directory: the handler raises,
    and what it raises leaves [rmtree]. *)
Lemma rmtree_entry_in_dir h lib (d p : path) s a :
  fs s !! p = Some (Dir a) →
  (a = Normal → ∀ q, q ∈ under p (fs s) → q = p) →
  rmtree_entry_in h lib d (handleRemoveReadonly h) p s =
  match a with
  | Normal => (with_fs (delete p (fs s)) (log [EvRmdir p] s), Ok tt)
  | ReadOnly =>
      (with_fs (<[p := Dir Normal]> (fs s))
               (log [EvRmdir p; EvChmod p; EvUnlink p] s),
       Raise (dir_as_file (os_name h)))
  | Locked => (log [EvRmdir p; EvChmod p; EvUnlink p] s, Raise EACCES)
  | Faulty => (log [EvRmdir p; EvChmod p] s, Raise EIO)
  end.
Proof.
  intros Hp Hempty. unfold rmtree_entry_in, bind, os_path_isdir, query, isdir.
  rewrite Hp. unfold try_except, os_rmdir. rewrite effect_run.
  unfold rmdir. rewrite Hp.
  destruct a.
  - rewrite bool_decide_eq_false_2; [done|].
    rewrite Exists_exists. intros (q & Hq & Hne). by apply Hne, Hempty.
  - destruct lib; simpl; rewrite handleRemoveReadonly_run; simpl; rewrite Hp;
      unfold with_fs, log; simpl; rewrite <- ?app_assoc; simpl; done.
  - destruct lib; simpl; rewrite handleRemoveReadonly_run; simpl; rewrite Hp;
      unfold with_fs, log; simpl; rewrite <- ?app_assoc; simpl;
      destruct s; simpl in *; done.
  - destruct lib; simpl; rewrite handleRemoveReadonly_run; simpl; rewrite Hp;
      unfold with_fs, log; simpl; rewrite <- ?app_assoc; simpl;
      destruct s; simpl in *; done.
Qed.

(** The walk over entries that are all deletable removes them all, in
    either release and whatever the order. *)
Lemma walk_deletable_in h lib (d : path) (pre : list path) :
  ∀ (rest : list path) (s : state),
    NoDup (pre ++ rest) →
    StronglySorted (λ p q, ¬ p `prefix_of` q) (pre ++ rest) →
    (∀ q, q ∈ pre ++ rest → d `prefix_of` q) →
    (∀ q, d `prefix_of` q → is_Some (fs s !! q) → q ∈ pre ++ rest) →
    Forall (deletable (fs s)) pre →
    ∃ evs,
      for_each pre (rmtree_entry_in h lib d (handleRemoveReadonly h)) s =
        (with_fs (foldl (λ acc x, delete x acc) (fs s) pre) (log evs s), Ok tt).
Proof.
  induction pre as [|p pre IH]; intros rest s Hnd Hsort Hunder Hcover Hdel.
  - exists []. simpl. unfold ret. f_equal. apply state_eq; simpl; try done.
    by rewrite app_nil_r.
  - simpl in Hnd, Hsort. apply NoDup_cons in Hnd as [Hp Hnd].
    apply StronglySorted_inv in Hsort as [Hsort Hfirst].
    apply Forall_cons in Hdel as [Hdp Hdel].
    assert (Hstep : ∃ ev1,
      rmtree_entry_in h lib d (handleRemoveReadonly h) p s =
        (with_fs (delete p (fs s)) (log ev1 s), Ok tt)).
    { unfold deletable in Hdp.
      destruct (fs s !! p) as [[c a|a]|] eqn:Hlook; try done.
      - rewrite (rmtree_entry_in_file _ _ _ _ _ _ _ Hlook).
        destruct a; try done; eauto.
      - destruct a; try done. eexists.
        rewrite (rmtree_entry_in_dir _ _ _ _ _ _ Hlook); [done|].
        intros _ q Hq. apply under_spec in Hq as [Hpq Hsome].
        destruct (decide (q = p)) as [|Hne]; [done|]. exfalso.
        assert (Hin : q ∈ (p :: pre) ++ rest).
        { apply Hcover; [|done]. etrans; [|exact Hpq]. apply Hunder. left. }
        simpl in Hin. apply elem_of_cons in Hin as [->|Hin]; [done|].
        rewrite Forall_forall in Hfirst. by apply (Hfirst q Hin). }
    destruct Hstep as [ev1 Hstep].
    destruct (IH rest (with_fs (delete p (fs s)) (log ev1 s))) as [evs Hrest];
      try done.
    + intros q Hq. apply Hunder. by right.
    + intros q Hdq [n Hn]. simpl in Hn.
      apply lookup_delete_Some in Hn as [Hne Hn].
      assert (Hin : q ∈ (p :: pre) ++ rest) by (apply Hcover; eauto).
      simpl in Hin. by apply elem_of_cons in Hin as [->|Hin].
    + simpl. rewrite Forall_forall in Hdel |- *. intros q Hq.
      specialize (Hdel q Hq). unfold deletable in *.
      rewrite lookup_delete_ne; [done|]. intros ->. apply Hp.
      apply elem_of_app. by left.
    + exists (ev1 ++ evs). simpl. erewrite bind_Ok by exact Hstep.
      rewrite Hrest. f_equal. apply state_eq; simpl; try done.
      by rewrite app_assoc.
Qed.

Lemma dirname_prefix (p : path) : dirname p `prefix_of` p.
Proof.
  unfold dirname. destruct (decide (p = [])) as [->|Hne]; [done|].
  exists [List.last p ""]. by apply app_removelast_last.
Qed.

Lemma insert_is_Some_same (m : gmap path node) (x q : path) (v : node) :
  is_Some (m !! x) → is_Some (<[x := v]> m !! q) ↔ is_Some (m !! q).
Proof.
  intros Hx. destruct (decide (x = q)) as [->|Hne].
  - rewrite lookup_insert_eq. split; eauto.
  - by rewrite lookup_insert_ne.
Qed.

(** An entry that resists: the handler has been called, it has raised,
    and no entry has come or gone. *)
Lemma rmtree_entry_in_resists h lib (d p : path) (s : state) (n : node) a' :
  fs s !! p = Some n →
  ¬ deletable (fs s) p →
  fs s !! dirname p = Some (Dir a') →
  ∃ s2,
    rmtree_entry_in h lib d (handleRemoveReadonly h) p s =
      (s2, Raise match n with
                 | File _ a =>
                     if reports_again lib (os_name h) then
                       match a' with
                       | Faulty => EIO
                       | Locked => EACCES
                       | _ => EISDIR
                       end
                     else match a with Faulty => EIO | _ => EACCES end
                 | Dir Faulty => EIO
                 | Dir Locked => EACCES
                 | Dir _ => dir_as_file (os_name h)
                 end)
    ∧ ∀ q, is_Some (fs s2 !! q) ↔ is_Some (fs s !! q).
Proof.
  intros Hp Hres Hparent. unfold deletable in Hres. rewrite Hp in Hres.
  destruct n as [c a|a].
  - rewrite (rmtree_entry_in_file h lib d p s c a Hp).
    destruct a; try (by destruct Hres).
    all: destruct (reports_again lib (os_name h)) eqn:Hagain;
      [|by eexists].
    all: assert (Hos : os_name h = Posix) by (by destruct lib, (os_name h)).
    all: rewrite handleRemoveReadonly_run; simpl; rewrite Hparent, Hos.
    all: destruct a'; eexists; (split; [reflexivity|]); intros q; simpl;
      try done.
    all: by apply insert_is_Some_same.
  - rewrite (rmtree_entry_in_dir h lib d p s a Hp).
    + destruct a; try (by destruct Hres); eexists;
        (split; [reflexivity|]); intros q; simpl; try done.
      by apply insert_is_Some_same.
    + intros ->. by destruct Hres.
Qed.

(** The first entry of the walk that resists decides how [delete_dir]
    ends, whether it is a file or a directory.  The entries met before
    it are gone, the entry itself and those after it are still there.
    The handler has changed the mode of the entry and tried [unlink]
    once more.  When this has failed for lack of permission, the
    warning is printed and [delete_dir] returns normally; when it has
    failed otherwise, [delete_dir] raises an [Exception] with the text
    of the error.  A directory always makes the handler fail, since
    [unlink] removes none: with [PermissionError] on Windows or when
    the directory may not be removed, with [IsADirectoryError]
    otherwise.  With Python 3.13 outside Windows the failure of the
    handler on a file does not decide: the handler is called again on
    the directory of the file, and fails as it does on a directory. *)
Lemma delete_dir_in_first_obstacle h lib (d : path) (s : state)
    (listing pre : list path) (p : path) (post : list path) (n : node) a' :
  isdir d (fs s) = true →
  bottom_up d (fs s) listing →
  listing = pre ++ p :: post →
  Forall (deletable (fs s)) pre →
  fs s !! p = Some n →
  ¬ deletable (fs s) p →
  fs s !! dirname p = Some (Dir a') →
  let run := delete_dir_in h lib listing d s in
  let warned :=
    run.2 = Ok tt
    ∧ last (trace run.1) = Some (EvPrint (permission_warning h d)) in
  let raised := λ e,
    run.2 = Raise (Exn Exception ("Error encountered trying to remove "
                                  +:+ str_path (os_sep h) d +:+ ": "
                                  +:+ exn_str e)) in
  Forall (λ q, fs run.1 !! q = None) pre
  ∧ Forall (λ q, is_Some (fs run.1 !! q)) (p :: post)
  ∧ match n with
    | File _ a =>
        if reports_again lib (os_name h) then
          match a' with
          | Faulty => raised EIO
          | Locked => warned
          | _ => raised EISDIR
          end
        else match a with Faulty => raised EIO | _ => warned end
    | Dir Faulty => raised EIO
    | Dir Locked => warned
    | Dir _ =>
        match os_name h with
        | Windows => warned
        | Posix => raised EISDIR
        end
    end.
Proof.
  intros Hd Hbottom Hwalk Hpre Hp Hres Hparent run warned raised.
  pose proof (bottom_up_NoDup _ _ _ Hbottom) as Hnd.
  pose proof (proj2 Hbottom) as Hsort.
  rewrite Hwalk in Hnd, Hsort.
  set (s0 := log [EvRmtree d] s).
  destruct (walk_deletable_in h lib d pre (p :: post) s0) as [evs Hrun_pre];
    [done|done| | |done|].
  { intros q Hq. rewrite <- Hwalk in Hq.
    by apply (bottom_up_spec _ _ _ _ Hbottom) in Hq as [? _]. }
  { intros q Hdq Hsome. rewrite <- Hwalk.
    by apply (bottom_up_spec _ _ _ _ Hbottom). }
  set (s1 := with_fs (foldl (λ acc x, delete x acc) (fs s0) pre)
                     (log evs s0)) in *.
  assert (Hlater : ∀ q, q ∈ p :: post → q ∉ pre).
  { apply NoDup_app in Hnd as (_ & Hdisj & _). intros q Hq Hq'.
    by apply (Hdisj q Hq'). }
  assert (Hparent_later : dirname p ∉ pre).
  { intros Hin.
    assert (Hall : Forall (λ q, ∀ r, r ∈ p :: post → ¬ q `prefix_of` r) pre).
    { clear -Hsort. induction pre as [|x pre IH]; [constructor|].
      simpl in Hsort. apply StronglySorted_inv in Hsort as [Hsort Hx].
      constructor; [|by apply IH].
      intros r Hr. rewrite Forall_forall in Hx. apply Hx.
      apply elem_of_app. by right. }
    rewrite Forall_forall in Hall.
    apply (Hall _ Hin p); [left|]. apply dirname_prefix. }
  assert (Hkept : ∀ q, q ∉ pre → fs s1 !! q = fs s !! q).
  { intros q Hq. simpl. rewrite foldl_delete_lookup. by rewrite decide_False. }
  assert (Hgone : ∀ q, q ∈ pre → fs s1 !! q = None).
  { intros q Hq. simpl. rewrite foldl_delete_lookup. by rewrite decide_True. }
  assert (Hp1 : fs s1 !! p = Some n).
  { rewrite Hkept; [done|]. apply Hlater. left. }
  assert (Hres1 : ¬ deletable (fs s1) p).
  { intros Hdel. apply Hres. unfold deletable in Hdel |- *.
    rewrite Hp. by rewrite Hp1 in Hdel. }
  assert (Hparent1 : fs s1 !! dirname p = Some (Dir a')).
  { by rewrite Hkept. }
  destruct (rmtree_entry_in_resists h lib d p s1 n a' Hp1 Hres1 Hparent1)
    as (s2 & Hentry & Hdom).
  assert (Hwalked : shutil_rmtree_in h lib listing d (handleRemoveReadonly h) s
                    = (s2, Raise match n with
                 | File _ a =>
                     if reports_again lib (os_name h) then
                       match a' with
                       | Faulty => EIO
                       | Locked => EACCES
                       | _ => EISDIR
                       end
                     else match a with Faulty => EIO | _ => EACCES end
                 | Dir Faulty => EIO
                 | Dir Locked => EACCES
                 | Dir _ => dir_as_file (os_name h)
                 end)).
  { rewrite shutil_rmtree_in_dir, Hwalk, for_each_app by done.
    fold s0. erewrite bind_Ok by exact Hrun_pre.
    simpl for_each. by erewrite bind_Raise by exact Hentry. }
  assert (Hfs : fs run.1 = fs s2).
  { unfold run. rewrite delete_dir_in_run, Hwalked.
    match goal with
    | |- context [Raise ?e] => destruct (isinstance e PermissionError); [done|];
                               by destruct (isinstance e Exception)
    end. }
  split; [|split].
  - rewrite Forall_forall. intros q Hq. rewrite Hfs.
    apply eq_None_not_Some. rewrite Hdom, (Hgone q Hq). by intros [? ?].
  - rewrite Forall_forall. intros q Hq. rewrite Hfs, Hdom, Hkept by auto.
    assert (Hin : q ∈ listing).
    { rewrite Hwalk. apply elem_of_app. by right. }
    by apply (bottom_up_spec _ _ _ _ Hbottom) in Hin as [_ ?].
  - unfold warned, raised, run. rewrite delete_dir_in_run, Hwalked.
    destruct n as [c a|a].
    + destruct (reports_again lib (os_name h)).
      * destruct a'; simpl; try done. by rewrite last_snoc.
      * destruct a; simpl; try done; by rewrite last_snoc.
    + destruct a; simpl; try done; try (by rewrite last_snoc).
      * unfold deletable in Hres. rewrite Hp in Hres. by destruct Hres.
      * destruct (os_name h); simpl; [by rewrite last_snoc|done].
Qed.

(** What has been shown of [delete_dir] on a tree that it can remove
    and on a path that is absent does not depend on the release nor on
    the order of the walk. *)
Lemma delete_dir_in_clears h lib (listing : list path) (d : path) (s : state) :
  isdir d (fs s) = true →
  bottom_up d (fs s) listing →
  Forall (deletable (fs s)) (under d (fs s)) →
  (delete_dir_in h lib listing d s).2 = Ok tt
  ∧ ∀ q, fs (delete_dir_in h lib listing d s).1 !! q =
         if decide (d `prefix_of` q) then None else fs s !! q.
Proof.
  intros Hd Hbottom Hall.
  assert (Hwalk : Forall (deletable (fs s)) listing).
  { destruct Hbottom as [Hperm _]. by rewrite Hperm. }
  destruct (walk_deletable_in h lib d listing [] (log [EvRmtree d] s))
    as [evs Hrun]; rewrite ?app_nil_r; try done.
  - by apply (bottom_up_NoDup d (fs s)).
  - apply Hbottom.
  - intros q Hq. by apply (bottom_up_spec _ _ _ _ Hbottom) in Hq as [? _].
  - intros q Hdq Hsome. by apply (bottom_up_spec _ _ _ _ Hbottom).
  - rewrite delete_dir_in_run, shutil_rmtree_in_dir, Hrun by done.
    cbn [fst snd fs with_fs]. split; [done|].
    intros q. rewrite foldl_delete_lookup.
    destruct (decide (q ∈ listing)) as [Hin|Hout];
      destruct (decide (d `prefix_of` q)) as [Hp|Hp]; try done.
    + by apply (bottom_up_spec _ _ _ _ Hbottom) in Hin as [? _].
    + destruct (fs s !! q) eqn:Hq; [|done].
      exfalso. apply Hout, (bottom_up_spec _ _ _ _ Hbottom). by split.
Qed.

Lemma delete_dir_in_absent h lib (listing : list path) (p : path) (s : state) :
  fs s !! p = None →
  (delete_dir_in h lib listing p s).2 =
    Raise (Exn Exception ("Error encountered trying to remove "
                          +:+ str_path (os_sep h) p
                          +:+ ": [Errno 2] No such file or directory")).
Proof.
  intros Hp. rewrite delete_dir_in_run.
  unfold shutil_rmtree_in, bind, query. rewrite emit_run. cbn [fs log].
  rewrite Hp, handleRemoveReadonly_run. cbn [fs log]. by rewrite Hp.
Qed.

(** On a directory the handler never returns, and what it raises is
    no [FileNotFoundError]: the second call made by Python 3.13 always
    ends the walk. *)
Lemma handleRemoveReadonly_on_directory h func (p : path) e (s : state) a :
  fs s !! p = Some (Dir a) →
  ∃ s' e', handleRemoveReadonly h func p e s = (s', Raise e')
           ∧ isinstance e' FileNotFoundError = false.
Proof.
  intros Hp. rewrite handleRemoveReadonly_run, Hp.
  destruct a; eexists _, _; (split; [reflexivity|]); try done.
  all: by destruct (os_name h).
Qed.

(** ** Comparing the identifiers: [check_for_update] *)

(** The check up to the comparison of line 616. *)
Lemma check_for_update_compare h s cp content a :
  ls_remote h = Ok cp →
  returncode cp = 0%Z →
  fs s !! (getcwd h ++ ["ID.txt"]) = Some (File content a) →
  a ≠ Faulty →
  has_blank content = false →
  head (Str.split (stdout cp)) = Some (Str.strip content) →
  check_for_update h s =
    remove_if_isdir (delete_dir h) (getcwd h ++ ["temp"])
                    (log [EvLsRemote repo_url "HEAD"] s).
Proof.
  intros Hcp Hrc Hid Ha Hb Hsha. unfold check_for_update.
  erewrite bind_Ok; last first.
  { rewrite get_latest_commit_sha_run, Hcp, Hrc. simpl. reflexivity. }
  erewrite bind_Ok; last first.
  { rewrite read_local_SHA_run. simpl. rewrite Hid, Hb.
    destruct a; try done. }
  rewrite Hsha. by rewrite decide_True.
Qed.

(** C3, as the code has it: the test for blanks is made on the raw
    content, nothing is trimmed before it, so a stored identifier that
    ends in a line feed is rejected with the format [Exception].  When
    the content has no blank and is the identifier the remote resolves
    to, the check asks nothing, clones nothing and creates no entry.
    With no scratch directory it returns normally and has changed
    nothing; with one, what it does and how it ends is the call
    [delete_dir] on that directory, whose warning or [Exception] is
    that of the check.  It returns normally, with the scratch directory
    and its content removed and nothing else changed, when every entry
    of the scratch directory is a plain or read-only file or a plain
    directory. *)
Theorem check_for_update_stored_identifier h s cp sha rest content a :
  ls_remote h = Ok cp →
  returncode cp = 0%Z →
  Str.split (stdout cp) = sha :: rest →
  fs s !! (getcwd h ++ ["ID.txt"]) = Some (File content a) →
  a ≠ Faulty →
  let s0 := log [EvLsRemote repo_url "HEAD"] s in
  let run := check_for_update h s in
  if has_blank content then
    run = (s0, Raise (Exn Exception (bad_format h (getcwd h ++ ["ID.txt"]))))
  else if decide (Str.strip content = sha) then
    Forall cleanup_event (new_events s0 run.1)
    ∧ dom (fs run.1) ⊆ dom (fs s)
    ∧ (if isdir (getcwd h ++ ["temp"]) (fs s) then
         run = delete_dir h (getcwd h ++ ["temp"]) s0
         ∧ (Forall (deletable (fs s)) (under (getcwd h ++ ["temp"]) (fs s)) →
            run.2 = Ok tt
            ∧ ∀ q, fs run.1 !! q =
                   if decide ((getcwd h ++ ["temp"]) `prefix_of` q) then None
                   else fs s !! q)
       else run = (s0, Ok tt))
  else True.
Proof.
  intros Hcp Hrc Hsplit Hid Ha s0 run.
  destruct (has_blank content) eqn:Hb.
  - unfold run, check_for_update.
    erewrite bind_Ok; last first.
    { rewrite get_latest_commit_sha_run, Hcp, Hrc. simpl. reflexivity. }
    erewrite bind_Raise; [reflexivity|].
    rewrite read_local_SHA_run. simpl. rewrite Hid, Hb. by destruct a.
  - destruct (decide _) as [Hsha|]; [|done].
    assert (Hrun : run = remove_if_isdir (delete_dir h) (getcwd h ++ ["temp"]) s0).
    { apply (check_for_update_compare _ _ cp content a); try done.
      by rewrite Hsplit, Hsha. }
    assert (Hguard : remove_if_isdir (delete_dir h) (getcwd h ++ ["temp"]) s0 =
      if isdir (getcwd h ++ ["temp"]) (fs s)
      then delete_dir h (getcwd h ++ ["temp"]) s0 else (s0, Ok tt)).
    { unfold remove_if_isdir, bind, os_path_isdir, query. simpl.
      by destruct (isdir _ _). }
    rewrite Hrun, Hguard.
    destruct (isdir _ _) eqn:Hdir; simpl.
    + destruct (delete_dir h (getcwd h ++ ["temp"]) s0) as [s1 r1] eqn:Hdel.
      simpl. split; [|split; [|split; [done|]]].
      * eapply extends_new_events, delete_dir_logs, Hdel.
      * apply (delete_dir_shrinks _ _ _ _ _ Hdel).
      * intros Hall.
        destruct (delete_dir_clears h (getcwd h ++ ["temp"]) s0 Hdir Hall)
          as [Hok Hfs].
        rewrite Hdel in Hok, Hfs. by split.
    + split; [|split; [|done]].
      * unfold new_events. rewrite drop_all. constructor.
      * reflexivity.
Qed.

(** ** Paths of the manifest *)

Lemma dirname_snoc (p : path) x : dirname (p ++ [x]) = p.
Proof. apply removelast_last. Qed.

Lemma basename_app_cons (p : path) x l : basename (p ++ x :: l) = basename (x :: l).
Proof.
  unfold basename. induction p as [|y p IH]; [done|].
  simpl. destruct (p ++ x :: l) eqn:E; [by destruct p|]. by rewrite IH.
Qed.

Lemma prefix_app_cons_inv (root : path) x l y l' :
  (root ++ x :: l) `prefix_of` (root ++ y :: l') → x = y.
Proof. intros H. apply prefix_app_inv in H. by apply prefix_cons_inv_1 in H. Qed.

Lemma prefix_app_self_inv (root : path) x l : ¬ (root ++ x :: l) `prefix_of` root.
Proof.
  intros H. apply prefix_length in H. rewrite length_app in H. simpl in H. lia.
Qed.

(** Decides that a path of the manifest is not a prefix of another
    path below the same root by looking at the first component where
    they differ. *)
Ltac not_prefix :=
  let H := fresh in
  intros H;
  rewrite ?basename_app_cons in H; unfold basename in H;
  repeat rewrite <- app_assoc in H; simpl in H;
  first [ exact (prefix_app_self_inv _ _ _ H)
        | apply prefix_app_cons_inv in H; discriminate H
        | apply prefix_app_inv in H; apply prefix_cons_inv_2 in H;
          apply prefix_cons_inv_1 in H; discriminate H ].

Ltac not_equal :=
  let H := fresh in
  intros H; repeat rewrite <- app_assoc in H; simpl in H;
  first [ apply app_inv_head in H; discriminate H
        | apply (f_equal length) in H; rewrite !length_app in H; simpl in H; lia ].

(** ** Staging *)

Lemma stage_logs h url temp_dir :
  preserves (extends stage_event) (stage h url temp_dir (delete_dir h)).
Proof.
  unfold stage, remove_if_isdir, os_path_isdir, git_Repo_clone_from, print.
  pres.
  eapply preserves_extends_mono; [|apply delete_dir_logs].
  by intros [].
Qed.

Lemma stage_keeps h url temp_dir q :
  ¬ temp_dir `prefix_of` q →
  preserves (keeps q) (stage h url temp_dir (delete_dir h)).
Proof.
  intros Hq.
  unfold stage, remove_if_isdir, os_path_isdir, git_Repo_clone_from, print.
  pres.
  - by apply delete_dir_keeps.
  - apply effect_keeps. intros m. destruct (clone h); [|done].
    by apply checkout_frame.
Qed.

(** ** Replacing the files in the launcher's own process *)

#[local] Instance anchored_preorder root q : PreOrder (anchored root q).
Proof.
  split.
  - by intros s.
  - intros s1 s2 s3 H1 H2 Hd. destruct (H1 Hd) as [Hd2 E1].
    destruct (H2 Hd2) as [Hd3 E2]. split; [done|congruence].
Qed.

Lemma effect_anchored {A} (root q : path) (ev : event)
    (f : gmap path node → gmap path node * result A) :
  (∀ m, isdir root m = true →
        (f m).1 !! root = m !! root ∧ (f m).1 !! q = m !! q) →
  preserves (anchored root q) (effect ev f).
Proof.
  intros Hf s s' r. unfold effect. specialize (Hf (fs s)).
  destruct (f (fs s)) as [m r']. intros [= <- _] Hd. simpl in *.
  destruct (Hf Hd) as [Hr Hq]. split; [|done].
  unfold isdir in *. by rewrite Hr.
Qed.

(** One step of the loop leaves the identifier file alone. *)
Lemma replace_file_anchored h (root : path) entry :
  entry ∈ update_files root (root ++ ["temp"]) →
  preserves (anchored root (root ++ ["ID.txt"])) (replace_file h entry).
Proof.
  intros Hin. unfold update_files in Hin.
  repeat (apply elem_of_cons in Hin as [->|Hin]); [..|by apply elem_of_nil in Hin].
  all: unfold replace_file, os_path_isfile, os_remove, os_unlink, shutil_move.
  all: pres.
  all: apply effect_anchored; intros m Hd.
  all: try (split; apply unlink_frame; not_equal).
  - rewrite dirname_snoc.
    split; apply move_frame; rewrite ?Hd; not_prefix.
  - change (root ++ ["Python"; "main.py"]) with (root ++ ["Python"] ++ ["main.py"]).
    rewrite app_assoc, dirname_snoc.
    split; apply move_frame; try not_prefix;
      destruct (isdir (root ++ ["Python"]) m); not_prefix.
  - change (root ++ ["Python"; "Update.py"]) with (root ++ ["Python"] ++ ["Update.py"]).
    rewrite app_assoc, dirname_snoc.
    split; apply move_frame; try not_prefix;
      destruct (isdir (root ++ ["Python"]) m); not_prefix.
  - change (root ++ ["Python"; "workflows.py"])
      with (root ++ ["Python"] ++ ["workflows.py"]).
    rewrite app_assoc, dirname_snoc.
    split; apply move_frame; try not_prefix;
      destruct (isdir (root ++ ["Python"]) m); not_prefix.
Qed.

Lemma replace_file_logs h entry :
  preserves (extends replace_event) (replace_file h entry).
Proof.
  destruct entry as [l g].
  unfold replace_file, os_path_isfile, os_remove, os_unlink, shutil_move. pres.
Qed.

Lemma Update_GUI_files_staged h url (root ID_file : path) sha dd s s1 :
  stage h url (root ++ ["temp"]) dd s = (s1, Ok true) →
  Update_GUI_files h url root ID_file sha dd s =
    match APPDATA h with
    | Some _ =>
        apply_deferred h (root ++ ["temp"]) ID_file sha
          (update_files root (root ++ ["temp"])) s1
    | None =>
        apply_in_process h ID_file sha (update_files root (root ++ ["temp"])) s1
    end.
Proof.
  intros Hst. unfold Update_GUI_files.
  erewrite bind_Ok by exact Hst. simpl. by destruct (APPDATA h).
Qed.

Lemma extends_not_in (P : event → Prop) ev s s' :
  ¬ P ev → extends P s s' → ev ∉ new_events s s'.
Proof.
  intros HP Hext Hin. apply extends_new_events in Hext as [_ Hall].
  rewrite Forall_forall in Hall. by apply HP, Hall.
Qed.

(** C10: when [APPDATA] is not set, the identifier file is opened for
    writing only once the loop over the manifest has come to its end;
    when a removal or a move raises, [Update_GUI_files] raises the same
    error, and the identifier file is as it was before the call. *)
Theorem in_process_identifier_written_last h url (root : path) sha s s1 :
  APPDATA h = None →
  isdir root (fs s) = true →
  stage h url (root ++ ["temp"]) (delete_dir h) s = (s1, Ok true) →
  let ID_file := root ++ ["ID.txt"] in
  let loop := for_each (update_files root (root ++ ["temp"])) (replace_file h) s1 in
  Update_GUI_files h url root ID_file sha (delete_dir h) s =
    match loop.2 with
    | Raise e => (loop.1, Raise e)
    | Ok _ => (open_write h ID_file ;; opf_write_obj ID_file sha) loop.1
    end
  ∧ fs loop.1 !! ID_file = fs s !! ID_file
  ∧ EvOpenW ID_file ∉ new_events s loop.1.
Proof.
  intros Happ Hroot Hst ID_file loop.
  destruct loop as [s2 r2] eqn:Hloop. unfold loop in Hloop. simpl.
  split; [|split].
  - rewrite (Update_GUI_files_staged _ _ _ _ _ _ _ _ Hst), Happ.
    unfold apply_in_process, bind at 1. rewrite Hloop. by destruct r2 as [[]|e].
  - assert (H1 : fs s1 !! ID_file = fs s !! ID_file).
    { eapply (stage_keeps h url (root ++ ["temp"]) ID_file); [|exact Hst].
      unfold ID_file. not_prefix. }
    assert (H2 : fs s1 !! root = fs s !! root).
    { eapply (stage_keeps h url (root ++ ["temp"]) root); [|exact Hst].
      not_prefix. }
    assert (Hroot1 : isdir root (fs s1) = true).
    { unfold isdir in *. by rewrite H2. }
    assert (Hanch : anchored root ID_file s1 s2).
    { eapply (preserves_for_each (anchored root ID_file)); [|exact Hloop].
      intros entry Hin. by apply replace_file_anchored. }
    destruct (Hanch Hroot1) as [_ H3]. congruence.
  - apply (extends_not_in (λ ev, stage_event ev ∨ replace_event ev)).
    { by intros [[]|[]]. }
    etrans.
    + eapply extends_mono; [|eapply stage_logs, Hst]. tauto.
    + eapply extends_mono;
        [|eapply (preserves_for_each (extends replace_event)), Hloop].
      * tauto.
      * intros entry _. apply replace_file_logs.
Qed.

(** One step of the loop when the file of the clone is missing: the
    local file is removed, and the move then fails. *)
Lemma replace_file_missing_source h (root : path) entry s content :
  entry ∈ update_files root (root ++ ["temp"]) →
  fs s !! entry.1 = Some (File content Normal) →
  fs s !! entry.2 = None →
  replace_file h entry s =
    (with_fs (delete entry.1 (fs s))
             (log [EvUnlink entry.1; EvMove entry.2 (dirname entry.1)] s),
     Raise ENOENT).
Proof.
  intros Hin Hl Hg.
  assert (Hshape : ∃ d b, entry.1 = d ++ [b] ∧ basename entry.2 = b
                          ∧ entry.2 ≠ entry.1).
  { unfold update_files in Hin.
    repeat (apply elem_of_cons in Hin as [->|Hin]);
      [..|by apply elem_of_nil in Hin]; simpl.
    - exists root, "UVPD_GUI_Launcher.py".
      split; [done|]. split; [by rewrite basename_app_cons|not_equal].
    - exists (root ++ ["Python"]), "main.py".
      split; [by rewrite <- app_assoc|].
      split; [by rewrite basename_app_cons|not_equal].
    - exists (root ++ ["Python"]), "Update.py".
      split; [by rewrite <- app_assoc|].
      split; [by rewrite basename_app_cons|not_equal].
    - exists (root ++ ["Python"]), "workflows.py".
      split; [by rewrite <- app_assoc|].
      split; [by rewrite basename_app_cons|not_equal]. }
  destruct Hshape as (d & b & Hd & Hb & Hne).
  destruct entry as [l g]. simpl in *. subst l.
  unfold replace_file, os_path_isfile, os_remove, os_unlink, shutil_move.
  unfold bind at 1. unfold bind at 1. unfold query, isfile. rewrite Hl.
  rewrite effect_run. unfold unlink at 2. rewrite Hl. simpl.
  rewrite effect_run. simpl. unfold unlink. rewrite Hl. simpl.
  rewrite dirname_snoc. unfold move. rewrite Hb.
  assert (Hsrc : delete (d ++ [b]) (fs s) !! g = None).
  { by rewrite lookup_delete_ne. }
  rewrite Hsrc.
  destruct (isdir d (delete (d ++ [b]) (fs s))); simpl.
  - rewrite bool_decide_eq_false_2.
    + simpl. unfold with_fs, log. simpl. by rewrite <- app_assoc.
    + rewrite lookup_delete_eq. by intros [? ?].
  - unfold with_fs, log. simpl. by rewrite <- app_assoc.
Qed.

(** C2, as the code has it: the manifest is the fixed table
    [update_files]; nothing checks that the files of the clone exist
    when it is built.  A missing file is met when its move is tried: in
    the launcher's own process the local file has been removed by then,
    and [Update_GUI_files] fails with the [FileNotFoundError] of the
    move. *)
Theorem missing_source_found_at_move h url (root : path) sha s s1 s2
    pre entry post content :
  APPDATA h = None →
  stage h url (root ++ ["temp"]) (delete_dir h) s = (s1, Ok true) →
  update_files root (root ++ ["temp"]) = pre ++ entry :: post →
  for_each pre (replace_file h) s1 = (s2, Ok tt) →
  fs s2 !! entry.1 = Some (File content Normal) →
  fs s2 !! entry.2 = None →
  Update_GUI_files h url root (root ++ ["ID.txt"]) sha (delete_dir h) s =
    (with_fs (delete entry.1 (fs s2))
             (log [EvUnlink entry.1; EvMove entry.2 (dirname entry.1)] s2),
     Raise ENOENT).
Proof.
  intros Happ Hst Hfiles Hpre Hl Hg.
  rewrite (Update_GUI_files_staged _ _ _ _ _ _ _ _ Hst), Happ.
  unfold apply_in_process. rewrite Hfiles.
  erewrite bind_Raise; [reflexivity|].
  rewrite for_each_app. erewrite bind_Ok by exact Hpre. simpl.
  erewrite bind_Raise; [reflexivity|].
  apply (replace_file_missing_source h root entry s2 content); try done.
  rewrite Hfiles. apply elem_of_app. right. left.
Qed.

(** ** Writing and starting the update script *)

Lemma append_assoc (a b c : string) : (a +:+ b) +:+ c = a +:+ b +:+ c.
Proof.
  induction a as [|x a IH]; [reflexivity|].
  change (String x ((a +:+ b) +:+ c) = String x (a +:+ b +:+ c)). by f_equal.
Qed.

Lemma append_empty_r (a : string) : a +:+ "" = a.
Proof.
  induction a as [|x a IH]; [reflexivity|].
  change (String x (a +:+ "") = String x a). by f_equal.
Qed.

Lemma open_w_Ok (os : platform) (p : path) (m : gmap path node) :
  (open_w os p m).2 = Ok tt → (open_w os p m).1 = <[p := File "" Normal]> m.
Proof.
  unfold open_w. destruct (negb _); [done|].
  by destruct (m !! p) as [[c []|a]|].
Qed.

Lemma open_write_run h (p : path) (s : state) :
  (open_w (os_name h) p (fs s)).2 = Ok tt →
  open_write h p s =
    (with_fs (<[p := File "" Normal]> (fs s)) (log [EvOpenW p] s), Ok tt).
Proof.
  intros Hok. unfold open_write. rewrite effect_run, Hok.
  by rewrite open_w_Ok.
Qed.

Lemma opf_write_run (p : path) (data : string) (s : state) content a :
  fs s !! p = Some (File content a) →
  opf_write p data s =
    (with_fs (<[p := File (content +:+ data) a]> (fs s)) (log [EvWrite p data] s),
     Ok tt).
Proof.
  intros Hp. unfold opf_write. rewrite effect_run. unfold append.
  by rewrite Hp.
Qed.

Lemma write_lines (p : path) (lines : list string) (s : state) content a :
  fs s !! p = Some (File content a) →
  for_each lines (opf_write p) s =
    (with_fs (<[p := File (content +:+ join lines) a]> (fs s))
             (log (map (EvWrite p) lines) s), Ok tt).
Proof.
  revert s content. induction lines as [|l lines IH]; intros s content Hp; simpl.
  - unfold ret. f_equal. apply state_eq; simpl.
    + rewrite append_empty_r. by rewrite insert_id.
    + done.
    + by rewrite app_nil_r.
  - erewrite bind_Ok by (by apply opf_write_run).
    erewrite IH by (simpl; apply lookup_insert_eq).
    f_equal. apply state_eq; simpl.
    + by rewrite insert_insert_eq, append_assoc.
    + done.
    + by rewrite <- app_assoc.
Qed.

Lemma write_entries h (p : path) (files : list (path * path)) (s : state) :
  for_each files (λ entry,
    let '(local_path, github_path) := entry in
    opf_write p (remove_line h local_path) ;;
    opf_write p (move_line h local_path github_path)) s =
  for_each (flat_map (λ entry, [remove_line h entry.1;
                                move_line h entry.1 entry.2]) files)
           (opf_write p) s.
Proof.
  revert s. induction files as [|[l g] files IH]; intros s; simpl; [done|].
  unfold bind.
  destruct (opf_write p (remove_line h l) s) as [s1 [[]|e]]; [|done].
  destruct (opf_write p (move_line h l g) s1) as [s2 [[]|e]]; [|done].
  apply IH.
Qed.

Lemma join_app (a b : list string) : join (a ++ b) = join a +:+ join b.
Proof.
  induction a as [|x a IH]; [reflexivity|].
  simpl. by rewrite IH, append_assoc.
Qed.

Lemma script_lines_unfold h (files : list (path * path)) :
  script_lines h files =
  ("import os, sys" +:+ Str.LF) :: ("import shutil" +:+ Str.LF)
  :: flat_map (λ entry, [remove_line h entry.1; move_line h entry.1 entry.2]) files
  ++ ["sys.exit(0)"].
Proof.
  unfold script_lines, script_of. simpl. do 2 f_equal.
  rewrite map_app. f_equal.
  induction files as [|[l g] files IH]; [done|]. simpl. by rewrite IH.
Qed.

(** The first half of [apply_deferred]: the script is written in full
    and the launcher sleeps, before anything is started. *)
Lemma apply_deferred_script h (temp_dir ID_file : path) sha
    (files : list (path * path)) (s : state) :
  (open_w (os_name h) (temp_dir ++ ["update.py"]) (fs s)).2 = Ok tt →
  apply_deferred h temp_dir ID_file sha files s =
    (try_except
       (subprocess_Popen h (popen_argv h temp_dir))
       (orelse
          (except SubprocessError (λ e,
             print ("An subprocess error occurred while executing "
                    +:+ str_path (os_sep h) (temp_dir ++ ["update.py"])
                    +:+ ": " +:+ exn_str e)))
          (except Exception (λ e,
             print ("An unexpected error occurred when trying execute "
                    +:+ str_path (os_sep h) (temp_dir ++ ["update.py"])
                    +:+ ": " +:+ exn_str e)))) ;;
     open_write h ID_file ;;
     opf_write_obj ID_file sha) (script_written h temp_dir files s).
Proof.
  intros Hopen. unfold apply_deferred.
  set (p := temp_dir ++ ["update.py"]) in *.
  erewrite bind_Ok by (by apply open_write_run).
  erewrite bind_Ok by (eapply opf_write_run; simpl; apply lookup_insert_eq).
  erewrite bind_Ok by (eapply opf_write_run; simpl; apply lookup_insert_eq).
  erewrite bind_Ok; last first.
  { rewrite write_entries. eapply write_lines. simpl. apply lookup_insert_eq. }
  erewrite bind_Ok by (eapply opf_write_run; simpl; apply lookup_insert_eq).
  unfold opf_flush, os_fsync, time_sleep.
  erewrite bind_Ok by apply emit_run.
  erewrite bind_Ok by apply emit_run.
  erewrite bind_Ok by apply emit_run.
  f_equal. unfold script_written. fold p. rewrite script_lines_unfold.
  apply state_eq; simpl.
  - rewrite !insert_insert_eq. do 2 f_equal.
    rewrite join_app, !append_assoc. simpl. by rewrite append_empty_r.
  - done.
  - rewrite map_app. simpl. rewrite <- !app_assoc. simpl. done.
Qed.

Lemma launch_run h (temp_dir : path) (s : state) :
  try_except
    (subprocess_Popen h (popen_argv h temp_dir))
    (orelse
       (except SubprocessError (λ e,
          print ("An subprocess error occurred while executing "
                 +:+ str_path (os_sep h) (temp_dir ++ ["update.py"])
                 +:+ ": " +:+ exn_str e)))
       (except Exception (λ e,
          print ("An unexpected error occurred when trying execute "
                 +:+ str_path (os_sep h) (temp_dir ++ ["update.py"])
                 +:+ ": " +:+ exn_str e)))) s =
  (log (launch_events h temp_dir) s,
   match popen h with
   | Ok _ => Ok tt
   | Raise e =>
       if isinstance e SubprocessError || isinstance e Exception
       then Ok tt else Raise e
   end).
Proof.
  unfold try_except, subprocess_Popen, launch_events. rewrite effect_run. simpl.
  rewrite with_fs_log.
  destruct (popen h) as [[]|e]; simpl; [done|].
  unfold orelse, except, print.
  destruct (isinstance e SubprocessError); simpl.
  - rewrite emit_run. by rewrite log_log.
  - destruct (isinstance e Exception); simpl; [|done].
    rewrite emit_run. by rewrite log_log.
Qed.

Lemma open_w_frame_dep (os : platform) (p q : path) (n : node)
    (m : gmap path node) :
  q ≠ p → q ≠ dirname p →
  (open_w os p (<[q := n]> m)).2 = (open_w os p m).2.
Proof.
  intros H1 H2. unfold open_w, isdir.
  rewrite !lookup_insert_ne by done.
  destruct (negb _); [done|]. by destruct (m !! p) as [[c []|a]|].
Qed.

(** The second half of [apply_deferred], from the state in which the
    script is on disk. *)
Lemma apply_deferred_run h (temp_dir ID_file : path) sha
    (files : list (path * path)) (s : state) :
  (open_w (os_name h) (temp_dir ++ ["update.py"]) (fs s)).2 = Ok tt →
  (open_w (os_name h) ID_file (fs s)).2 = Ok tt →
  temp_dir ++ ["update.py"] ≠ ID_file →
  temp_dir ++ ["update.py"] ≠ dirname ID_file →
  let s2 := script_written h temp_dir files s in
  apply_deferred h temp_dir ID_file (Some sha) files s =
    match popen h with
    | Raise e =>
        if isinstance e SubprocessError || isinstance e Exception then
          (with_fs (<[ID_file := File sha Normal]> (fs s2))
                   (log (launch_events h temp_dir
                         ++ [EvOpenW ID_file; EvWrite ID_file sha]) s2), Ok tt)
        else (log (launch_events h temp_dir) s2, Raise e)
    | Ok _ =>
        (with_fs (<[ID_file := File sha Normal]> (fs s2))
                 (log (launch_events h temp_dir
                       ++ [EvOpenW ID_file; EvWrite ID_file sha]) s2), Ok tt)
    end.
Proof.
  intros Hscript Hid Hne1 Hne2 s2.
  rewrite apply_deferred_script by done. fold s2.
  assert (Hid2 : (open_w (os_name h) ID_file
                    (fs (log (launch_events h temp_dir) s2))).2 = Ok tt).
  { simpl. by rewrite open_w_frame_dep. }
  assert (Hwrite : (open_write h ID_file ;; opf_write_obj ID_file (Some sha))
                     (log (launch_events h temp_dir) s2) =
    (with_fs (<[ID_file := File sha Normal]> (fs s2))
             (log (launch_events h temp_dir
                   ++ [EvOpenW ID_file; EvWrite ID_file sha]) s2), Ok tt)).
  { erewrite bind_Ok by (by apply open_write_run).
    unfold opf_write_obj.
    erewrite opf_write_run by (simpl; apply lookup_insert_eq).
    f_equal. apply state_eq; simpl.
    - by rewrite insert_insert_eq.
    - done.
    - by rewrite <- !app_assoc. }
  unfold bind at 1. rewrite launch_run.
  destruct (popen h) as [[]|e]; [exact Hwrite|].
  destruct (_ || _); [exact Hwrite|done].
Qed.

Lemma new_events_log_log (X Y : list event) (m m' : gmap path node) (s : state) :
  new_events s (with_fs m (log Y (with_fs m' (log X s)))) = X ++ Y.
Proof. unfold new_events. simpl. by rewrite <- app_assoc, drop_app_length. Qed.

(** C8: when [APPDATA] is set and starting the update script raises an
    [Exception] [e], the error is caught and printed: the one message
    printed after the launch is that of the [except] clause that
    matches [e], naming the script and ending with [str(e)].  The new
    identifier is written to the identifier file all the same and
    [Update_GUI_files] returns normally, although none of the managed
    files has been replaced. *)
Theorem identifier_written_when_launch_fails h url (root : path) sha s s1 e a :
  APPDATA h = Some a →
  popen h = Raise e →
  isinstance e Exception = true →
  let temp_dir := root ++ ["temp"] in
  let ID_file := root ++ ["ID.txt"] in
  let files := update_files root temp_dir in
  stage h url temp_dir (delete_dir h) s = (s1, Ok true) →
  (open_w (os_name h) (temp_dir ++ ["update.py"]) (fs s1)).2 = Ok tt →
  (open_w (os_name h) ID_file (fs s1)).2 = Ok tt →
  let run := Update_GUI_files h url root ID_file (Some sha) (delete_dir h) s in
  run.2 = Ok tt
  ∧ fs run.1 !! ID_file = Some (File sha Normal)
  ∧ new_events s1 run.1 =
      EvOpenW (temp_dir ++ ["update.py"])
      :: map (EvWrite (temp_dir ++ ["update.py"])) (script_lines h files)
      ++ [EvFlush (temp_dir ++ ["update.py"]);
          EvFsync (temp_dir ++ ["update.py"]); EvSleep 5;
          EvPopen ["python"; str_path (os_sep h) (temp_dir ++ ["update.py"])];
          EvPrint ((if isinstance e SubprocessError
                    then "An subprocess error occurred while executing "
                    else "An unexpected error occurred when trying execute ")
                   +:+ str_path (os_sep h) (temp_dir ++ ["update.py"])
                   +:+ ": " +:+ exn_str e);
          EvOpenW ID_file; EvWrite ID_file sha]
  ∧ Forall (λ entry, fs run.1 !! entry.1 = fs s !! entry.1) files.
Proof.
  intros Happ Hpopen Hexc temp_dir ID_file files Hst Hscript Hid run.
  assert (Hrun : run =
    (with_fs (<[ID_file := File sha Normal]>
                (fs (script_written h temp_dir files s1)))
       (log (launch_events h temp_dir ++ [EvOpenW ID_file; EvWrite ID_file sha])
            (script_written h temp_dir files s1)), Ok tt)).
  { unfold run. rewrite (Update_GUI_files_staged _ _ _ _ _ _ _ _ Hst), Happ.
    rewrite apply_deferred_run; try done.
    - rewrite Hpopen, Hexc, orb_true_r. done.
    - unfold temp_dir, ID_file. not_equal.
    - unfold ID_file. rewrite dirname_snoc. unfold temp_dir. not_equal. }
  rewrite Hrun. simpl. split; [done|]. split; [apply lookup_insert_eq|].
  split.
  - unfold launch_events. rewrite Hpopen, Hexc.
    unfold script_written. rewrite new_events_log_log.
    destruct (isinstance e SubprocessError);
      rewrite <- app_comm_cons, <- app_assoc; reflexivity.
  - unfold files, update_files.
    repeat apply Forall_cons_2; [..|apply Forall_nil_2]; simpl.
    all: rewrite !lookup_insert_ne by (unfold ID_file, temp_dir; not_equal).
    all: eapply (stage_keeps h url temp_dir); [|exact Hst].
    all: unfold temp_dir; not_prefix.
Qed.

(** ** Which branch is taken *)

Lemma apply_deferred_logs h (temp_dir ID_file : path) sha files :
  preserves (extends deferred_event)
            (apply_deferred h temp_dir ID_file sha files).
Proof.
  unfold apply_deferred, open_write, opf_write_obj, opf_write, opf_flush,
    os_fsync, time_sleep, subprocess_Popen, print.
  pres.
  apply preserves_for_each; [apply _|]. intros [l g] _. pres.
Qed.

Lemma apply_in_process_logs h (ID_file : path) sha files :
  preserves (extends in_process_event) (apply_in_process h ID_file sha files).
Proof.
  unfold apply_in_process, open_write, opf_write_obj, opf_write. pres.
  apply preserves_for_each; [apply _|]. intros entry _.
  eapply preserves_extends_mono; [|apply replace_file_logs]. by intros [].
Qed.

(** The first event of a run that starts with a logged call. *)
Lemma head_bind_effect {A B : Type} (ev : event)
    (f : gmap path node → gmap path node * result A) (k : A → M B)
    (s s' : state) r :
  (∀ a, preserves (extends (λ _, True)) (k a)) →
  bind (effect ev f) k s = (s', r) →
  head (new_events s s') = Some ev.
Proof.
  intros Hk Hrun.
  destruct (bind_inv _ _ _ _ _ Hrun) as [(s1 & a & H1 & H2)|(e & H1 & _)].
  - rewrite effect_run in H1. injection H1 as <- _.
    destruct (Hk a _ _ _ H2) as (evs & Ht & _). simpl in Ht.
    unfold new_events. rewrite Ht, <- app_assoc, drop_app_length. done.
  - rewrite effect_run in H1. injection H1 as <- _.
    unfold new_events. simpl. by rewrite drop_app_length.
Qed.

Lemma preserves_extends_True (P : event → Prop) {A} (m : M A) :
  preserves (extends P) m → preserves (extends (λ _, True)) m.
Proof. apply preserves_extends_mono. done. Qed.

Lemma for_each_cons {A} (x : A) (l : list A) (body : A → M unit) :
  for_each (x :: l) body = (body x ;; for_each l body).
Proof. reflexivity. Qed.

Lemma head_extends (ev : event) (s s1 s' : state) :
  head (new_events s s1) = Some ev →
  extends (λ _, True) s s1 → extends (λ _, True) s1 s' →
  head (new_events s s') = Some ev.
Proof.
  intros Hh (e1 & H1 & _) (e2 & H2 & _). unfold new_events in *.
  rewrite H2, H1, <- app_assoc, drop_app_length.
  rewrite H1, drop_app_length in Hh. by destruct e1.
Qed.

Lemma replace_file_head h (l g : path) (s sA s' : state) r :
  replace_file h (l, g) s = (sA, r) →
  extends (λ _, True) sA s' →
  head (new_events s s') =
    Some (if isfile l (fs s) then EvUnlink l else EvMove g (dirname l)).
Proof.
  intros Hrun Hext.
  assert (HsA : extends (λ _, True) s sA).
  { eapply (preserves_extends_True replace_event), Hrun. apply replace_file_logs. }
  eapply head_extends; [|exact HsA|exact Hext].
  revert Hrun. unfold replace_file, os_path_isfile, query.
  unfold bind at 1. unfold bind at 1.
  destruct (isfile l (fs s)).
  - unfold os_remove, os_unlink. rewrite effect_run.
    destruct (unlink _ _ _).2 as [[]|e]; simpl.
    + unfold shutil_move. rewrite effect_run. intros [= <- _].
      unfold new_events. simpl. by rewrite <- app_assoc, drop_app_length.
    + intros [= <- _]. unfold new_events. simpl. by rewrite drop_app_length.
  - unfold ret, shutil_move. rewrite effect_run. intros [= <- _].
    unfold new_events. simpl. by rewrite drop_app_length.
Qed.

(** C9: once the clone is there, [Update_GUI_files] goes on with the
    branch that writes and starts the script when [APPDATA] is set, and
    with the branch that replaces the files itself when it is not,
    whatever the state of the file system: the first effect after
    staging is the creation of the script in the former case, the
    removal or the move of the first managed file in the latter. *)
Theorem strategy_chosen_by_APPDATA h url (root ID_file : path) sha dd s s1 :
  let temp_dir := root ++ ["temp"] in
  let files := update_files root temp_dir in
  stage h url temp_dir dd s = (s1, Ok true) →
  let run := Update_GUI_files h url root ID_file sha dd s in
  match APPDATA h with
  | Some _ =>
      run = apply_deferred h temp_dir ID_file sha files s1
      ∧ Forall deferred_event (new_events s1 run.1)
      ∧ head (new_events s1 run.1) = Some (EvOpenW (temp_dir ++ ["update.py"]))
  | None =>
      run = apply_in_process h ID_file sha files s1
      ∧ Forall in_process_event (new_events s1 run.1)
      ∧ head (new_events s1 run.1) =
          Some (if isfile (root ++ ["UVPD_GUI_Launcher.py"]) (fs s1)
                then EvUnlink (root ++ ["UVPD_GUI_Launcher.py"])
                else EvMove (temp_dir ++ ["GUI"; "UVPD_GUI_Launcher.py"])
                            (dirname (root ++ ["UVPD_GUI_Launcher.py"])))
  end.
Proof.
  intros temp_dir files Hst run.
  pose proof (Update_GUI_files_staged h url root ID_file sha dd s s1 Hst) as Hrun.
  fold temp_dir files run in Hrun.
  destruct (APPDATA h) as [a|]; rewrite Hrun; (split; [done|]).
  - destruct (apply_deferred _ _ _ _ _ _) as [s' r] eqn:Hd. simpl. split.
    + eapply extends_new_events, apply_deferred_logs, Hd.
    + unfold apply_deferred, open_write in Hd.
      eapply head_bind_effect; [|exact Hd].
      intros u. cbv beta.
      unfold opf_write_obj, opf_write, opf_flush, os_fsync, time_sleep,
        subprocess_Popen, print, open_write.
      pres.
      apply preserves_for_each; [apply _|]. intros [l g] _. pres.
  - destruct (apply_in_process _ _ _ _ _) as [s' r] eqn:Hd. simpl. split.
    + eapply extends_new_events, apply_in_process_logs, Hd.
    + unfold apply_in_process, files, update_files in Hd.
      rewrite for_each_cons in Hd.
      assert (Hloop : ∀ l, preserves (extends (λ _, True))
                                     (for_each l (replace_file h))).
      { intros l. apply preserves_for_each; [apply _|]. intros entry _.
        eapply preserves_extends_True, replace_file_logs. }
      assert (Hwrite : preserves (extends (λ _, True))
                (open_write h ID_file ;; opf_write_obj ID_file sha)).
      { unfold open_write, opf_write_obj, opf_write. pres. }
      destruct (bind_inv _ _ _ _ _ Hd) as [(s2 & [] & H1 & H2)|(e & H1 & _)].
      * destruct (bind_inv _ _ _ _ _ H1) as [(sA & [] & HA & HB)|(e & HA & [=])].
        eapply replace_file_head; [exact HA|].
        etrans; [eapply Hloop, HB|eapply Hwrite, H2].
      * destruct (bind_inv _ _ _ _ _ H1) as [(sA & [] & HA & HB)|(e' & HA & _)].
        -- eapply replace_file_head; [exact HA|]. eapply Hloop, HB.
        -- eapply replace_file_head; [exact HA|]. reflexivity.
Qed.

(** ** The whole cycle *)

(** [check_for_update], up to the call of the updater. *)
Lemma check_for_update_run h (s : state) :
  let s0 := log [EvLsRemote repo_url "HEAD"] s in
  let root := getcwd h in
  check_for_update h s =
  match (get_latest_commit_sha h repo_url "HEAD" s).2 with
  | Raise e => (s0, Raise e)
  | Ok repo_SHA =>
      match (read_local_SHA h (root ++ ["ID.txt"]) s0).2 with
      | Raise e => (s0, Raise e)
      | Ok local_SHA =>
          if decide (repo_SHA = Some local_SHA) then
            remove_if_isdir (delete_dir h) (root ++ ["temp"]) s0
          else if question h then
            (Update_GUI_files h repo_url root (root ++ ["ID.txt"]) repo_SHA
                              (delete_dir h) ;;
             print updated_message ;;
             sys_exit "0")
              (log (question_events ++ [EvPrint updating_message]) s)
          else
            (log (question_events
                  ++ [EvPrint "The user has opted to use their local version of the UVPD Analysis GUI."]) s,
             Ok tt)
      end
  end.
Proof.
  intros s0 root. unfold check_for_update. fold root.
  destruct (get_latest_commit_sha h repo_url "HEAD" s) as [sa r] eqn:Hg.
  assert (sa = s0) as ->.
  { rewrite get_latest_commit_sha_run in Hg. by injection Hg. }
  unfold bind at 1. rewrite Hg. simpl. destruct r as [repo_SHA|e]; [|done].
  destruct (read_local_SHA h (root ++ ["ID.txt"]) s0) as [sb r] eqn:Hr.
  assert (sb = s0) as ->.
  { rewrite read_local_SHA_run in Hr. by injection Hr. }
  unfold bind at 1. rewrite Hr. simpl. destruct r as [local_SHA|e]; [|done].
  destruct (decide _); [done|].
  unfold bind at 1, QMessageBox_question. rewrite effect_run. cbn [fst snd].
  rewrite with_fs_log. unfold s0. rewrite log_log.
  destruct (question h).
  - unfold bind at 1, print. rewrite emit_run, log_log. by rewrite <- app_assoc.
  - unfold print. rewrite emit_run, log_log. by rewrite <- app_assoc.
Qed.

Lemma new_events_trace (s s' : state) (evs : list event) :
  trace s' = trace s ++ evs → new_events s s' = evs.
Proof. intros Ht. unfold new_events. by rewrite Ht, drop_app_length. Qed.


(** A run of [apply_deferred] that returns has written the script,
    slept, tried to start the script, and written the identifier, in
    this order. *)
Lemma apply_deferred_Ok_events h (temp_dir ID_file : path) sha
    (files : list (path * path)) (s s' : state) :
  apply_deferred h temp_dir ID_file sha files s = (s', Ok tt) →
  ∃ v, sha = Some v ∧
    trace s' = trace s ++
      (EvOpenW (temp_dir ++ ["update.py"])
       :: map (EvWrite (temp_dir ++ ["update.py"])) (script_lines h files)
       ++ [EvFlush (temp_dir ++ ["update.py"]);
           EvFsync (temp_dir ++ ["update.py"])])
      ++ EvSleep 5 :: launch_events h temp_dir
      ++ [EvOpenW ID_file; EvWrite ID_file v].
Proof.
  intros Hrun.
  destruct ((open_w (os_name h) (temp_dir ++ ["update.py"]) (fs s)).2)
    as [[]|e] eqn:Hopen; last first.
  { unfold apply_deferred in Hrun. erewrite bind_Raise in Hrun; [done|].
    unfold open_write. rewrite effect_run, Hopen. reflexivity. }
  rewrite apply_deferred_script in Hrun by done.
  unfold bind at 1 in Hrun. rewrite launch_run in Hrun.
  set (s2 := log (launch_events h temp_dir) (script_written h temp_dir files s)) in *.
  assert (Hlaunched :
    (open_write h ID_file ;; opf_write_obj ID_file sha) s2 = (s', Ok tt)).
  { destruct (popen h) as [[]|e]; [done|]. by destruct (_ || _). }
  clear Hrun.
  destruct (bind_inv _ _ _ _ _ Hlaunched) as [(s3 & [] & H1 & H2)|(e & _ & [=])].
  unfold open_write in H1. rewrite effect_run in H1. injection H1 as <- _.
  destruct sha as [v|]; [|done]. exists v. split; [done|].
  unfold opf_write_obj, opf_write in H2. rewrite effect_run in H2.
  injection H2 as <- _. simpl.
  rewrite <- !app_assoc. simpl. rewrite <- !app_assoc. reflexivity.
Qed.

Lemma Update_GUI_files_logs h url (root ID_file : path) sha :
  preserves (extends updater_event)
            (Update_GUI_files h url root ID_file sha (delete_dir h)).
Proof.
  unfold Update_GUI_files. apply preserves_bind; [apply _| |intros cloned].
  - eapply preserves_extends_mono; [|apply stage_logs]. by left.
  - destruct cloned; simpl; [|apply preserves_ret; apply _].
    destruct (APPDATA h).
    + eapply preserves_extends_mono; [|apply apply_deferred_logs].
      intros ev. by right; left.
    + eapply preserves_extends_mono; [|apply apply_in_process_logs].
      intros ev. by right; right.
Qed.



(** ** The launcher and the script side by side *)










(** ** The statements on the sample installations *)

Section Samples.

Import Sample.

(** Decides a closed decidable statement by evaluation. *)
Ltac by_compute :=
  match goal with
  | |- ?P => apply (bool_decide_unpack P); vm_compute; exact I
  end.

(** *** C1 *)




(** *** C2 *)

(** Against C2: the remote tree has lost [main.py]; the manifest still
    lists it, nothing fails before the removals, and the local
    [main.py] is gone when the move raises. *)
Lemma manifest_lists_missing_source :
  let h := linux_changed_remote in
  let target := root ++ ["Python"; "main.py"] in
  let source := temp_dir ++ ["GUI"; "Python"; "main.py"] in
  let run := Update_GUI_files h repo_url root ID_file (Some "def456")
                              (delete_dir h) (start "abc123") in
  (target, source) ∈ update_files root temp_dir
  ∧ fs (staged h) !! source = None
  ∧ fs (start "abc123") !! target = Some (File "main v1" Normal)
  ∧ run.2 = Raise ENOENT
  ∧ fs run.1 !! target = None
  ∧ fs run.1 !! (root ++ ["UVPD_GUI_Launcher.py"])
    = Some (File "launcher v2" Normal).
Proof. vm_compute. repeat split; try reflexivity. right. left. Qed.

Lemma missing_source_found_at_move_witness :
  let h := linux_changed_remote in
  let first := (root ++ ["UVPD_GUI_Launcher.py"],
                temp_dir ++ ["GUI"; "UVPD_GUI_Launcher.py"]) in
  let entry := (root ++ ["Python"; "main.py"],
                temp_dir ++ ["GUI"; "Python"; "main.py"]) in
  let s2 := (for_each [first] (replace_file h) (staged h)).1 in
  Update_GUI_files h repo_url root (root ++ ["ID.txt"]) (Some "def456")
                   (delete_dir h) (start "abc123") =
    (with_fs (delete entry.1 (fs s2))
             (log [EvUnlink entry.1; EvMove entry.2 (dirname entry.1)] s2),
     Raise ENOENT).
Proof.
  intros h first entry s2.
  apply (missing_source_found_at_move h repo_url root (Some "def456")
           (start "abc123") (staged h) s2 [first] entry
           [(root ++ ["Python"; "Update.py"],
             temp_dir ++ ["GUI"; "Python"; "Update.py"]);
            (root ++ ["Python"; "workflows.py"],
             temp_dir ++ ["GUI"; "Python"; "workflows.py"])]
           "main v1").
  - reflexivity.
  - apply (run_eta (stage h repo_url (root ++ ["temp"]) (delete_dir h)
                          (start "abc123")) (Ok true)).
    vm_compute. reflexivity.
  - reflexivity.
  - apply (run_eta (for_each [first] (replace_file h) (staged h)) (Ok tt)).
    vm_compute. reflexivity.
  - vm_compute. reflexivity.
  - vm_compute. reflexivity.
Defined.

(** *** C3 *)

(** Against C3: the identifier file ends in a line feed, the remote
    resolves to the same identifier, and the check raises the format
    [Exception] instead of finding the installation up to date. *)
Lemma trailing_newline_rejected :
  let s := start ("abc123" +:+ Str.LF) in
  fs s !! ID_file = Some (File ("abc123" +:+ Str.LF) Normal)
  ∧ (get_latest_commit_sha linux_current repo_url "HEAD" s).2 = Ok (Some "abc123")
  ∧ (check_for_update linux_current s).2
    = Raise (Exn Exception (bad_format linux_current ID_file)).
Proof. vm_compute. repeat split; reflexivity. Qed.

Lemma check_for_update_stored_identifier_witness :
  let s := leftover ReadOnly in
  let s0 := log [EvLsRemote repo_url "HEAD"] s in
  let run := check_for_update linux_current s in
  Forall cleanup_event (new_events s0 run.1)
  ∧ dom (fs run.1) ⊆ dom (fs s)
  ∧ run = delete_dir linux_current temp_dir s0
  ∧ run.2 = Ok tt
  ∧ ∀ q, fs run.1 !! q =
         if decide (temp_dir `prefix_of` q) then None else fs s !! q.
Proof.
  intros s s0 run.
  pose proof (check_for_update_stored_identifier linux_current s
                (listing "abc123") "abc123" ["HEAD"] "abc123" Normal
                eq_refl eq_refl eq_refl eq_refl ltac:(discriminate)) as Hcheck.
  cbv zeta in Hcheck.
  change (has_blank "abc123") with false in Hcheck.
  change (decide (Str.strip "abc123" = "abc123"))
    with (left (eq_refl "abc123") : Decision ("abc123" = "abc123")) in Hcheck.
  cbv iota in Hcheck. fold s s0 run in Hcheck.
  destruct Hcheck as (Hevents & Hdom & Hrest).
  assert (Hdir : isdir (getcwd linux_current ++ ["temp"]) (fs s) = true)
    by (vm_compute; reflexivity).
  rewrite Hdir in Hrest. destruct Hrest as [Hrun Hclears].
  split; [exact Hevents|]. split; [exact Hdom|]. split; [exact Hrun|].
  apply Hclears. by_compute.
Defined.

(** The outcome of [delete_dir] is that of the check: a file of the
    scratch directory that no call can touch makes the check raise. *)
Example check_for_update_leftover_faulty :
  ∃ msg, (check_for_update linux_current (leftover Faulty)).2
         = Raise (Exn Exception msg).
Proof. eexists. vm_compute. reflexivity. Qed.

(** *** C4 *)

(** Against C4: the listing succeeds and is empty, and
    [get_latest_commit_sha] returns [None]; it raises nothing. *)
Lemma empty_listing_returns_None :
  ls_remote linux_no_reference = Ok empty_listing
  ∧ returncode empty_listing = 0%Z
  ∧ Str.split (stdout empty_listing) = []
  ∧ (get_latest_commit_sha linux_no_reference repo_url "HEAD" (start "abc123")).2
    = Ok None.
Proof. repeat split; reflexivity. Qed.

Lemma get_latest_commit_sha_outcome_witness :
  (get_latest_commit_sha linux_no_reference repo_url "HEAD" (start "abc123")).2
  = Ok None.
Proof.
  apply (get_latest_commit_sha_outcome linux_no_reference repo_url "HEAD"
           (start "abc123") empty_listing).
  reflexivity.
Defined.

(** *** C5 *)

(** Against C5: the first [delete_dir] removes the scratch directory,
    the second one, on the path that is now absent, raises. *)
Lemma second_delete_dir_raises :
  let h := linux in
  let first := delete_dir h temp_dir (staged h) in
  let second := delete_dir h temp_dir first.1 in
  isdir temp_dir (fs (staged h)) = true
  ∧ first.2 = Ok tt
  ∧ fs first.1 !! temp_dir = None
  ∧ second.2 = Raise (Exn Exception
      "Error encountered trying to remove home/app/temp: [Errno 2] No such file or directory").
Proof. vm_compute. repeat split; reflexivity. Qed.

Lemma delete_dir_twice_witness :
  let first := delete_dir linux temp_dir (staged linux) in
  first.2 = Ok tt
  ∧ fs first.1 !! temp_dir = None
  ∧ delete_dir linux temp_dir first.1 =
      (log [EvRmtree temp_dir; EvChmod temp_dir] first.1,
       Raise (Exn Exception ("Error encountered trying to remove "
                             +:+ str_path (os_sep linux) temp_dir
                             +:+ ": [Errno 2] No such file or directory")))
  ∧ remove_if_isdir (delete_dir linux) temp_dir first.1 = (first.1, Ok tt).
Proof.
  apply (delete_dir_twice linux temp_dir (staged linux)).
  - reflexivity.
  - by_compute.
Defined.

(** *** C6 *)

(** C6, against the code: the scratch directory holds a file whose
    [unlink] is refused for lack of permission, before and after the
    change of mode, and [shutil.rmtree] is that of Python 3.13 outside
    Windows.  The handler clears the mode, tries [unlink] once more
    and raises the [PermissionError]; [rmtree] catches it and calls
    the handler again on the scratch directory itself, whose [unlink]
    fails with [IsADirectoryError].  No warning is printed and
    [delete_dir] raises an [Exception], where the permission error that
    persists should end in the warning and a normal return, as it does
    on the same tree with Python 3.12. *)
Theorem locked_file_raises_with_313 :
  let s := leftover Locked in
  let notes := temp_dir ++ ["notes.txt"] in
  let run := delete_dir_in linux Py313 walk_313 temp_dir s in
  let run_312 := delete_dir_in linux Py312 walk_312 temp_dir s in
  fs s !! notes = Some (File "notes" Locked)
  ∧ bottom_up temp_dir (fs s) walk_313
  ∧ run.2 = Raise (Exn Exception
      "Error encountered trying to remove home/app/temp: [Errno 21] Is a directory")
  ∧ trace run.1 =
      [EvRmtree temp_dir; EvUnlink notes; EvChmod notes; EvUnlink notes;
       EvChmod temp_dir; EvUnlink temp_dir]
  ∧ bottom_up temp_dir (fs s) walk_312
  ∧ run_312.2 = Ok tt
  ∧ last (trace run_312.1) = Some (EvPrint (permission_warning linux temp_dir))
  ∧ fs run_312.1 !! notes = Some (File "notes" Locked).
Proof.
  intros s notes run run_312.
  split; [reflexivity|]. split; [by_compute|].
  split; [vm_compute; reflexivity|]. split; [vm_compute; reflexivity|].
  split; [by_compute|]. repeat split; vm_compute; reflexivity.
Qed.

(** The same with the general statement: whatever the order of the
    walk, the locked file is the first entry that resists once the
    entries before it are gone. *)
Example locked_file_first_obstacle :
  let run := delete_dir_in linux Py313 walk_312 temp_dir (leftover Locked) in
  run.2 = Raise (Exn Exception
      "Error encountered trying to remove home/app/temp: [Errno 21] Is a directory")
  ∧ fs run.1 !! (temp_dir ++ [".git"; "pack"]) = None
  ∧ is_Some (fs run.1 !! (temp_dir ++ ["notes.txt"])).
Proof.
  intros run.
  destruct (delete_dir_in_first_obstacle linux Py313 temp_dir (leftover Locked)
              walk_312 (take 8 walk_312) (temp_dir ++ ["notes.txt"]) [temp_dir]
              (File "notes" Locked) Normal)
    as (Hpre & Hpost & Hend).
  - vm_compute. reflexivity.
  - by_compute.
  - reflexivity.
  - by_compute.
  - reflexivity.
  - by_compute.
  - vm_compute. reflexivity.
  - fold run in Hpre, Hpost, Hend. split; [exact Hend|]. split.
    + by apply Forall_cons in Hpre as [? _].
    + by apply Forall_cons in Hpost as [? _].
Qed.

(** A subdirectory that may not be removed: the handler fails on it
    for lack of permission, the warning is printed and [delete_dir]
    returns normally, with either release. *)
Example delete_dir_locked_directory :
  let s := leftover_dir Locked in
  let run := delete_dir_in linux Py313 walk_313_cache temp_dir s in
  let run_312 := delete_dir_in linux Py312 walk_312_cache temp_dir s in
  bottom_up temp_dir (fs s) walk_313_cache
  ∧ bottom_up temp_dir (fs s) walk_312_cache
  ∧ run.2 = Ok tt
  ∧ last (trace run.1) = Some (EvPrint (permission_warning linux temp_dir))
  ∧ fs run.1 !! (temp_dir ++ ["cache"]) = Some (Dir Locked)
  ∧ run_312.2 = Ok tt
  ∧ last (trace run_312.1) = Some (EvPrint (permission_warning linux temp_dir))
  ∧ fs run_312.1 !! (temp_dir ++ ["cache"]) = Some (Dir Locked).
Proof.
  split; [by_compute|]. split; [by_compute|].
  vm_compute. repeat split; reflexivity.
Qed.

(** A read-only directory on Windows: the handler clears the
    attribute, but its [unlink] removes no directory; the warning is
    printed and the directory stays. *)
Example delete_dir_read_only_directory :
  let s := leftover_dir ReadOnly in
  let run := delete_dir_in windows Py312 walk_312_cache temp_dir s in
  run.2 = Ok tt
  ∧ last (trace run.1) = Some (EvPrint (permission_warning windows temp_dir))
  ∧ fs run.1 !! (temp_dir ++ ["cache"]) = Some (Dir Normal).
Proof. vm_compute. repeat split; reflexivity. Qed.

(** *** C7 *)

(** Against C7: an identifier with a tab in it is accepted. *)
Lemma tab_accepted :
  let content := "abc" +:+ Str.TAB +:+ "def" in
  Str.contains "009" content = true
  ∧ (read_local_SHA linux ID_file (start content)).2 = Ok content.
Proof. vm_compute. split; reflexivity. Qed.

Lemma read_local_SHA_rejects_blank_witness :
  read_local_SHA linux ID_file (start "abc 123") =
    (start "abc 123", Raise (Exn Exception (bad_format linux ID_file))).
Proof.
  apply (read_local_SHA_rejects_blank linux ID_file (start "abc 123")
           "abc 123" Normal).
  - reflexivity.
  - discriminate.
  - reflexivity.
Defined.

(** *** C8 *)

Lemma identifier_written_when_launch_fails_witness :
  let h := windows_no_python in
  let files := update_files root temp_dir in
  let run := Update_GUI_files h repo_url root ID_file (Some "def456")
                              (delete_dir h) (start "abc123") in
  run.2 = Ok tt
  ∧ fs run.1 !! ID_file = Some (File "def456" Normal)
  ∧ new_events (staged h) run.1 =
      EvOpenW (temp_dir ++ ["update.py"])
      :: map (EvWrite (temp_dir ++ ["update.py"])) (script_lines h files)
      ++ [EvFlush (temp_dir ++ ["update.py"]);
          EvFsync (temp_dir ++ ["update.py"]); EvSleep 5;
          EvPopen ["python"; str_path (os_sep h) (temp_dir ++ ["update.py"])];
          EvPrint ("An unexpected error occurred when trying execute "
                   +:+ str_path (os_sep h) (temp_dir ++ ["update.py"])
                   +:+ ": [WinError 2] The system cannot find the file specified");
          EvOpenW ID_file; EvWrite ID_file "def456"]
  ∧ Forall (λ entry, fs run.1 !! entry.1 = fs (start "abc123") !! entry.1) files.
Proof.
  intros h files run.
  apply (identifier_written_when_launch_fails h repo_url root "def456"
           (start "abc123") (staged h)
           (Exn FileNotFoundError "[WinError 2] The system cannot find the file specified")
           "C:/Users/me/AppData/Roaming").
  - reflexivity.
  - reflexivity.
  - reflexivity.
  - apply (run_eta (stage h repo_url (root ++ ["temp"]) (delete_dir h)
                          (start "abc123")) (Ok true)).
    vm_compute. reflexivity.
  - vm_compute. reflexivity.
  - vm_compute. reflexivity.
Defined.

(** *** C9 *)

Lemma strategy_chosen_by_APPDATA_witness :
  let h := windows in
  let files := update_files root temp_dir in
  let run := Update_GUI_files h repo_url root ID_file (Some "def456")
                              (delete_dir h) (start "abc123") in
  run = apply_deferred h temp_dir ID_file (Some "def456") files (staged h)
  ∧ Forall deferred_event (new_events (staged h) run.1)
  ∧ head (new_events (staged h) run.1) = Some (EvOpenW (temp_dir ++ ["update.py"])).
Proof.
  intros h files run.
  apply (strategy_chosen_by_APPDATA h repo_url root ID_file (Some "def456")
           (delete_dir h) (start "abc123") (staged h)).
  apply (run_eta (stage h repo_url (root ++ ["temp"]) (delete_dir h)
                        (start "abc123")) (Ok true)).
  vm_compute. reflexivity.
Defined.

(** *** C10 *)

Lemma in_process_identifier_written_last_witness :
  let h := linux_changed_remote in
  let loop := for_each (update_files root (root ++ ["temp"])) (replace_file h)
                       (staged h) in
  loop.2 = Raise ENOENT
  ∧ Update_GUI_files h repo_url root (root ++ ["ID.txt"]) (Some "def456")
                     (delete_dir h) (start "abc123") = (loop.1, Raise ENOENT)
  ∧ fs loop.1 !! (root ++ ["ID.txt"]) = fs (start "abc123") !! (root ++ ["ID.txt"])
  ∧ EvOpenW (root ++ ["ID.txt"]) ∉ new_events (start "abc123") loop.1.
Proof.
  intros h loop.
  assert (Hloop : loop.2 = Raise ENOENT) by (vm_compute; reflexivity).
  assert (Hstaged : stage h repo_url (root ++ ["temp"]) (delete_dir h)
                          (start "abc123") = (staged h, Ok true))
    by (apply (run_eta (stage h repo_url (root ++ ["temp"]) (delete_dir h)
                              (start "abc123")) (Ok true));
        vm_compute; reflexivity).
  destruct (in_process_identifier_written_last h repo_url root (Some "def456")
              (start "abc123") (staged h) eq_refl eq_refl Hstaged)
    as (Hrun & Hid & Hopen).
  fold loop in Hrun, Hid, Hopen. rewrite Hloop in Hrun.
  exact (conj Hloop (conj Hrun (conj Hid Hopen))).
Defined.

(** *** Further runs *)

(** The user declines: nothing is staged and the identifier stays. *)
Example declined_update :
  let run := check_for_update linux_declining (start "abc123") in
  run.2 = Ok tt
  ∧ fs run.1 !! ID_file = Some (File "abc123" Normal)
  ∧ isdir temp_dir (fs run.1) = false.
Proof. vm_compute. repeat split; reflexivity. Qed.

(** The user accepts on Linux: the four files are those of the clone
    and the identifier is the remote one. *)
Example accepted_update_in_process :
  let run := check_for_update linux (start "abc123") in
  run.2 = Raise (Exn SystemExit "0")
  ∧ fs run.1 !! ID_file = Some (File "def456" Normal)
  ∧ fs run.1 !! (root ++ ["UVPD_GUI_Launcher.py"]) = Some (File "launcher v2" Normal)
  ∧ fs run.1 !! (root ++ ["Python"; "main.py"]) = Some (File "main v2" Normal)
  ∧ fs run.1 !! (root ++ ["Python"; "Update.py"]) = Some (File "update v2" Normal)
  ∧ fs run.1 !! (root ++ ["Python"; "workflows.py"])
    = Some (File "workflows v2" Normal).
Proof. vm_compute. repeat split; reflexivity. Qed.

(** Without network, a user who types [y] sees the launcher exit all
    the same, with nothing started and nothing written: a cycle can
    reach [sys.exit(0)] without having launched the script. *)
Example offline_update_exits :
  let s := {| fs := installed "abc123"; stdin := ["y"]; trace := [] |} in
  let run := check_for_update linux_offline s in
  run.2 = Raise (Exn SystemExit "0")
  ∧ fs run.1 !! ID_file = Some (File "abc123" Normal)
  ∧ Forall (λ ev, is_popen ev = false) (new_events s run.1)
  ∧ EvExit "0" ∈ new_events s run.1.
Proof. repeat split; [vm_compute; reflexivity..|by_compute|by_compute]. Qed.

(** A scratch directory with a read-only file is removed entirely. *)
Example delete_dir_read_only :
  let run := delete_dir linux temp_dir (leftover ReadOnly) in
  run.2 = Ok tt ∧ under temp_dir (fs run.1) = [].
Proof. vm_compute. split; reflexivity. Qed.

(** With a locked file and the walk of Python 3.12 the removal stops
    there, a warning is printed and the call returns normally. *)
Example delete_dir_locked :
  let run := delete_dir linux temp_dir (leftover Locked) in
  run.2 = Ok tt
  ∧ last (trace run.1) = Some (EvPrint (permission_warning linux temp_dir))
  ∧ isdir temp_dir (fs run.1) = true.
Proof. vm_compute. repeat split; reflexivity. Qed.

(** With a faulty file and the walk of Python 3.12 the error reaches
    the caller. *)
Example delete_dir_faulty :
  (delete_dir linux temp_dir (leftover Faulty)).2
  = Raise (Exn Exception
      "Error encountered trying to remove home/app/temp: [Errno 5] Input/output error").
Proof. vm_compute. reflexivity. Qed.

End Samples.
(** ** Further properties of the update code *)

(** *** Tokens of [str.split] *)

(** A string without blank characters. *)
Lemma contains_append (c : ascii) (a b : string) :
  Str.contains c (a +:+ b) = (Str.contains c a || Str.contains c b)%bool.
Proof.
  induction a as [|x a IH].
  - reflexivity.
  - change (String x a +:+ b) with (String x (a +:+ b)). simpl.
    destruct (decide (x = c)); [reflexivity|apply IH].
Qed.

Lemma split_from_tokens (s : string) :
  ∀ cur : option string,
    (∀ t, cur = Some t → t ≠ "" ∧ ∀ c, Str.contains c t = true → Str.isspace c = false) →
    Forall (λ t, t ≠ "" ∧ ∀ c, Str.contains c t = true → Str.isspace c = false)
           (Str.split_from cur s).
Proof.
  induction s as [|a s IH]; intros cur Hcur; simpl.
  - destruct cur as [t|]; [|constructor]. constructor; [by apply Hcur|constructor].
  - destruct (Str.isspace a) eqn:Ha.
    + destruct cur as [t|].
      * constructor; [by apply Hcur|]. apply IH. by intros ? [=].
      * apply IH. by intros ? [=].
    + apply IH. intros t [= <-]. split.
      * destruct cur as [t|]; simpl; [|done].
        destruct t; [done|]. done.
      * intros c. rewrite contains_append. simpl.
        intros [Hc|Hc]%orb_true_iff.
        -- destruct cur as [t|]; [by apply (Hcur t)|done].
        -- destruct (decide (a = c)) as [<-|]; [done|done].
Qed.

Lemma lstrip_token (t : string) :
  (∀ c, Str.contains c t = true → Str.isspace c = false) → Str.lstrip t = t.
Proof.
  destruct t as [|a t]; [done|]. intros Ht. simpl.
  rewrite (Ht a); [done|]. simpl. by rewrite decide_True.
Qed.

Lemma rstrip_token (t : string) :
  (∀ c, Str.contains c t = true → Str.isspace c = false) → Str.rstrip t = t.
Proof.
  induction t as [|a t IH]; [done|]. intros Ht. simpl.
  rewrite IH.
  - destruct t; [|done]. rewrite (Ht a); [done|]. simpl. by rewrite decide_True.
  - intros c Hc. apply Ht. simpl. destruct (decide (a = c)); [done|exact Hc].
Qed.

Lemma token_no_blank (t : string) :
  (∀ c, Str.contains c t = true → Str.isspace c = false) → has_blank t = false.
Proof.
  intros Ht. unfold has_blank.
  destruct (Str.contains "010" t) eqn:H1; [by apply Ht in H1|].
  destruct (Str.contains "013" t) eqn:H2; [by apply Ht in H2|].
  destruct (Str.contains " " t) eqn:H3; [by apply Ht in H3|].
  reflexivity.
Qed.

Lemma head_token_clean (out sha : string) :
  head (Str.split out) = Some sha →
  sha ≠ ""
  ∧ (∀ c, Str.contains c sha = true → Str.isspace c = false)
  ∧ has_blank sha = false
  ∧ Str.strip sha = sha.
Proof.
  intros Hhead.
  assert (Hin : sha ∈ Str.split out).
  { destruct (Str.split out); [done|]. injection Hhead as ->. by left. }
  pose proof (split_from_tokens out None) as Hall.
  rewrite Forall_forall in Hall.
  destruct (Hall ltac:(by intros ? [=]) sha Hin) as [Hne Hclean].
  repeat split; [done|done|by apply token_no_blank|].
  unfold Str.strip. rewrite lstrip_token by done. by apply rstrip_token.
Qed.

(** The first token of a string: what comes before it is blank, and it
    ends at the first blank after it or with the string. *)
Lemma split_from_run (s : string) :
  ∀ (cur t : string) (ts : list string),
    Str.split_from (Some cur) s = t :: ts →
    ∃ tok rest, s = tok +:+ rest ∧ t = cur +:+ tok ∧ ends_token rest.
Proof.
  induction s as [|a s IH]; intros cur t ts; simpl.
  - intros [= <- _]. exists "", "". by rewrite !append_empty_r.
  - destruct (Str.isspace a) eqn:Ha.
    + intros [= <- _]. exists "", (String a s). by rewrite !append_empty_r.
    + intros Hrun. destruct (IH _ _ _ Hrun) as (tok & rest & -> & -> & Hrest).
      exists (String a tok), rest. by rewrite append_assoc.
Qed.

Lemma split_first_token (s t : string) (ts : list string) :
  Str.split s = t :: ts →
  ∃ lead rest,
    s = lead +:+ t +:+ rest
    ∧ (∀ c, Str.contains c lead = true → Str.isspace c = true)
    ∧ ends_token rest.
Proof.
  unfold Str.split. induction s as [|a s IH]; simpl; [done|].
  destruct (Str.isspace a) eqn:Ha.
  - intros Hrun. destruct (IH Hrun) as (lead & rest & -> & Hlead & Hrest).
    exists (String a lead), rest. split; [done|]. split; [|done].
    intros c. simpl. destruct (decide (a = c)) as [<-|]; [done|apply Hlead].
  - intros Hrun. destruct (split_from_run _ _ _ _ Hrun) as (tok & rest & -> & -> & Hrest).
    exists "", rest. by repeat split.
Qed.

(** *** [get_latest_commit_sha] *)

(** X1: the identifier that [get_latest_commit_sha] returns is the first
    token of what [git ls-remote] printed, the call having ended with
    status 0: the output is a run of blank characters, then the
    identifier, then nothing or a blank character and the rest of the
    output.  So it is the head of [split], it is not empty, holds no
    blank character, and [strip] leaves it as it is. *)
Theorem get_latest_commit_sha_token h (url branch : string) (s : state) sha :
  (get_latest_commit_sha h url branch s).2 = Ok (Some sha) →
  ∃ cp lead rest,
    ls_remote h = Ok cp
    ∧ returncode cp = 0%Z
    ∧ stdout cp = lead +:+ sha +:+ rest
    ∧ (∀ c, Str.contains c lead = true → Str.isspace c = true)
    ∧ ends_token rest
    ∧ head (Str.split (stdout cp)) = Some sha
    ∧ sha ≠ ""
    ∧ (∀ c, Str.contains c sha = true → Str.isspace c = false)
    ∧ has_blank sha = false
    ∧ Str.strip sha = sha.
Proof.
  rewrite get_latest_commit_sha_run. cbn [snd].
  destruct (ls_remote h) as [cp|e]; last first.
  { by destruct (isinstance e Exception). }
  destruct (decide _) as [|Hrc]; [done|]. intros [= Hhead].
  assert (Hsplit : ∃ ts, Str.split (stdout cp) = sha :: ts).
  { destruct (Str.split (stdout cp)) as [|t ts]; [done|].
    injection Hhead as ->. by exists ts. }
  destruct Hsplit as [ts Hsplit].
  destruct (split_first_token _ _ _ Hsplit) as (lead & rest & Hout & Hlead & Hrest).
  exists cp, lead, rest. split; [done|].
  split; [by destruct (decide (returncode cp = 0%Z)) as [|Hne]; [|destruct (Hrc Hne)]|].
  split; [done|]. split; [done|]. split; [done|]. split; [done|].
  by apply (head_token_clean (stdout cp)).
Qed.

(** X2: a failure of [get_latest_commit_sha] has made the one call to
    [git ls-remote] and nothing else.  Whatever [Exception] the call
    met, the caller sees the class [Exception] itself, with a prefixed
    message; only what is not an [Exception] (a [KeyboardInterrupt])
    comes out as it was raised. *)
Theorem get_latest_commit_sha_failure h (url branch : string) (s : state) e :
  (get_latest_commit_sha h url branch s).2 = Raise e →
  (get_latest_commit_sha h url branch s).1 = log [EvLsRemote url branch] s
  ∧ (isinstance e Exception = true →
     exn_cls e = Exception ∧ ∃ msg, exn_str e = "An error occurred: " +:+ msg)
  ∧ (isinstance e Exception = false → ls_remote h = Raise e).
Proof.
  rewrite get_latest_commit_sha_run. cbn [fst snd]. intros Hrun.
  split; [done|].
  destruct (ls_remote h) as [cp|e0].
  - destruct (decide _); [|done]. injection Hrun as <-.
    split; [|done]. intros _. split; [done|]. by eexists.
  - destruct (isinstance e0 Exception) eqn:He0.
    + injection Hrun as <-. split; [|done]. intros _. split; [done|]. by eexists.
    + injection Hrun as <-. split; [by rewrite He0|done].
Qed.

(** *** [check_for_update] *)

(** X3: when the remote cannot be queried, [check_for_update] raises what
    [get_latest_commit_sha] raised: the identifier file is not read, no
    question is asked, nothing is removed. *)
Theorem check_for_update_remote_failure h (s : state) e :
  (get_latest_commit_sha h repo_url "HEAD" s).2 = Raise e →
  check_for_update h s = (log [EvLsRemote repo_url "HEAD"] s, Raise e).
Proof. intros Hg. rewrite check_for_update_run. cbv zeta. by rewrite Hg. Qed.

(** X4: without its identifier file the launcher stops with a
    [FileNotFoundError] of its own wording, after the query of the
    remote and before any question; a scratch directory left behind
    stays. *)
Theorem check_for_update_missing_identifier h (s : state) repo_SHA :
  (get_latest_commit_sha h repo_url "HEAD" s).2 = Ok repo_SHA →
  fs s !! (getcwd h ++ ["ID.txt"]) = None →
  check_for_update h s =
    (log [EvLsRemote repo_url "HEAD"] s,
     Raise (Exn FileNotFoundError (not_found h (getcwd h ++ ["ID.txt"])))).
Proof.
  intros Hg Hid. rewrite check_for_update_run. cbv zeta. rewrite Hg.
  rewrite read_local_SHA_run. cbn [snd fs log]. by rewrite Hid.
Qed.

(** *** Footprint of the updater *)


Lemma apply_deferred_keeps h (temp_dir ID_file : path) sha
    (files : list (path * path)) (q : path) :
  q ≠ temp_dir ++ ["update.py"] → q ≠ ID_file →
  preserves (keeps q) (apply_deferred h temp_dir ID_file sha files).
Proof.
  intros Hscript Hid.
  assert (Hw : ∀ data, preserves (keeps q)
                         (opf_write (temp_dir ++ ["update.py"]) data)).
  { intros data. apply effect_keeps. intros m. by apply append_frame. }
  unfold apply_deferred, open_write, opf_flush, os_fsync, time_sleep,
    subprocess_Popen, print, opf_write_obj.
  apply preserves_bind; [apply _| |intros _].
  { apply effect_keeps. intros m. by apply open_w_frame. }
  apply preserves_bind; [apply _|apply Hw|intros _].
  apply preserves_bind; [apply _|apply Hw|intros _].
  apply preserves_bind; [apply _| |intros _].
  { apply preserves_for_each; [apply _|]. intros [l g] _.
    apply preserves_bind; [apply _|apply Hw|intros _]. apply Hw. }
  apply preserves_bind; [apply _|apply Hw|intros _].
  pres; try (apply effect_keeps; done).
  - apply effect_keeps. intros m. by apply open_w_frame.
  - apply effect_keeps. intros m. by apply append_frame.
Qed.





(** X7: in the branch taken when [APPDATA] is set the launcher itself
    replaces nothing: whether or not the script could be started, the
    four files of the manifest are after the call what they were
    before. *)
Theorem deferred_launcher_leaves_targets h url (root : path) sha (s : state)
    a entry :
  APPDATA h = Some a →
  entry ∈ update_files root (root ++ ["temp"]) →
  fs (Update_GUI_files h url root (root ++ ["ID.txt"]) sha (delete_dir h) s).1
     !! entry.1
  = fs s !! entry.1.
Proof.
  intros Happ Hin.
  assert (Hpres : preserves (keeps entry.1)
            (Update_GUI_files h url root (root ++ ["ID.txt"]) sha (delete_dir h))).
  { unfold Update_GUI_files. rewrite Happ.
    unfold update_files in Hin.
    repeat (apply elem_of_cons in Hin as [->|Hin]); [..|by apply elem_of_nil in Hin].
    all: cbn [fst].
    all: apply preserves_bind; [apply _|apply stage_keeps; not_prefix|intros cloned].
    all: destruct cloned; simpl; [|apply preserves_ret; apply _].
    all: apply apply_deferred_keeps; not_equal. }
  destruct (Update_GUI_files _ _ _ _ _ _ s) as [s' r] eqn:Hrun.
  exact (Hpres _ _ _ Hrun).
Qed.

(** *** [delete_dir] *)


(** X9: when every entry at or below the directory is a plain or
    read-only file or a plain directory, [delete_dir] returns normally
    and has removed exactly these entries: read-only files do not stop
    it. *)
Theorem delete_dir_removes_tree h (d : path) (s : state) :
  isdir d (fs s) = true →
  Forall (deletable (fs s)) (under d (fs s)) →
  let run := delete_dir h d s in
  run.2 = Ok tt
  ∧ ∀ q, fs run.1 !! q = if decide (d `prefix_of` q) then None else fs s !! q.
Proof.
  intros Hd Hall run.
  assert (Hwalk : Forall (deletable (fs s)) (walk_order d (fs s))).
  { unfold walk_order. rewrite merge_sort_Permutation. exact Hall. }
  destruct (delete_dir_deletable h d s Hd Hwalk) as (evs & Hrun).
  unfold run. rewrite Hrun. cbn [fst snd fs with_fs]. split; [done|].
  intros q. rewrite foldl_delete_lookup.
  destruct (decide (q ∈ walk_order d (fs s))) as [Hin|Hout];
    destruct (decide (d `prefix_of` q)) as [Hp|Hp]; try done.
  - apply walk_order_spec in Hin as [? _]. done.
  - destruct (fs s !! q) eqn:Hq; [|done].
    exfalso. apply Hout, walk_order_spec. by split.
Qed.

(** *** A clone that fails *)

Lemma stage_clone_failure h url (temp_dir : path) (s s1 : state) e :
  remove_if_isdir (delete_dir h) temp_dir s = (s1, Ok tt) →
  clone h = Raise e →
  isinstance e Exception = true →
  stage h url temp_dir (delete_dir h) s =
    ({| fs := fs s1; stdin := tail (stdin s1);
        trace := trace s1 ++
          [EvClone url temp_dir "master";
           EvPrint ("Exception: " +:+ exn_str e);
           EvPrint "Unable to access github to check for updates, likely due to lack of an internet connection...";
           EvInput "Do you wish to proceed using the current version (y/n)?"] |},
     match stdin s1 with
     | [] => Raise (Exn EOFError "EOF when reading a line")
     | answer :: _ =>
         if decide (answer = "y") then Ok false
         else Raise (Exn KeyboardInterrupt "User has opted not to open the GUI without checking for updates. The GUI launcher will now be closed.")
     end).
Proof.
  intros Hrm Hclone He. unfold stage.
  erewrite bind_Ok by exact Hrm.
  unfold try_except, git_Repo_clone_from.
  unfold bind at 1. rewrite effect_run, Hclone. cbn [fst snd].
  unfold except. rewrite He.
  unfold bind at 1, print. rewrite emit_run.
  unfold bind at 1. rewrite emit_run.
  unfold bind, input. cbn [fs stdin trace log with_fs].
  rewrite <- !app_assoc. cbn [app].
  destruct (stdin s1) as [|answer rest]; [done|].
  by destruct (decide (answer = "y")).
Qed.

Lemma Update_GUI_files_clone_failure h url (root ID_file : path) sha
    (s s1 : state) e :
  remove_if_isdir (delete_dir h) (root ++ ["temp"]) s = (s1, Ok tt) →
  clone h = Raise e →
  isinstance e Exception = true →
  Update_GUI_files h url root ID_file sha (delete_dir h) s =
    ({| fs := fs s1; stdin := tail (stdin s1);
        trace := trace s1 ++
          [EvClone url (root ++ ["temp"]) "master";
           EvPrint ("Exception: " +:+ exn_str e);
           EvPrint "Unable to access github to check for updates, likely due to lack of an internet connection...";
           EvInput "Do you wish to proceed using the current version (y/n)?"] |},
     match stdin s1 with
     | [] => Raise (Exn EOFError "EOF when reading a line")
     | answer :: _ =>
         if decide (answer = "y") then Ok tt
         else Raise (Exn KeyboardInterrupt "User has opted not to open the GUI without checking for updates. The GUI launcher will now be closed.")
     end).
Proof.
  intros Hrm Hclone He.
  pose proof (stage_clone_failure h url (root ++ ["temp"]) s s1 e Hrm Hclone He)
    as Hst.
  unfold Update_GUI_files, bind. rewrite Hst.
  destruct (stdin s1) as [|answer rest]; [done|].
  by destruct (decide (answer = "y")).
Qed.

(** X10: when the clone fails with an [Exception], [Update_GUI_files] asks
    on the console whether to go on with the current version.  The
    answer [y], and this answer only, makes it return normally, having
    replaced nothing; any other line ends it with a
    [KeyboardInterrupt], which no [except Exception] clause stops, and
    a closed input with [EOFError]. *)
Theorem clone_failure_answer h url (root ID_file : path) sha (s s1 : state) e :
  remove_if_isdir (delete_dir h) (root ++ ["temp"]) s = (s1, Ok tt) →
  clone h = Raise e →
  isinstance e Exception = true →
  let run := Update_GUI_files h url root ID_file sha (delete_dir h) s in
  fs run.1 = fs s1
  ∧ new_events s1 run.1 =
      [EvClone url (root ++ ["temp"]) "master";
       EvPrint ("Exception: " +:+ exn_str e);
       EvPrint "Unable to access github to check for updates, likely due to lack of an internet connection...";
       EvInput "Do you wish to proceed using the current version (y/n)?"]
  ∧ run.2 =
      match stdin s1 with
      | [] => Raise (Exn EOFError "EOF when reading a line")
      | answer :: _ =>
          if decide (answer = "y") then Ok tt
          else Raise (Exn KeyboardInterrupt "User has opted not to open the GUI without checking for updates. The GUI launcher will now be closed.")
      end.
Proof.
  intros Hrm Hclone He run. unfold run.
  rewrite (Update_GUI_files_clone_failure h url root ID_file sha s s1 e
             Hrm Hclone He).
  cbn [fst snd fs]. split; [done|]. split; [|done].
  by apply new_events_trace.
Qed.

(** X11: the launcher does not tell this case from a completed update: when
    the user has accepted the update, the clone fails and the answer on
    the console is [y], [check_for_update] prints that the files have
    been updated and exits with status 0, and no file has changed. *)
Theorem failed_clone_reported_as_update h (s : state) repo_SHA local_SHA e rest :
  (get_latest_commit_sha h repo_url "HEAD" s).2 = Ok repo_SHA →
  (read_local_SHA h (getcwd h ++ ["ID.txt"]) (log [EvLsRemote repo_url "HEAD"] s)).2
    = Ok local_SHA →
  repo_SHA ≠ Some local_SHA →
  question h = true →
  isdir (getcwd h ++ ["temp"]) (fs s) = false →
  clone h = Raise e →
  isinstance e Exception = true →
  stdin s = "y" :: rest →
  let run := check_for_update h s in
  run.2 = Raise (Exn SystemExit "0")
  ∧ fs run.1 = fs s
  ∧ new_events s run.1 =
      question_events
      ++ [EvPrint updating_message;
          EvClone repo_url (getcwd h ++ ["temp"]) "master";
          EvPrint ("Exception: " +:+ exn_str e);
          EvPrint "Unable to access github to check for updates, likely due to lack of an internet connection...";
          EvInput "Do you wish to proceed using the current version (y/n)?";
          EvPrint updated_message; EvExit "0"].
Proof.
  intros Hg Hr Hne Hq Htemp Hclone He Hin run.
  assert (Hrun : run =
    ({| fs := fs s; stdin := rest;
        trace := trace s ++ question_events
          ++ [EvPrint updating_message;
              EvClone repo_url (getcwd h ++ ["temp"]) "master";
              EvPrint ("Exception: " +:+ exn_str e);
              EvPrint "Unable to access github to check for updates, likely due to lack of an internet connection...";
              EvInput "Do you wish to proceed using the current version (y/n)?";
              EvPrint updated_message; EvExit "0"] |},
     Raise (Exn SystemExit "0"))).
  { unfold run. rewrite check_for_update_run. cbv zeta. rewrite Hg, Hr, Hq.
    rewrite decide_False by done.
    set (sq := log (question_events ++ [EvPrint updating_message]) s).
    assert (Hrm : remove_if_isdir (delete_dir h) (getcwd h ++ ["temp"]) sq
                  = (sq, Ok tt)).
    { unfold remove_if_isdir, os_path_isdir, bind, query. cbn [fs log sq].
      by rewrite Htemp. }
    unfold bind at 1.
    rewrite (Update_GUI_files_clone_failure h repo_url _ _ repo_SHA sq sq e
               Hrm Hclone He).
    cbn [stdin log sq]. rewrite Hin. cbn [tail]. rewrite decide_True by done.
    unfold bind at 1, print. rewrite emit_run.
    unfold sys_exit, bind, raise. rewrite emit_run.
    subst sq. unfold log. cbn [fst snd fs trace stdin].
    rewrite <- !app_assoc. reflexivity. }
  rewrite Hrun. cbn [fst snd fs]. split; [done|]. split; [done|].
  by apply new_events_trace.
Qed.

(** *** An update that the user declines *)

(** X12: whenever the stored identifier is not the one the remote answers,
    the user is asked; a user who declines gets a launcher that has
    changed nothing, not even a scratch directory left behind. *)
Theorem declined_update_changes_nothing h (s : state) repo_SHA local_SHA :
  (get_latest_commit_sha h repo_url "HEAD" s).2 = Ok repo_SHA →
  (read_local_SHA h (getcwd h ++ ["ID.txt"]) (log [EvLsRemote repo_url "HEAD"] s)).2
    = Ok local_SHA →
  repo_SHA ≠ Some local_SHA →
  question h = false →
  check_for_update h s =
    (log (question_events
          ++ [EvPrint "The user has opted to use their local version of the UVPD Analysis GUI."]) s,
     Ok tt).
Proof.
  intros Hg Hr Hne Hq. rewrite check_for_update_run. cbv zeta.
  rewrite Hg, Hr, Hq. by rewrite decide_False.
Qed.

(** *** A remote that lists no reference *)

(** X13: when [git ls-remote] succeeds with an empty listing, the identifier
    of the remote is [None], which equals no stored identifier: the
    update is offered whatever the identifier file holds. *)
Theorem no_reference_offers_update h (s : state) cp content a :
  ls_remote h = Ok cp →
  returncode cp = 0%Z →
  Str.split (stdout cp) = [] →
  fs s !! (getcwd h ++ ["ID.txt"]) = Some (File content a) →
  a ≠ Faulty →
  has_blank content = false →
  ∃ rest, new_events s (check_for_update h s).1 = question_events ++ rest.
Proof.
  intros Hls Hrc Hsplit Hid Ha Hblank.
  assert (Hpre : ∀ (m : M unit) (evs : list event),
            preserves (extends (λ _, True)) m →
            ∃ rest, new_events s (m (log evs s)).1 = evs ++ rest).
  { intros m evs Hm. destruct (m (log evs s)) as [s' r] eqn:Hrun.
    destruct (Hm _ _ _ Hrun) as (rest & Ht & _). exists rest.
    apply new_events_trace. cbn [fst]. rewrite Ht. cbn [trace log].
    by rewrite app_assoc. }
  rewrite check_for_update_run. cbv zeta.
  rewrite get_latest_commit_sha_run, Hls. cbn [snd].
  destruct (decide (returncode cp ≠ 0%Z)) as [Hx|_]; [by rewrite Hrc in Hx|].
  rewrite Hsplit. cbn [head].
  rewrite read_local_SHA_run. cbn [snd fs log]. rewrite Hid, Hblank.
  assert (Hread : (match a with
                   | Faulty => Raise EIO
                   | _ => Ok (Str.strip content)
                   end : result string) = Ok (Str.strip content))
    by (by destruct a).
  rewrite Hread. rewrite decide_False by done.
  destruct (question h).
  - destruct (Hpre (Update_GUI_files h repo_url (getcwd h) (getcwd h ++ ["ID.txt"])
                      None (delete_dir h) ;;
                    print updated_message ;; sys_exit "0")
                   (question_events ++ [EvPrint updating_message]))
      as (rest & Hrest).
    { unfold print, sys_exit. pres.
      eapply preserves_extends_mono; [|apply Update_GUI_files_logs]. done. }
    exists (EvPrint updating_message :: rest). rewrite Hrest.
    by rewrite <- app_assoc.
  - eexists. apply new_events_trace. cbn [fst trace log]. reflexivity.
Qed.

(** X14: with no identifier to write, an update that has cloned the
    repository never completes: [Update_GUI_files] raises.  In the
    branch that replaces the files itself, when the four files have
    been replaced, the [TypeError] of [opf.write(None)] comes after the
    identifier file has been opened for writing, so that the file is
    left empty. *)
Theorem no_reference_update_fails h url (root : path) (s s1 : state) :
  stage h url (root ++ ["temp"]) (delete_dir h) s = (s1, Ok true) →
  let ID_file := root ++ ["ID.txt"] in
  let run := Update_GUI_files h url root ID_file None (delete_dir h) s in
  run.2 ≠ Ok tt
  ∧ ∀ s2, APPDATA h = None →
          for_each (update_files root (root ++ ["temp"])) (replace_file h) s1
            = (s2, Ok tt) →
          (open_w (os_name h) ID_file (fs s2)).2 = Ok tt →
          run = (with_fs (<[ID_file := File "" Normal]> (fs s2))
                         (log [EvOpenW ID_file] s2),
                 Raise (Exn TypeError "write() argument must be str, not None")).
Proof.
  intros Hst ID_file run. unfold run.
  rewrite (Update_GUI_files_staged _ _ _ _ _ _ _ _ Hst). split.
  - destruct (APPDATA h).
    + intros Hok.
      destruct (apply_deferred h (root ++ ["temp"]) ID_file None
                  (update_files root (root ++ ["temp"])) s1) as [s' r] eqn:Hrun.
      simpl in Hok. subst r.
      by apply apply_deferred_Ok_events in Hrun as (v & [=] & _).
    + intros Hok.
      destruct (apply_in_process h ID_file None
                  (update_files root (root ++ ["temp"])) s1) as [s' r] eqn:Hrun.
      simpl in Hok. subst r. unfold apply_in_process in Hrun.
      destruct (bind_inv _ _ _ _ _ Hrun) as [(s2 & [] & _ & H2)|(e & _ & [=])].
      destruct (bind_inv _ _ _ _ _ H2) as [(s3 & [] & _ & H3)|(e & _ & [=])].
      done.
  - intros s2 Happ Hloop Hopen. rewrite Happ. unfold apply_in_process.
    erewrite bind_Ok by exact Hloop.
    erewrite bind_Ok by (by apply open_write_run).
    reflexivity.
Qed.

(** *** The script handed over *)

(** X15: in the branch taken when [APPDATA] is set and the script can be
    started, the launcher leaves on disk the text of the statements of
    [script_of]: the two imports, for each entry of the manifest the
    guarded removal of the local file followed by the move of the
    cloned one into its directory, and [sys.exit(0)].  It starts
    [python] on this file and records the new identifier. *)
Theorem deferred_update_hands_over h url (root : path) sha (s s1 : state) a :
  APPDATA h = Some a →
  popen h = Ok tt →
  let temp_dir := root ++ ["temp"] in
  let ID_file := root ++ ["ID.txt"] in
  let files := update_files root temp_dir in
  stage h url temp_dir (delete_dir h) s = (s1, Ok true) →
  (open_w (os_name h) (temp_dir ++ ["update.py"]) (fs s1)).2 = Ok tt →
  (open_w (os_name h) ID_file (fs s1)).2 = Ok tt →
  let run := Update_GUI_files h url root ID_file (Some sha) (delete_dir h) s in
  run.2 = Ok tt
  ∧ fs run.1 !! (temp_dir ++ ["update.py"])
    = Some (File (join (map (render h) (script_of files))) Normal)
  ∧ fs run.1 !! ID_file = Some (File sha Normal)
  ∧ new_events s1 run.1 =
      EvOpenW (temp_dir ++ ["update.py"])
      :: map (EvWrite (temp_dir ++ ["update.py"])) (map (render h) (script_of files))
      ++ [EvFlush (temp_dir ++ ["update.py"]);
          EvFsync (temp_dir ++ ["update.py"]); EvSleep 5;
          EvPopen ["python"; str_path (os_sep h) (temp_dir ++ ["update.py"])];
          EvOpenW ID_file; EvWrite ID_file sha].
Proof.
  intros Happ Hpopen temp_dir ID_file files Hst Hscript Hid run.
  assert (Hrun : run =
    (with_fs (<[ID_file := File sha Normal]>
                (fs (script_written h temp_dir files s1)))
       (log (launch_events h temp_dir ++ [EvOpenW ID_file; EvWrite ID_file sha])
            (script_written h temp_dir files s1)), Ok tt)).
  { unfold run. rewrite (Update_GUI_files_staged _ _ _ _ _ _ _ _ Hst), Happ.
    rewrite apply_deferred_run; try done.
    - by rewrite Hpopen.
    - unfold temp_dir, ID_file. not_equal.
    - unfold ID_file. rewrite dirname_snoc. unfold temp_dir. not_equal. }
  rewrite Hrun. cbn [fst snd fs with_fs]. split; [done|]. split; [|split].
  - rewrite lookup_insert_ne by (unfold temp_dir, ID_file; not_equal).
    unfold script_written. cbn [fs with_fs]. apply lookup_insert_eq.
  - apply lookup_insert_eq.
  - unfold launch_events. rewrite Hpopen.
    unfold script_written. rewrite new_events_log_log.
    rewrite <- app_comm_cons, <- app_assoc. reflexivity.
Qed.

(** *** The identifier through the file *)

(** X16: writing the identifier that [get_latest_commit_sha] returned, as
    the last lines of [Update_GUI_files] do, and checking again against
    the same remote finds the installation up to date: the check asks
    nothing and only clears the scratch directory, if there is one. *)
Theorem written_identifier_is_up_to_date h (s : state) sha :
  (get_latest_commit_sha h repo_url "HEAD" s).2 = Ok (Some sha) →
  let ID_file := getcwd h ++ ["ID.txt"] in
  let written := (open_write h ID_file ;; opf_write_obj ID_file (Some sha)) s in
  written.2 = Ok tt →
  check_for_update h written.1 =
    remove_if_isdir (delete_dir h) (getcwd h ++ ["temp"])
                    (log [EvLsRemote repo_url "HEAD"] written.1).
Proof.
  intros Hg ID_file written Hw.
  assert (Hclean : has_blank sha = false ∧ Str.strip sha = sha).
  { rewrite get_latest_commit_sha_run in Hg. cbn [snd] in Hg.
    destruct (ls_remote h) as [cp|e]; last first.
    { by destruct (isinstance e Exception). }
    destruct (decide _); [done|]. injection Hg as Hhead.
    by destruct (head_token_clean (stdout cp) sha Hhead) as (_ & _ & ? & ?). }
  destruct Hclean as [Hblank Hstrip].
  assert (Hfile : fs written.1 !! ID_file = Some (File sha Normal)).
  { unfold written in *.
    destruct ((open_w (os_name h) ID_file (fs s)).2) as [[]|e] eqn:Hopen.
    - erewrite bind_Ok by (by apply open_write_run).
      unfold opf_write_obj.
      erewrite opf_write_run by apply lookup_insert_eq.
      cbn [fst fs with_fs]. rewrite insert_insert_eq. apply lookup_insert_eq.
    - erewrite bind_Raise in Hw; [done|].
      unfold open_write. rewrite effect_run, Hopen. reflexivity. }
  assert (Hsame : (get_latest_commit_sha h repo_url "HEAD" written.1).2
                  = Ok (Some sha)).
  { rewrite get_latest_commit_sha_run in Hg |- *. exact Hg. }
  rewrite check_for_update_run. cbv zeta. rewrite Hsame.
  rewrite read_local_SHA_run. cbn [snd fs log]. fold ID_file.
  rewrite Hfile, Hblank, Hstrip. by rewrite decide_True.
Qed.

(** *** Replacing the files in the launcher's own process *)

Lemma under_singleton (g : path) (m : gmap path node) :
  is_Some (m !! g) →
  (∀ q, g `prefix_of` q → is_Some (m !! q) → q = g) →
  under g m = [g].
Proof.
  intros Hg Hbelow.
  assert (Hnd : NoDup (under g m)).
  { unfold under. apply NoDup_filter, NoDup_fst_map_to_list. }
  assert (Hall : ∀ q, q ∈ under g m → q = g).
  { intros q [Hp Hq]%under_spec. by apply Hbelow. }
  assert (Hin : g ∈ under g m) by (by apply under_spec).
  destruct (under g m) as [|x l]; [by apply elem_of_nil in Hin|].
  assert (x = g) as -> by (apply Hall; left).
  destruct l as [|y l]; [done|].
  assert (y = g) as -> by (apply Hall; right; left).
  apply NoDup_cons in Hnd as [Hnin _]. exfalso. apply Hnin. left.
Qed.

Lemma move_into_directory (os : platform) (d g : path) (m : gmap path node) c :
  let l := d ++ [basename g] in
  g ≠ l →
  m !! g = Some (File c Normal) →
  (∀ q, g `prefix_of` q → is_Some (m !! q) → q = g) →
  isdir d m = true →
  m !! l = None →
  move os g d m = (<[l := File c Normal]> (delete g m), Ok tt).
Proof.
  intros l Hne Hg Hbelow Hd Hl. unfold move. rewrite Hd. fold l.
  rewrite Hl. rewrite bool_decide_eq_false_2 by (by intros [? [=]]).
  cbn [andb]. rewrite Hg. unfold l at 1. rewrite dirname_snoc, Hd. cbn [negb].
  unfold rename. rewrite under_singleton by (by rewrite ?Hg).
  cbn [foldr]. rewrite Hg, drop_all, app_nil_r. reflexivity.
Qed.

Lemma replace_file_installs h (d g : path) (s : state) c :
  let l := d ++ [basename g] in
  g ≠ l →
  fs s !! g = Some (File c Normal) →
  (∀ q, g `prefix_of` q → is_Some (fs s !! q) → q = g) →
  isdir d (fs s) = true →
  match fs s !! l with None | Some (File _ Normal) => True | _ => False end →
  ∃ evs,
    replace_file h (l, g) s =
      (with_fs (<[l := File c Normal]> (delete g (delete l (fs s)))) (log evs s),
       Ok tt).
Proof.
  intros l Hne Hg Hbelow Hd Hl.
  assert (Hdl : d ≠ l).
  { unfold l. intros H. apply (f_equal length) in H.
    rewrite length_app in H. simpl in H. lia. }
  assert (Hmove : move (os_name h) g (dirname l) (delete l (fs s)) =
                  (<[l := File c Normal]> (delete g (delete l (fs s))), Ok tt)).
  { unfold l at 1. rewrite dirname_snoc. apply move_into_directory.
    - done.
    - by rewrite lookup_delete_ne.
    - intros q Hp [n Hq]. apply lookup_delete_Some in Hq as [_ Hq]. by apply Hbelow.
    - unfold isdir in *. by rewrite lookup_delete_ne.
    - apply lookup_delete_eq. }
  unfold replace_file, os_path_isfile, os_remove, os_unlink, shutil_move.
  unfold bind at 1. unfold bind at 1. unfold query. cbn [fst snd].
  unfold isfile. destruct (fs s !! l) as [[c' []|]|] eqn:Hlook; try done.
  - rewrite effect_run. unfold unlink. rewrite Hlook. cbn [fst snd].
    rewrite effect_run. cbn [fs with_fs log]. rewrite Hmove. cbn [fst snd].
    exists [EvUnlink l; EvMove g (dirname l)].
    unfold with_fs, log. cbn [fs stdin trace]. by rewrite <- app_assoc.
  - rewrite (delete_id _ _ Hlook) in Hmove. rewrite (delete_id _ _ Hlook).
    unfold ret. rewrite effect_run, Hmove. cbn [fst snd].
    exists [EvMove g (dirname l)]. reflexivity.
Qed.

Lemma replace_files_install h (files : list (path * path)) :
  NoDup (files.*1 ++ files.*2) →
  (∀ e e', e ∈ files → e' ∈ files →
           ¬ e.2 `prefix_of` e'.1 ∧ dirname e'.1 ≠ e.1 ∧ dirname e'.1 ≠ e.2) →
  ∀ s : state,
    (∀ e, e ∈ files →
       e.1 = dirname e.1 ++ [basename e.2]
       ∧ isdir (dirname e.1) (fs s) = true
       ∧ (∃ c, fs s !! e.2 = Some (File c Normal))
       ∧ (∀ q, e.2 `prefix_of` q → is_Some (fs s !! q) → q = e.2)
       ∧ match fs s !! e.1 with
         | None | Some (File _ Normal) => True
         | _ => False
         end) →
    ∃ s', for_each files (replace_file h) s = (s', Ok tt)
          ∧ (∀ e, e ∈ files → fs s' !! e.1 = fs s !! e.2 ∧ fs s' !! e.2 = None)
          ∧ (∀ q, q ∉ files.*1 → q ∉ files.*2 → fs s' !! q = fs s !! q).
Proof.
  induction files as [|[l g] files IH]; intros Hnd Hsep s Hready.
  { exists s. split; [done|]. split; [|done]. intros e He.
    by apply elem_of_nil in He. }
  destruct (Hready (l, g) ltac:(left)) as (Hl & Hd & [c Hg] & Hbelow & Htarget).
  cbn [fst snd] in *.
  assert (Hgl : g ≠ l).
  { intros ->. cbn [fmap list_fmap] in Hnd.
    apply NoDup_cons in Hnd as [Hnin _]. apply Hnin.
    apply elem_of_app. right. left. }
  cbn [fmap list_fmap] in Hnd. simpl in Hnd.
  apply NoDup_cons in Hnd as [Hl1 Hnd].
  apply NoDup_app in Hnd as (Hnd1 & Hcross & Hnd2).
  apply NoDup_cons in Hnd2 as [Hg2 Hnd2].
  rewrite elem_of_app, elem_of_cons in Hl1.
  assert (Hl1a : l ∉ files.*1) by tauto.
  assert (Hl2 : l ∉ files.*2) by tauto.
  assert (Hg1 : g ∉ files.*1).
  { intros Hin. apply (Hcross g Hin). left. }
  assert (Hnd' : NoDup (files.*1 ++ files.*2)).
  { apply NoDup_app. split; [done|]. split; [|done].
    intros x Hx Hx2. apply (Hcross x Hx). by right. }
  destruct (replace_file_installs h (dirname l) g s c) as (evs & Hstep);
    try done.
  { by rewrite <- Hl. }
  { by rewrite <- Hl. }
  rewrite <- Hl in Hstep.
  set (s1 := with_fs (<[l := File c Normal]> (delete g (delete l (fs s))))
                     (log evs s)) in *.
  assert (Hframe : ∀ q, q ≠ l → q ≠ g → fs s1 !! q = fs s !! q).
  { intros q Hql Hqg. cbn [fs s1 with_fs].
    by rewrite lookup_insert_ne, !lookup_delete_ne. }
  assert (Hgone : fs s1 !! g = None).
  { cbn [fs s1 with_fs]. rewrite lookup_insert_ne by done. apply lookup_delete_eq. }
  assert (Hnew : fs s1 !! l = Some (File c Normal)).
  { cbn [fs s1 with_fs]. apply lookup_insert_eq. }
  assert (Hkeys : ∀ e, e ∈ files →
            e.1 ≠ l ∧ e.1 ≠ g ∧ e.2 ≠ l ∧ e.2 ≠ g).
  { intros e He.
    assert (e.1 ∈ files.*1) by (by apply list_elem_of_fmap_2).
    assert (e.2 ∈ files.*2) by (by apply list_elem_of_fmap_2).
    repeat split; intros Heq; rewrite Heq in *; tauto. }
  destruct (IH Hnd') with (s := s1) as (s' & Hloop & Hdone & Hrest).
  { intros e e' He He'. apply Hsep; by right. }
  { intros e He.
    destruct (Hready e ltac:(by right)) as (H1 & H2 & [c' H3] & H4 & H5).
    destruct (Hkeys e He) as (K1 & K2 & K3 & K4).
    destruct (Hsep (l, g) e ltac:(left) ltac:(by right)) as (S1 & S2 & S3).
    destruct (Hsep e (l, g) ltac:(by right) ltac:(left)) as (T1 & _ & _).
    cbn [fst snd] in *.
    split; [done|]. split; [|split; [|split]].
    - unfold isdir in *. by rewrite Hframe.
    - exists c'. by rewrite Hframe.
    - intros q Hp Hq.
      destruct (decide (q = l)) as [->|Hql]; [done|].
      destruct (decide (q = g)) as [->|Hqg].
      { rewrite Hgone in Hq. by destruct Hq. }
      rewrite Hframe in Hq by done. by apply H4.
    - by rewrite Hframe. }
  exists s'. split; [|split].
  - rewrite for_each_cons. erewrite bind_Ok by exact Hstep. exact Hloop.
  - intros e [->|He]%elem_of_cons; cbn [fst snd].
    + rewrite (Hrest l), (Hrest g) by done. by rewrite Hnew, Hgone, Hg.
    + destruct (Hdone e He) as [D1 D2].
      destruct (Hkeys e He) as (K1 & K2 & K3 & K4).
      split; [|done]. rewrite D1. by apply Hframe.
  - intros q Hq1 Hq2. cbn [fmap list_fmap] in Hq1, Hq2. simpl in Hq1, Hq2.
    rewrite elem_of_cons in Hq1, Hq2.
    rewrite Hrest by tauto. apply Hframe; tauto.
Qed.

Lemma dirname_in_directory (root : path) (a b : string) :
  dirname (root ++ [a; b]) = root ++ [a].
Proof.
  change (root ++ [a; b]) with (root ++ [a] ++ [b]).
  by rewrite app_assoc, dirname_snoc.
Qed.

Ltac not_among :=
  let H := fresh in
  intros H; cbn [fmap list_fmap fst snd] in H;
  repeat (apply elem_of_cons in H as [H|H]; [revert H; not_equal|]);
  by apply elem_of_nil in H.

Lemma update_files_separate (root : path) :
  let files := update_files root (root ++ ["temp"]) in
  NoDup (files.*1 ++ files.*2)
  ∧ (∀ e e', e ∈ files → e' ∈ files →
       ¬ e.2 `prefix_of` e'.1 ∧ dirname e'.1 ≠ e.1 ∧ dirname e'.1 ≠ e.2)
  ∧ (∀ e, e ∈ files →
       e.1 = dirname e.1 ++ [basename e.2]
       ∧ (dirname e.1 = root ∨ dirname e.1 = root ++ ["Python"])).
Proof.
  intros files. unfold files, update_files. split; [|split].
  - cbn [fmap list_fmap fst snd app].
    repeat (apply NoDup_cons; split; [not_among|]). apply NoDup_nil_2.
  - intros e e' He He'.
    repeat (apply elem_of_cons in He as [->|He]); [..|by apply elem_of_nil in He].
    all: repeat (apply elem_of_cons in He' as [->|He']);
      [..|by apply elem_of_nil in He'].
    all: cbn [fst snd]; rewrite ?dirname_snoc, ?dirname_in_directory.
    all: split; [not_prefix|split; not_equal].
  - intros e He.
    repeat (apply elem_of_cons in He as [->|He]); [..|by apply elem_of_nil in He].
    all: cbn [fst snd]; rewrite ?dirname_snoc, ?dirname_in_directory.
    all: rewrite basename_app_cons; unfold basename; cbn [List.last].
    all: split; [by rewrite <- ?app_assoc|tauto].
Qed.

Lemma open_w_Ok_frame (os : platform) (p : path) (m m' : gmap path node) :
  m' !! p = m !! p →
  m' !! dirname p = m !! dirname p →
  (open_w os p m').2 = (open_w os p m).2.
Proof.
  intros Hp Hd. unfold open_w, isdir. rewrite Hp, Hd.
  destruct (m !! dirname p) as [[]|]; cbn [negb]; try done.
  by destruct (m !! p) as [[? []|]|].
Qed.

(** X17: in the branch taken when [APPDATA] is not set, once the clone is in
    place with its four files, the two directories of the installation
    exist and the local files are plain files or absent,
    [Update_GUI_files] returns normally: each local file is now the
    file of the clone, which has left the scratch directory, the
    identifier file holds the new identifier, and nothing else has
    changed. *)
Theorem in_process_update_installs h url (root : path) sha (s s1 : state) :
  APPDATA h = None →
  let temp_dir := root ++ ["temp"] in
  let ID_file := root ++ ["ID.txt"] in
  let files := update_files root temp_dir in
  stage h url temp_dir (delete_dir h) s = (s1, Ok true) →
  isdir root (fs s1) = true →
  isdir (root ++ ["Python"]) (fs s1) = true →
  Forall (λ e, (∃ c, fs s1 !! e.2 = Some (File c Normal))
               ∧ under e.2 (fs s1) = [e.2]
               ∧ match fs s1 !! e.1 with
                 | None | Some (File _ Normal) => True
                 | _ => False
                 end) files →
  match fs s1 !! ID_file with
  | None | Some (File _ Normal) => True
  | _ => False
  end →
  let run := Update_GUI_files h url root ID_file (Some sha) (delete_dir h) s in
  run.2 = Ok tt
  ∧ Forall (λ e, fs run.1 !! e.1 = fs s1 !! e.2 ∧ fs run.1 !! e.2 = None) files
  ∧ fs run.1 !! ID_file = Some (File sha Normal)
  ∧ ∀ q, q ∉ files.*1 → q ∉ files.*2 → q ≠ ID_file →
         fs run.1 !! q = fs s1 !! q.
Proof.
  intros Happ temp_dir ID_file files Hst Hroot Hpy Hsrc Hid run.
  destruct (update_files_separate root) as (Hnd & Hsep & Hshape).
  fold temp_dir files in Hnd, Hsep, Hshape.
  rewrite Forall_forall in Hsrc.
  destruct (replace_files_install h files Hnd Hsep s1) as (s2 & Hloop & Hdone & Hrest).
  { intros e He. destruct (Hsrc e He) as (Hc & Hunder & Htarget).
    destruct (Hshape e He) as [Heq Hdir].
    split; [done|]. split; [by destruct Hdir as [->| ->]|].
    split; [done|]. split; [|done].
    intros q Hp Hq. assert (Hin : q ∈ under e.2 (fs s1)) by (by apply under_spec).
    rewrite Hunder in Hin. by apply list_elem_of_singleton in Hin. }
  assert (Hid1 : ID_file ∉ files.*1) by (unfold files, update_files, ID_file, temp_dir; not_among).
  assert (Hid2 : ID_file ∉ files.*2) by (unfold files, update_files, ID_file, temp_dir; not_among).
  assert (Hroot1 : root ∉ files.*1) by (unfold files, update_files, temp_dir; not_among).
  assert (Hroot2 : root ∉ files.*2) by (unfold files, update_files, temp_dir; not_among).
  assert (Hopen : (open_w (os_name h) ID_file (fs s2)).2 = Ok tt).
  { rewrite (open_w_Ok_frame _ _ (fs s1)).
    - unfold open_w, ID_file. rewrite dirname_snoc, Hroot. cbn [negb].
      fold ID_file. by destruct (fs s1 !! ID_file) as [[? []|]|].
    - by apply Hrest.
    - unfold ID_file. rewrite dirname_snoc. by apply Hrest. }
  assert (Hrun : run =
    (with_fs (<[ID_file := File sha Normal]> (fs s2))
             (log [EvOpenW ID_file; EvWrite ID_file sha] s2), Ok tt)).
  { unfold run. rewrite (Update_GUI_files_staged _ _ _ _ _ _ _ _ Hst), Happ.
    unfold apply_in_process. fold temp_dir files.
    erewrite bind_Ok by exact Hloop.
    erewrite bind_Ok by (by apply open_write_run).
    unfold opf_write_obj. erewrite opf_write_run by apply lookup_insert_eq.
    cbn [fs with_fs]. rewrite insert_insert_eq.
    unfold with_fs, log. cbn [fs stdin trace]. by rewrite <- app_assoc. }
  rewrite Hrun. cbn [fst snd fs with_fs]. split; [done|]. split; [|split].
  - apply Forall_forall. intros e He. destruct (Hdone e He) as [D1 D2].
    assert (e.1 ∈ files.*1) by (by apply list_elem_of_fmap_2).
    assert (e.2 ∈ files.*2) by (by apply list_elem_of_fmap_2).
    rewrite !lookup_insert_ne by (intros Heq; rewrite <- Heq in *; tauto).
    done.
  - apply lookup_insert_eq.
  - intros q Hq1 Hq2 Hq. rewrite lookup_insert_ne by done. by apply Hrest.
Qed.

(** ** The further properties on the sample installations *)

Section FurtherSamples.

Import Sample Scenario.

Ltac evaluated :=
  match goal with
  | |- ?P => apply (bool_decide_unpack P); vm_compute; exact I
  end.

Lemma get_latest_commit_sha_token_witness :
  ∃ cp lead rest,
    ls_remote linux = Ok cp
    ∧ returncode cp = 0%Z
    ∧ stdout cp = lead +:+ "def456" +:+ rest
    ∧ (∀ c, Str.contains c lead = true → Str.isspace c = true)
    ∧ ends_token rest
    ∧ head (Str.split (stdout cp)) = Some "def456"
    ∧ "def456" ≠ ""
    ∧ (∀ c, Str.contains c "def456" = true → Str.isspace c = false)
    ∧ has_blank "def456" = false
    ∧ Str.strip "def456" = "def456".
Proof.
  apply (get_latest_commit_sha_token linux repo_url "HEAD" (start "abc123")).
  vm_compute. reflexivity.
Defined.

Lemma get_latest_commit_sha_failure_witness :
  let e := Exn Exception
             "An error occurred: [Errno 2] No such file or directory: 'git'" in
  let run := get_latest_commit_sha without_git repo_url "HEAD" (start "abc123") in
  run.1 = log [EvLsRemote repo_url "HEAD"] (start "abc123")
  ∧ (isinstance e Exception = true →
     exn_cls e = Exception ∧ ∃ msg, exn_str e = "An error occurred: " +:+ msg)
  ∧ (isinstance e Exception = false → ls_remote without_git = Raise e).
Proof.
  intros e run.
  apply (get_latest_commit_sha_failure without_git repo_url "HEAD"
           (start "abc123") e).
  vm_compute. reflexivity.
Defined.

Lemma check_for_update_remote_failure_witness :
  check_for_update without_git (start "abc123") =
    (log [EvLsRemote repo_url "HEAD"] (start "abc123"),
     Raise (Exn Exception
              "An error occurred: [Errno 2] No such file or directory: 'git'")).
Proof.
  apply (check_for_update_remote_failure without_git (start "abc123")).
  vm_compute. reflexivity.
Defined.

Lemma check_for_update_missing_identifier_witness :
  check_for_update linux without_identifier =
    (log [EvLsRemote repo_url "HEAD"] without_identifier,
     Raise (Exn FileNotFoundError (not_found linux (getcwd linux ++ ["ID.txt"])))).
Proof.
  apply (check_for_update_missing_identifier linux without_identifier
           (Some "def456")).
  - vm_compute. reflexivity.
  - vm_compute. reflexivity.
Defined.



Lemma deferred_launcher_leaves_targets_witness :
  let entry := (root ++ ["Python"; "main.py"],
                (root ++ ["temp"]) ++ ["GUI"; "Python"; "main.py"]) in
  fs (Update_GUI_files windows repo_url root (root ++ ["ID.txt"]) (Some "def456")
        (delete_dir windows) (start "abc123")).1 !! entry.1
  = fs (start "abc123") !! entry.1.
Proof.
  intros entry.
  apply (deferred_launcher_leaves_targets windows repo_url root (Some "def456")
           (start "abc123") "C:/Users/me/AppData/Roaming" entry).
  - reflexivity.
  - right. left.
Defined.


Lemma delete_dir_removes_tree_witness :
  let run := delete_dir linux temp_dir (leftover ReadOnly) in
  run.2 = Ok tt
  ∧ ∀ q, fs run.1 !! q =
         if decide (temp_dir `prefix_of` q) then None
         else fs (leftover ReadOnly) !! q.
Proof.
  apply (delete_dir_removes_tree linux temp_dir (leftover ReadOnly)).
  - vm_compute. reflexivity.
  - evaluated.
Defined.

Lemma clone_failure_answer_witness :
  let s := answering ["no"] in
  let s1 := (remove_if_isdir (delete_dir linux_offline) (root ++ ["temp"]) s).1 in
  let run := Update_GUI_files linux_offline repo_url root ID_file (Some "def456")
               (delete_dir linux_offline) s in
  fs run.1 = fs s1
  ∧ new_events s1 run.1 =
      [EvClone repo_url (root ++ ["temp"]) "master";
       EvPrint ("Exception: " +:+ "unable to access the remote");
       EvPrint "Unable to access github to check for updates, likely due to lack of an internet connection...";
       EvInput "Do you wish to proceed using the current version (y/n)?"]
  ∧ run.2 =
      match stdin s1 with
      | [] => Raise (Exn EOFError "EOF when reading a line")
      | answer :: _ =>
          if decide (answer = "y") then Ok tt
          else Raise (Exn KeyboardInterrupt "User has opted not to open the GUI without checking for updates. The GUI launcher will now be closed.")
      end.
Proof.
  intros s s1.
  apply (clone_failure_answer linux_offline repo_url root ID_file (Some "def456")
           s s1 (Exn GitCommandError "unable to access the remote")).
  - apply (run_eta (remove_if_isdir (delete_dir linux_offline) (root ++ ["temp"]) s)
                   (Ok tt)).
    vm_compute. reflexivity.
  - reflexivity.
  - reflexivity.
Defined.

Lemma failed_clone_reported_as_update_witness :
  let s := answering ["y"] in
  let run := check_for_update linux_offline s in
  run.2 = Raise (Exn SystemExit "0")
  ∧ fs run.1 = fs s
  ∧ new_events s run.1 =
      question_events
      ++ [EvPrint updating_message;
          EvClone repo_url (getcwd linux_offline ++ ["temp"]) "master";
          EvPrint ("Exception: " +:+ "unable to access the remote");
          EvPrint "Unable to access github to check for updates, likely due to lack of an internet connection...";
          EvInput "Do you wish to proceed using the current version (y/n)?";
          EvPrint updated_message; EvExit "0"].
Proof.
  intros s.
  apply (failed_clone_reported_as_update linux_offline s (Some "def456") "abc123"
           (Exn GitCommandError "unable to access the remote") []).
  - vm_compute. reflexivity.
  - vm_compute. reflexivity.
  - discriminate.
  - reflexivity.
  - vm_compute. reflexivity.
  - reflexivity.
  - reflexivity.
  - reflexivity.
Defined.

Lemma declined_update_changes_nothing_witness :
  check_for_update linux_declining (start "abc123") =
    (log (question_events
          ++ [EvPrint "The user has opted to use their local version of the UVPD Analysis GUI."])
         (start "abc123"),
     Ok tt).
Proof.
  apply (declined_update_changes_nothing linux_declining (start "abc123")
           (Some "def456") "abc123").
  - vm_compute. reflexivity.
  - vm_compute. reflexivity.
  - discriminate.
  - reflexivity.
Defined.

Lemma no_reference_offers_update_witness :
  ∃ rest, new_events (start "abc123")
                     (check_for_update linux_no_reference (start "abc123")).1
          = question_events ++ rest.
Proof.
  apply (no_reference_offers_update linux_no_reference (start "abc123")
           empty_listing "abc123" Normal).
  - reflexivity.
  - reflexivity.
  - reflexivity.
  - vm_compute. reflexivity.
  - discriminate.
  - reflexivity.
Defined.

Lemma no_reference_update_fails_witness :
  let h := linux_no_reference in
  let run := Update_GUI_files h repo_url root (root ++ ["ID.txt"]) None
               (delete_dir h) (start "abc123") in
  run.2 ≠ Ok tt
  ∧ ∀ s2, APPDATA h = None →
          for_each (update_files root (root ++ ["temp"])) (replace_file h) (staged h)
            = (s2, Ok tt) →
          (open_w (os_name h) (root ++ ["ID.txt"]) (fs s2)).2 = Ok tt →
          run = (with_fs (<[root ++ ["ID.txt"] := File "" Normal]> (fs s2))
                         (log [EvOpenW (root ++ ["ID.txt"])] s2),
                 Raise (Exn TypeError "write() argument must be str, not None")).
Proof.
  intros h.
  apply (no_reference_update_fails h repo_url root (start "abc123") (staged h)).
  apply (run_eta (stage h repo_url (root ++ ["temp"]) (delete_dir h)
                        (start "abc123")) (Ok true)).
  vm_compute. reflexivity.
Defined.

Lemma deferred_update_hands_over_witness :
  let h := windows in
  let temp_dir := root ++ ["temp"] in
  let ID_file := root ++ ["ID.txt"] in
  let files := update_files root temp_dir in
  let run := Update_GUI_files h repo_url root ID_file (Some "def456")
               (delete_dir h) (start "abc123") in
  run.2 = Ok tt
  ∧ fs run.1 !! (temp_dir ++ ["update.py"])
    = Some (File (join (map (render h) (script_of files))) Normal)
  ∧ fs run.1 !! ID_file = Some (File "def456" Normal)
  ∧ new_events (staged h) run.1 =
      EvOpenW (temp_dir ++ ["update.py"])
      :: map (EvWrite (temp_dir ++ ["update.py"])) (map (render h) (script_of files))
      ++ [EvFlush (temp_dir ++ ["update.py"]);
          EvFsync (temp_dir ++ ["update.py"]); EvSleep 5;
          EvPopen ["python"; str_path (os_sep h) (temp_dir ++ ["update.py"])];
          EvOpenW ID_file; EvWrite ID_file "def456"].
Proof.
  intros h temp_dir ID_file files.
  apply (deferred_update_hands_over h repo_url root "def456" (start "abc123")
           (staged h) "C:/Users/me/AppData/Roaming").
  - reflexivity.
  - reflexivity.
  - apply (run_eta (stage h repo_url (root ++ ["temp"]) (delete_dir h)
                          (start "abc123")) (Ok true)).
    vm_compute. reflexivity.
  - vm_compute. reflexivity.
  - vm_compute. reflexivity.
Defined.

Lemma written_identifier_is_up_to_date_witness :
  let ID_file := getcwd linux ++ ["ID.txt"] in
  let written := (open_write linux ID_file ;; opf_write_obj ID_file (Some "def456"))
                   (start "abc123") in
  check_for_update linux written.1 =
    remove_if_isdir (delete_dir linux) (getcwd linux ++ ["temp"])
                    (log [EvLsRemote repo_url "HEAD"] written.1).
Proof.
  intros ID_file written.
  apply (written_identifier_is_up_to_date linux (start "abc123") "def456").
  - vm_compute. reflexivity.
  - vm_compute. reflexivity.
Defined.

Lemma in_process_update_installs_witness :
  let h := linux in
  let temp_dir := root ++ ["temp"] in
  let ID_file := root ++ ["ID.txt"] in
  let files := update_files root temp_dir in
  let run := Update_GUI_files h repo_url root ID_file (Some "def456")
               (delete_dir h) (start "abc123") in
  run.2 = Ok tt
  ∧ Forall (λ e, fs run.1 !! e.1 = fs (staged h) !! e.2 ∧ fs run.1 !! e.2 = None)
           files
  ∧ fs run.1 !! ID_file = Some (File "def456" Normal)
  ∧ ∀ q, q ∉ files.*1 → q ∉ files.*2 → q ≠ ID_file →
         fs run.1 !! q = fs (staged h) !! q.
Proof.
  intros h temp_dir ID_file files.
  apply (in_process_update_installs h repo_url root "def456" (start "abc123")
           (staged h)).
  - reflexivity.
  - apply (run_eta (stage h repo_url (root ++ ["temp"]) (delete_dir h)
                          (start "abc123")) (Ok true)).
    vm_compute. reflexivity.
  - vm_compute. reflexivity.
  - vm_compute. reflexivity.
  - repeat apply Forall_cons_2; [..|apply Forall_nil_2].
    + split; [exists "launcher v2"; vm_compute; reflexivity|].
      split; vm_compute; [reflexivity|exact I].
    + split; [exists "main v2"; vm_compute; reflexivity|].
      split; vm_compute; [reflexivity|exact I].
    + split; [exists "update v2"; vm_compute; reflexivity|].
      split; vm_compute; [reflexivity|exact I].
    + split; [exists "workflows v2"; vm_compute; reflexivity|].
      split; vm_compute; [reflexivity|exact I].
  - vm_compute. exact I.
Defined.

End FurtherSamples.

(** ** The checks made before the GUI is loaded *)

Section StartupChecks.

Import Startup.
Open Scope startup_scope.

(** *** [str.split] with a separator, [str.lower] *)

Lemma split_on_nonempty (sep : ascii) (s : string) : split_on sep s ≠ [].
Proof.
  destruct s as [|a s]; simpl; [done|].
  destruct (decide (a = sep)); [done|]. by destruct (split_on sep s).
Qed.

Lemma split_on_app (sep : ascii) (a b : string) :
  split_on sep (a +:+ String sep b) = split_on sep a ++ split_on sep b.
Proof.
  induction a as [|x a IH].
  - change ("" +:+ String sep b) with (String sep b). simpl.
    by rewrite decide_True.
  - change (String x a +:+ String sep b) with (String x (a +:+ String sep b)).
    simpl. destruct (decide (x = sep)); [by rewrite IH|].
    rewrite IH. pose proof (split_on_nonempty sep a).
    by destruct (split_on sep a).
Qed.

Lemma split_on_pieces (sep : ascii) (s : string) :
  Forall (λ piece, Str.contains sep piece = false) (split_on sep s).
Proof.
  induction s as [|a s IH]; simpl; [by repeat constructor|].
  destruct (decide (a = sep)) as [->|Hne]; [by constructor|].
  destruct (split_on sep s) as [|piece pieces].
  - constructor; [|constructor]. simpl. by rewrite decide_False.
  - apply Forall_cons in IH as [Hp Hps]. constructor; [|done].
    simpl. by rewrite decide_False.
Qed.

Lemma split_on_whole (sep : ascii) (s : string) :
  Str.contains sep s = false → split_on sep s = [s].
Proof.
  induction s as [|a s IH]; simpl; [done|].
  destruct (decide (a = sep)); [done|]. intros Hs. by rewrite IH.
Qed.

Lemma lower_char_y (a : ascii) :
  lower_char a = "y"%char → a = "y"%char ∨ a = "Y"%char.
Proof.
  destruct a as [[] [] [] [] [] [] [] []]; vm_compute; intros H;
    first [discriminate H | by left | by right].
Qed.

Lemma lower_y (answer : string) :
  lower answer = "y" ↔ answer = "y" ∨ answer = "Y".
Proof.
  split.
  - destruct answer as [|a [|b rest]]; simpl; try done.
    intros [= Ha]. by destruct (lower_char_y a Ha) as [-> | ->]; [left|right].
  - by intros [-> | ->].
Qed.

(** *** [add_to_path] *)

Lemma add_to_path_run w (new_path : string) (s : state) :
  add_to_path w new_path s =
  match environ s !! "PATH" with
  | None => (s, Raise (Exn KeyError "'PATH'"))
  | Some old =>
      if bool_decide (new_path ∉ split_on (path_separator w) old) then
        ({| environ := <["PATH" := new_path +:+ String (path_separator w) ""
                                   +:+ old]> (environ s);
            modules := modules s; stdin := stdin s; trace := trace s |}, Ok tt)
      else (s, Ok tt)
  end.
Proof.
  unfold add_to_path, bind, environ_getitem, environ_setitem.
  destruct (environ s !! "PATH") as [old|] eqn:Hpath; [|done].
  destruct (bool_decide _); [|done]. by rewrite Hpath.
Qed.

(** X18: [add_to_path] needs [PATH] to be set: without it the lookup raises
    [KeyError].  Otherwise it returns normally; the entries of [PATH]
    are then the former ones, in their order, preceded by those of the
    new path unless the new path was one of them already, and no other
    variable has changed. *)
Theorem add_to_path_entries w (new_path : string) (s : state) :
  let sep := path_separator w in
  let run := add_to_path w new_path s in
  match environ s !! "PATH" with
  | None => run = (s, Raise (Exn KeyError "'PATH'"))
  | Some old =>
      run.2 = Ok tt
      ∧ (∃ new, environ run.1 !! "PATH" = Some new
           ∧ split_on sep new =
               if decide (new_path ∈ split_on sep old) then split_on sep old
               else split_on sep new_path ++ split_on sep old)
      ∧ ∀ key, key ≠ "PATH" → environ run.1 !! key = environ s !! key
  end.
Proof.
  intros sep run. unfold run. rewrite add_to_path_run. fold sep.
  destruct (environ s !! "PATH") as [old|] eqn:Hpath; [|done].
  destruct (decide (new_path ∈ split_on sep old)) as [Hin|Hout].
  - rewrite bool_decide_eq_false_2 by (by intros H; apply H).
    cbn [fst snd]. split; [done|]. split; [|done]. by exists old.
  - rewrite bool_decide_eq_true_2 by done. cbn [fst snd environ].
    split; [done|]. split.
    + eexists. split; [apply lookup_insert_eq|]. apply split_on_app.
    + intros key Hkey. by rewrite lookup_insert_ne.
Qed.

(** X19: for a path that does not hold the separator, a second
    [add_to_path] changes nothing. *)
Theorem add_to_path_idempotent w (new_path : string) (s : state) :
  is_Some (environ s !! "PATH") →
  Str.contains (path_separator w) new_path = false →
  let once := add_to_path w new_path s in
  add_to_path w new_path once.1 = (once.1, Ok tt).
Proof.
  intros [old Hpath] Hsep once. unfold once.
  rewrite (add_to_path_run w new_path s), Hpath.
  destruct (bool_decide (new_path ∉ split_on (path_separator w) old)) eqn:Hin.
  - cbn [fst]. rewrite add_to_path_run. cbn [environ].
    rewrite lookup_insert_eq.
    change (new_path +:+ String (path_separator w) "" +:+ old)
      with (new_path +:+ String (path_separator w) old).
    rewrite split_on_app, (split_on_whole _ _ Hsep).
    rewrite bool_decide_eq_false_2; [done|]. intros H. apply H. by left.
  - cbn [fst]. rewrite add_to_path_run, Hpath. by rewrite Hin.
Qed.

(** X20: a path that holds the separator is never recognised among the
    entries: it is put in front of [PATH] at every call. *)
Theorem add_to_path_compound w (new_path : string) (s : state) old :
  environ s !! "PATH" = Some old →
  Str.contains (path_separator w) new_path = true →
  environ (add_to_path w new_path s).1 !! "PATH"
  = Some (new_path +:+ String (path_separator w) "" +:+ old).
Proof.
  intros Hpath Hsep. rewrite add_to_path_run, Hpath.
  rewrite bool_decide_eq_true_2.
  - cbn [fst environ]. apply lookup_insert_eq.
  - intros Hin. pose proof (split_on_pieces (path_separator w) old) as Hall.
    rewrite Forall_forall in Hall. apply Hall in Hin. congruence.
Qed.

(** *** [check_python_packages], [offer_package_install] *)

Lemma checks_for_each_app {A} (l1 l2 : list A) (body : A → M unit) (s : state) :
  for_each (l1 ++ l2) body s = (for_each l1 body ;; for_each l2 body) s.
Proof.
  revert s. induction l1 as [|x l1 IH]; intros s; simpl.
  - done.
  - unfold bind in *. destruct (body x s) as [s1 [[]|e]]; [apply IH|done].
Qed.

Lemma import_present (package : string) (s : state) (handler : exn → option (M unit)) :
  package ∈ modules s →
  try_except (import_module package) handler s = (s, Ok tt).
Proof.
  intros Hin. unfold try_except, import_module.
  by rewrite bool_decide_eq_true_2.
Qed.

Lemma import_missing w (package : string) (s : state) :
  package ∉ modules s →
  try_except (import_module package)
    (except ModuleNotFoundError (λ _, offer_package_install w package)) s
  = offer_package_install w package s.
Proof.
  intros Hout. unfold try_except, import_module.
  by rewrite bool_decide_eq_false_2.
Qed.

Lemma packages_present w (packages : list string) (s : state) :
  Forall (λ package, package ∈ modules s) packages →
  check_python_packages w packages s = (s, Ok tt).
Proof.
  unfold check_python_packages.
  induction 1 as [|package packages Hin _ IH]; [done|].
  cbn [for_each]. unfold bind. by rewrite import_present.
Qed.

Lemma offer_package_install_run w (package : string) (s : state) :
  let prompt := EvPrint (package +:+ " cannot be found. Would you like to install it (y/n)?") in
  let name := if decide (package = "git") then "gitpython" else package in
  offer_package_install w package s =
  match stdin s with
  | [] =>
      ({| environ := environ s; modules := modules s; stdin := [];
          trace := trace s ++ [prompt; EvInput] |},
       Raise (Exn EOFError "EOF when reading a line"))
  | answer :: rest =>
      if decide (lower answer = "y") then
        ({| environ := environ s;
            modules := modules s ∪ list_to_set (pip_provides w name);
            stdin := rest;
            trace := trace s ++ [prompt; EvInput;
                                 EvPrint ("Installing " +:+ package +:+ "...");
                                 EvRun [executable w; "-m"; "pip"; "install"; name]] |},
         Ok tt)
      else
        ({| environ := environ s; modules := modules s; stdin := rest;
            trace := trace s ++ [prompt; EvInput;
                                 EvExit (Message "Exiting: Required package not installed.")] |},
         Raise (Exn SystemExit "Exiting: Required package not installed."))
  end.
Proof.
  intros prompt name.
  unfold offer_package_install, bind, print, emit, input, log.
  cbn [environ modules stdin trace].
  destruct (stdin s) as [|answer rest]; cbn [tail].
  - by rewrite <- app_assoc.
  - destruct (decide (lower answer = "y")).
    + unfold run_pip_install. cbn [environ modules stdin trace].
      by rewrite <- !app_assoc.
    + unfold sys_exit, bind, emit, raise, log. cbn [environ modules stdin trace].
      by rewrite <- !app_assoc.
Qed.

(** X21: [offer_package_install] installs exactly when the line read from
    the console is [y] or [Y].  It then runs [pip install] once, on
    [gitpython] when the package is [git] and on the package otherwise;
    any other line, or a closed input, ends it with an exception and
    without running [pip]. *)
Theorem offer_package_install_answer w (package : string) (s : state) :
  let run := offer_package_install w package s in
  let name := if decide (package = "git") then "gitpython" else package in
  let pip := EvRun [executable w; "-m"; "pip"; "install"; name] in
  (run.2 = Ok tt ↔ ∃ rest, stdin s = "y" :: rest ∨ stdin s = "Y" :: rest)
  ∧ (run.2 = Ok tt → last (trace run.1) = Some pip)
  ∧ (run.2 ≠ Ok tt → modules run.1 = modules s
                     ∧ ∀ argv, EvRun argv ∈ trace run.1 → EvRun argv ∈ trace s).
Proof.
  intros run name pip. unfold run. rewrite offer_package_install_run.
  destruct (stdin s) as [|answer rest] eqn:Hin.
  - cbn [fst snd]. split; [|split].
    + split; [done|]. by intros [rest [?|?]].
    + done.
    + intros _. split; [done|]. cbn [trace]. intros argv.
      rewrite elem_of_app, !elem_of_cons, elem_of_nil. by intros [?|[?|[?|?]]].
  - destruct (decide (lower answer = "y")) as [Hy|Hn]; cbn [fst snd].
    + split; [|split].
      * split; [|done]. intros _. exists rest.
        by destruct (proj1 (lower_y answer) Hy) as [-> | ->]; [left|right].
      * intros _. cbn [trace]. rewrite last_app. done.
      * done.
    + split; [|split].
      * split; [done|]. intros [rest' [[= -> _]|[= -> _]]]; by destruct Hn.
      * done.
      * intros _. split; [done|]. cbn [trace]. intros argv.
        rewrite elem_of_app, !elem_of_cons, elem_of_nil.
        by intros [?|[?|[?|[?|?]]]].
Qed.

(** X22: when every required package can be imported,
    [check_python_packages] asks nothing and changes nothing. *)
Theorem check_python_packages_present w (packages : list string) (s : state) :
  Forall (λ package, package ∈ modules s) packages →
  check_python_packages w packages s = (s, Ok tt).
Proof.
  intros Hall. unfold check_python_packages.
  induction Hall as [|package packages Hin _ IH]; [done|].
  cbn [for_each]. unfold bind, try_except, import_module.
  rewrite bool_decide_eq_true_2 by done. exact IH.
Qed.

(** X23: [check_python_packages] stops at the first missing package whose
    installation is declined: it exits with the message of
    [offer_package_install], and the packages after it are not looked
    at. *)
Theorem check_python_packages_declined w (before after : list string)
    (package : string) (s : state) answer rest :
  Forall (λ p, p ∈ modules s) before →
  package ∉ modules s →
  stdin s = answer :: rest →
  answer ≠ "y" → answer ≠ "Y" →
  check_python_packages w (before ++ package :: after) s =
    ({| environ := environ s; modules := modules s; stdin := rest;
        trace := trace s ++
          [EvPrint (package +:+ " cannot be found. Would you like to install it (y/n)?");
           EvInput;
           EvExit (Message "Exiting: Required package not installed.")] |},
     Raise (Exn SystemExit "Exiting: Required package not installed.")).
Proof.
  intros Hbefore Hmissing Hin Hy HY.
  unfold check_python_packages. rewrite checks_for_each_app.
  unfold bind at 1. fold (check_python_packages w before).
  rewrite packages_present by done.
  cbn [for_each]. unfold bind at 1. rewrite import_missing by done.
  rewrite offer_package_install_run, Hin.
  rewrite decide_False; [done|]. intros [?|?]%lower_y; done.
Qed.

(** X24: the installation is not verified: when [pip] provides nothing
    (it failed, or the package does not exist), an accepted
    installation lets [check_python_packages] go on, and it returns
    normally with the package still missing. *)
Theorem check_python_packages_unverified w (before after : list string)
    (package : string) (s : state) answer rest :
  Forall (λ p, p ∈ modules s) before →
  package ∉ modules s →
  Forall (λ p, p ∈ modules s) after →
  stdin s = answer :: rest →
  answer = "y" ∨ answer = "Y" →
  pip_provides w (if decide (package = "git") then "gitpython" else package) = [] →
  let run := check_python_packages w (before ++ package :: after) s in
  run.2 = Ok tt ∧ (package ∉ modules run.1) ∧ stdin run.1 = rest.
Proof.
  intros Hbefore Hmissing Hafter Hin Hanswer Hpip run.
  set (name := if decide (package = "git") then "gitpython" else package) in *.
  assert (Hrun : run =
    ({| environ := environ s; modules := modules s ∪ list_to_set [];
        stdin := rest;
        trace := trace s ++
          [EvPrint (package +:+ " cannot be found. Would you like to install it (y/n)?");
           EvInput; EvPrint ("Installing " +:+ package +:+ "...");
           EvRun [executable w; "-m"; "pip"; "install"; name]] |}, Ok tt)).
  { unfold run, check_python_packages. rewrite checks_for_each_app.
    unfold bind at 1. fold (check_python_packages w before).
    rewrite packages_present by done.
    cbn [for_each]. unfold bind at 1. rewrite import_missing by done.
    rewrite offer_package_install_run, Hin.
    rewrite decide_True by (by apply lower_y). fold name. rewrite Hpip.
    fold (check_python_packages w after).
    apply packages_present. cbn [modules].
    eapply Forall_impl; [exact Hafter|]. intros p Hp.
    apply elem_of_union. by left. }
  rewrite Hrun. cbn [fst snd modules stdin]. split; [done|]. split; [|done].
  rewrite list_to_set_nil, elem_of_union, elem_of_empty. tauto.
Qed.

Lemma checks_bind_inv {A B} (m : M A) (k : A → M B) (s s' : state) r :
  bind m k s = (s', r) →
  (∃ s1 a, m s = (s1, Ok a) ∧ k a s1 = (s', r))
  ∨ (∃ e, m s = (s', Raise e) ∧ r = Raise e).
Proof.
  unfold bind. destruct (m s) as [s1 [a|e]]; intros H.
  - left. by exists s1, a.
  - right. injection H as <- <-. by exists e.
Qed.

(** *** [check_msconvert] *)

Lemma OSError_not_CalledProcessError (e : exn) :
  isinstance e OSError = true → isinstance e CalledProcessError = false.
Proof. destruct e as [[] msg]; by vm_compute. Qed.

(** X25: [check_msconvert] answers [True] when [msconvert] ran and exited
    with status 0, and [False] only when the call raised
    [CalledProcessError], that is when [msconvert] ran and exited with
    another status.  When the program could not be started, the
    [OSError] of the start is not caught: the function raises instead
    of answering [False]. *)
Theorem check_msconvert_outcome w (s : state) :
  let run := check_msconvert w s in
  (run.2 = Ok true ↔ msconvert w = Ok tt)
  ∧ (run.2 = Ok false ↔
     ∃ e, msconvert w = Raise e ∧ isinstance e CalledProcessError = true)
  ∧ (∀ e, msconvert w = Raise e → isinstance e OSError = true →
          run.2 = Raise e).
Proof.
  intros run. unfold run, check_msconvert, try_except, bind,
    run_msconvert_checked, except, ret.
  destruct (msconvert w) as [[]|e] eqn:Hrun; cbn [fst snd].
  - split; [done|]. split; [|done]. split; [done|]. by intros (e & [=] & _).
  - destruct (isinstance e CalledProcessError) eqn:He; cbn [snd].
    + split; [done|]. split.
      * split; [|done]. intros _. by exists e.
      * intros e' [= <-] Hos. apply OSError_not_CalledProcessError in Hos.
        congruence.
    + split; [done|]. split.
      * split; [done|]. intros (e' & [= <-] & He'). congruence.
      * by intros e' [= <-] _.
Qed.

(** *** [find_git_executable], [find_github_desktop] *)

Lemma git_from_registry_state w (hives : list hive) (s : state) :
  (git_from_registry w hives s).1 = s.
Proof.
  induction hives as [|hkey rest IH]; [done|].
  cbn [git_from_registry]. unfold bind, winreg_query.
  destruct (reg_query w hkey _ _) as [path|e]; [|done].
  by destruct (path_exists w _).
Qed.

Lemma find_git_executable_state w (s : state) : (find_git_executable w s).1 = s.
Proof.
  unfold find_git_executable, bind.
  destruct (decide (system w = "Windows")) as [Hsys|Hsys].
  - unfold try_except.
    pose proof (git_from_registry_state w
                  [HKEY_LOCAL_MACHINE; HKEY_CURRENT_USER] s) as Hs.
    destruct (git_from_registry w _ s) as [s' [[found|]|e]]; cbn [fst] in Hs;
      subst s'.
    + done.
    + by destruct (which w (environ s) "git").
    + unfold orelse, except.
      destruct (isinstance e FileNotFoundError); cbn [ret].
      { by destruct (which w (environ s) "git"). }
      destruct (isinstance e OSError); cbn [ret]; [|done].
      by destruct (which w (environ s) "git").
  - cbn [ret]. by destruct (which w (environ s) "git").
Qed.

Lemma find_github_desktop_state w (s : state) : (find_github_desktop w s).1 = s.
Proof.
  unfold find_github_desktop, bind.
  destruct (decide (system w = "Windows")) as [Hsys|Hsys]; [|done].
  unfold try_except, bind, winreg_query.
  destruct (reg_query w _ _ _) as [path|e].
  - by destruct (path_exists w _).
  - unfold orelse, except.
    destruct (isinstance e FileNotFoundError); [done|].
    by destruct (isinstance e OSError).
Qed.

(** What [find_git_executable] falls back on when the registry gives
    nothing. *)
Lemma registry_failure_handled (e : exn) :
  isinstance e OSError = true →
  ∃ k, orelse (except FileNotFoundError (λ _, ret (None : option string)))
              (except OSError (λ _, ret None)) e = Some k
       ∧ k = ret None.
Proof.
  intros He. unfold orelse, except. rewrite He.
  destruct (isinstance e FileNotFoundError); by eexists.
Qed.

(** X26: on Windows the two hives are read inside one [try]: when the key
    is missing from [HKEY_LOCAL_MACHINE], the error ends the loop, and
    [HKEY_CURRENT_USER] is not read.  The answer is then that of
    [shutil.which], or else the first of the usual paths that is a
    file, whatever the second hive holds. *)
Theorem find_git_executable_skips_user_hive w (s : state) e :
  system w = "Windows" →
  reg_query w HKEY_LOCAL_MACHINE "Software\GitForWindows" "InstallPath" = Raise e →
  isinstance e OSError = true →
  find_git_executable w s =
    (s, Ok (match which w (environ s) "git" with
            | Some git_path => Some git_path
            | None => first_hit (λ p, path_is_file w (Path p [])) unix_paths
            end)).
Proof.
  intros Hsys Hreg He. unfold find_git_executable.
  rewrite decide_True by done.
  unfold bind at 1, try_except. cbn [git_from_registry].
  unfold bind at 1, winreg_query. rewrite Hreg.
  destruct (registry_failure_handled e He) as (k & -> & ->). cbn [ret].
  by destruct (which w (environ s) "git").
Qed.



(** *** [check_git] *)

Lemma unsupported_desktop w (s : state) :
  system w ∉ ["Windows"; "Darwin"; "Linux"] →
  find_github_desktop w s = (s, Ok None).
Proof.
  intros Hsys. rewrite !elem_of_cons, elem_of_nil in Hsys.
  unfold find_github_desktop, bind.
  rewrite decide_False by tauto. cbn [ret].
  rewrite !decide_False by tauto. reflexivity.
Qed.

(** X27: on a platform that is neither Windows nor macOS nor Linux no
    place is searched for GitHub Desktop: [check_git] prints that it
    is not installed and exits with status 0; [PATH] is not touched
    and [git] is not looked for. *)
Theorem check_git_unsupported_platform w (s : state) :
  system w ∉ ["Windows"; "Darwin"; "Linux"] →
  check_git w s =
    (log [EvPrint "GitHub Desktop is not installed. Please install from the following URL to the default directory:";
          EvPrint "https://desktop.github.com/";
          EvExit (Status 0)] s,
     Raise (Exn SystemExit "0")).
Proof.
  intros Hsys. unfold check_git. unfold bind at 1.
  rewrite unsupported_desktop by done. cbn [truthy negb].
  unfold bind, print, sys_exit, bind, emit, raise, log.
  cbn [environ modules stdin trace]. by rewrite <- !app_assoc.
Qed.

Lemma add_to_path_members w (new_path : string) (s : state) old :
  environ s !! "PATH" = Some old →
  ∃ new,
    add_to_path w new_path s =
      ({| environ := <["PATH" := new]> (environ s); modules := modules s;
          stdin := stdin s; trace := trace s |}, Ok tt)
    ∧ (∀ entry, entry ∈ split_on (path_separator w) old →
                entry ∈ split_on (path_separator w) new)
    ∧ (Str.contains (path_separator w) new_path = false →
       new_path ∈ split_on (path_separator w) new).
Proof.
  intros Hpath. rewrite add_to_path_run, Hpath.
  destruct (decide (new_path ∈ split_on (path_separator w) old)) as [Hin|Hout].
  - rewrite bool_decide_eq_false_2 by (by intros H; apply H).
    exists old. split; [|done].
    rewrite insert_id by done. by destruct s.
  - rewrite bool_decide_eq_true_2 by done.
    eexists. split; [reflexivity|].
    change (new_path +:+ String (path_separator w) "" +:+ old)
      with (new_path +:+ String (path_separator w) old).
    rewrite split_on_app. split.
    + intros entry Hentry. apply elem_of_app. by right.
    + intros Hsep. rewrite (split_on_whole _ _ Hsep). by left.
Qed.

(** X28: when [check_git] returns, GitHub Desktop and [git] have both been
    found, [git] having been looked for with the directory of GitHub
    Desktop already on [PATH]; the entries that [PATH] had are still
    there, and so are the two paths found, as far as they do not hold
    the separator. *)
Theorem check_git_postcondition w (s : state) :
  (check_git w s).2 = Ok tt →
  ∃ desktop git old new,
    (find_github_desktop w s).2 = Ok (Some desktop)
    ∧ (find_git_executable w (add_to_path w desktop s).1).2 = Ok (Some git)
    ∧ environ s !! "PATH" = Some old
    ∧ environ (check_git w s).1 !! "PATH" = Some new
    ∧ (∀ entry, entry ∈ split_on (path_separator w) old →
                entry ∈ split_on (path_separator w) new)
    ∧ (Str.contains (path_separator w) desktop = false →
       desktop ∈ split_on (path_separator w) new)
    ∧ (Str.contains (path_separator w) git = false →
       git ∈ split_on (path_separator w) new).
Proof.
  intros Hok.
  destruct (check_git w s) as [sf rf] eqn:Hrun. cbn [fst snd] in *. subst rf.
  unfold check_git in Hrun.
  apply checks_bind_inv in Hrun as [(s0 & found & Hfd & Hrun)|(e & _ & [=])].
  pose proof (find_github_desktop_state w s) as Hs. rewrite Hfd in Hs.
  cbn [fst] in Hs. subst s0.
  apply checks_bind_inv in Hrun as [(s1 & [] & Hadd & Hrun)|(e & _ & [=])].
  destruct found as [desktop|]; cbn [truthy negb default] in Hadd; last first.
  { unfold bind, print, sys_exit, bind, emit, raise in Hadd. done. }
  destruct (bool_decide (desktop ≠ "")); cbn [negb] in Hadd; last first.
  { unfold bind, print, sys_exit, bind, emit, raise in Hadd. done. }
  change (add_to_path w _ s) with (add_to_path w desktop s) in Hadd.
  destruct (environ s !! "PATH") as [old|] eqn:Hpath; last first.
  { rewrite add_to_path_run, Hpath in Hadd. done. }
  destruct (add_to_path_members w desktop s old Hpath) as (mid & Hmid & Hkeep & Hd).
  rewrite Hmid in Hadd. injection Hadd as <-.
  set (s1 := {| environ := <["PATH" := mid]> (environ s) |}) in *.
  apply checks_bind_inv in Hrun as [(s2 & found & Hfg & Hrun)|(e & _ & [=])].
  pose proof (find_git_executable_state w s1) as Hs1. rewrite Hfg in Hs1.
  cbn [fst] in Hs1. subst s2.
  destruct found as [git|]; cbn [truthy negb default] in Hrun; last first.
  { unfold bind, print, sys_exit, bind, emit, raise in Hrun. done. }
  destruct (bool_decide (git ≠ "")); cbn [negb] in Hrun; last first.
  { unfold bind, print, sys_exit, bind, emit, raise in Hrun. done. }
  change (add_to_path w _ ?x) with (add_to_path w git x) in Hrun.
  assert (Hpath1 : environ s1 !! "PATH" = Some mid) by apply lookup_insert_eq.
  destruct (add_to_path_members w git s1 mid Hpath1) as (new & Hnew & Hkeep2 & Hg).
  rewrite Hnew in Hrun. injection Hrun as <-.
  exists desktop, git, old, new. rewrite Hfd, Hmid. cbn [fst snd environ].
  rewrite Hfg. cbn [snd].
  split; [done|]. split; [done|]. split; [done|].
  split; [apply lookup_insert_eq|]. split; [|split].
  - intros entry Hentry. by apply Hkeep2, Hkeep.
  - intros Hsep. by apply Hkeep2, Hd.
  - done.
Qed.

(** *** On the sample machines *)

Ltac computed :=
  match goal with
  | |- ?P => apply (bool_decide_unpack P); vm_compute; exact I
  end.

Lemma add_to_path_entries_witness :
  let run := add_to_path linux_box "/opt/git/bin" (console [] []) in
  run.2 = Ok tt
  ∧ (∃ new, environ run.1 !! "PATH" = Some new
       ∧ split_on ":" new =
           if decide ("/opt/git/bin" ∈ split_on ":" "/usr/bin:/bin")
           then split_on ":" "/usr/bin:/bin"
           else split_on ":" "/opt/git/bin" ++ split_on ":" "/usr/bin:/bin")
  ∧ ∀ key, key ≠ "PATH" → environ run.1 !! key = environ (console [] []) !! key.
Proof.
  exact (add_to_path_entries linux_box "/opt/git/bin" (console [] [])).
Defined.

Lemma add_to_path_idempotent_witness :
  let once := add_to_path linux_box "/opt/git/bin" (console [] []) in
  add_to_path linux_box "/opt/git/bin" once.1 = (once.1, Ok tt).
Proof.
  apply (add_to_path_idempotent linux_box "/opt/git/bin" (console [] [])).
  - computed.
  - vm_compute. reflexivity.
Defined.

Lemma add_to_path_compound_witness :
  environ (add_to_path linux_box "/opt/a:/opt/b" (console [] [])).1 !! "PATH"
  = Some ("/opt/a:/opt/b" +:+ String (path_separator linux_box) ""
          +:+ "/usr/bin:/bin").
Proof.
  apply (add_to_path_compound linux_box "/opt/a:/opt/b" (console [] [])).
  - vm_compute. reflexivity.
  - vm_compute. reflexivity.
Defined.

Lemma offer_package_install_answer_witness :
  let s := console [] ["Y"] in
  let run := offer_package_install linux_box "git" s in
  let name := if decide ("git" = "git") then "gitpython" else "git" in
  let pip := EvRun [executable linux_box; "-m"; "pip"; "install"; name] in
  (run.2 = Ok tt ↔ ∃ rest, stdin s = "y" :: rest ∨ stdin s = "Y" :: rest)
  ∧ (run.2 = Ok tt → last (trace run.1) = Some pip)
  ∧ (run.2 ≠ Ok tt → modules run.1 = modules s
                     ∧ ∀ argv, EvRun argv ∈ trace run.1 → EvRun argv ∈ trace s).
Proof.
  exact (offer_package_install_answer linux_box "git" (console [] ["Y"])).
Defined.

Lemma check_python_packages_present_witness :
  check_python_packages linux_box required_packages (console required_packages [])
  = (console required_packages [], Ok tt).
Proof.
  apply (check_python_packages_present linux_box required_packages
           (console required_packages [])).
  computed.
Defined.

Lemma check_python_packages_declined_witness :
  let s := console ["PyQt6"; "pyteomics"; "lxml"; "pandas"] ["n"] in
  check_python_packages linux_box (["PyQt6"; "pyteomics"] ++ "numpy" :: ["lxml"; "pandas"]) s =
    ({| environ := environ s; modules := modules s; stdin := [];
        trace := trace s ++
          [EvPrint ("numpy" +:+ " cannot be found. Would you like to install it (y/n)?");
           EvInput;
           EvExit (Message "Exiting: Required package not installed.")] |},
     Raise (Exn SystemExit "Exiting: Required package not installed.")).
Proof.
  intros s.
  apply (check_python_packages_declined linux_box ["PyQt6"; "pyteomics"]
           ["lxml"; "pandas"] "numpy" s "n" []).
  - computed.
  - computed.
  - reflexivity.
  - discriminate.
  - discriminate.
Defined.

Lemma check_python_packages_unverified_witness :
  let s := console ["PyQt6"; "pyteomics"; "lxml"; "pandas"] ["y"] in
  let run := check_python_packages linux_box
               (["PyQt6"; "pyteomics"] ++ "numpy" :: ["lxml"; "pandas"]) s in
  run.2 = Ok tt ∧ ("numpy" ∉ modules run.1) ∧ stdin run.1 = [].
Proof.
  intros s.
  apply (check_python_packages_unverified linux_box ["PyQt6"; "pyteomics"]
           ["lxml"; "pandas"] "numpy" s "y" []).
  - computed.
  - computed.
  - computed.
  - reflexivity.
  - by left.
  - reflexivity.
Defined.

Lemma check_msconvert_outcome_witness :
  let run := check_msconvert linux_box (console [] []) in
  (run.2 = Ok true ↔ msconvert linux_box = Ok tt)
  ∧ (run.2 = Ok false ↔
     ∃ e, msconvert linux_box = Raise e ∧ isinstance e CalledProcessError = true)
  ∧ (∀ e, msconvert linux_box = Raise e → isinstance e OSError = true →
          run.2 = Raise e).
Proof. exact (check_msconvert_outcome linux_box (console [] [])). Defined.

Lemma find_git_executable_skips_user_hive_witness :
  let s := console [] [] in
  find_git_executable windows_box s =
    (s, Ok (match which windows_box (environ s) "git" with
            | Some git_path => Some git_path
            | None => first_hit (λ p, path_is_file windows_box (Path p [])) unix_paths
            end)).
Proof.
  intros s.
  apply (find_git_executable_skips_user_hive windows_box s no_key).
  - reflexivity.
  - reflexivity.
  - reflexivity.
Defined.


Lemma check_git_unsupported_platform_witness :
  check_git bsd_box (console [] []) =
    (log [EvPrint "GitHub Desktop is not installed. Please install from the following URL to the default directory:";
          EvPrint "https://desktop.github.com/";
          EvExit (Status 0)] (console [] []),
     Raise (Exn SystemExit "0")).
Proof.
  apply (check_git_unsupported_platform bsd_box (console [] [])).
  computed.
Defined.

Lemma check_git_postcondition_witness :
  let w := linux_box in
  let s := console [] [] in
  ∃ desktop git old new,
    (find_github_desktop w s).2 = Ok (Some desktop)
    ∧ (find_git_executable w (add_to_path w desktop s).1).2 = Ok (Some git)
    ∧ environ s !! "PATH" = Some old
    ∧ environ (check_git w s).1 !! "PATH" = Some new
    ∧ (∀ entry, entry ∈ split_on (path_separator w) old →
                entry ∈ split_on (path_separator w) new)
    ∧ (Str.contains (path_separator w) desktop = false →
       desktop ∈ split_on (path_separator w) new)
    ∧ (Str.contains (path_separator w) git = false →
       git ∈ split_on (path_separator w) new).
Proof.
  intros w s. apply (check_git_postcondition w s).
  vm_compute. reflexivity.
Defined.

(** On the Linux machine [check_git] puts the path of the [git]
    program itself, not its directory, in front of [PATH]. *)
Example check_git_on_linux :
  environ (check_git linux_box (console [] [])).1 !! "PATH"
  = Some "/usr/bin/git:/usr/bin/github-desktop:/usr/bin:/bin".
Proof. vm_compute. reflexivity. Qed.

(** On the Windows machine Git for Windows is registered for the
    current user, and [find_git_executable] does not find it. *)
Example find_git_executable_on_windows :
  reg_query windows_box HKEY_CURRENT_USER "Software\GitForWindows" "InstallPath"
  = Ok "C:\Git"
  ∧ path_exists windows_box (Path "C:\Git" ["bin"; "git.exe"]) = true
  ∧ (find_git_executable windows_box (console [] [])).2 = Ok None.
Proof. vm_compute. repeat split; reflexivity. Qed.

End StartupChecks.
